(** * jkgx/types: SQL and JSON adapters for nullable timestamps and raw JSON

    A shallow embedding of [types.go] and of the parts of Go's standard
    library it calls ([time], [encoding/json], [database/sql], [fmt]; as of
    Go 1.20 to 1.22), followed by the properties of the adapters.

    Go values are modelled as they are laid out: a [[]byte] and a [string]
    as lists of bytes, [uint64] and [int64] as integers with the
    wrap-around written out, [time.Time] by its three fields. A method
    with a pointer receiver takes the value the receiver points to and
    returns the error together with the value it leaves there. *)

From Stdlib Require Import String ZArith List Lia Bool PrimFloat.
From Stdlib.Strings Require Import Byte.
Import ListNotations.
Local Open Scope Z_scope.

(** ** Go data: byte sequences, fixed-width integers, errors *)

(** A Go [[]byte] and a Go [string] are both sequences of bytes. *)
Definition bytes := list byte.

(** A string literal of the source, as its bytes. *)
Definition lit (s : string) : bytes := list_byte_of_string s.

(** The numeric value of a byte, and the byte of a number (mod 256). *)
Definition bv (c : byte) : Z := Z.of_N (Byte.to_N c).

Definition byte_of (z : Z) : byte :=
  match Byte.of_N (Z.to_N (z mod 256)) with
  | Some b => b
  | None => x00
  end.

Definition quote_byte : byte := x22.
Definition backslash_byte : byte := x5c.

(** Conversions to [uint64] and [int64]: wrap-around, written out. *)
Definition u64 (z : Z) : Z := z mod 2 ^ 64.
Definition i64 (z : Z) : Z := (z + 2 ^ 63) mod 2 ^ 64 - 2 ^ 63.

(** Go's [/] and [%] on signed integers truncate toward zero. *)
Definition go_div (a b : Z) : Z := Z.quot a b.
Definition go_rem (a b : Z) : Z := Z.rem a b.

(** [s[i:j]] and [s[i]] on byte sequences; the callers below establish the
    bounds before they slice, as the Go code does. *)
Definition slice (s : bytes) (i j : nat) : bytes := firstn (j - i) (skipn i s).
Definition at_ (s : bytes) (i : nat) : byte := nth i s x00.

Fixpoint bytes_eqb (a b : bytes) : bool :=
  match a, b with
  | [], [] => true
  | x :: a', y :: b' => Byte.eqb x y && bytes_eqb a' b'
  | _, _ => false
  end.

(** Go [error] values, by their dynamic type. *)
Inductive error : Type :=
| errors_New (text : bytes)
    (* errors.New(text) *)
| fmt_Errorf (format : bytes) (a : error)
    (* fmt.Errorf(format, a) with one %s verb: text is format with a.Error() *)
| json_SyntaxError_char (c : byte) (context : bytes) (Offset : Z)
    (* &json.SyntaxError{"invalid character " + quoteChar(c) + " " + context, Offset} *)
| json_SyntaxError_eof (Offset : Z)
    (* &json.SyntaxError{"unexpected end of JSON input", Offset} *)
| json_MarshalerError (Type_ : bytes) (Err : error) (sourceFunc : bytes)
    (* &json.MarshalerError{Type, Err, sourceFunc} *)
| other_error (Type_ : bytes) (text : bytes).
    (* an error of any other dynamic type, with its Error() text *)

Inductive result (A : Type) : Type :=
| Ok (a : A)
| Err (e : error).
Arguments Ok {A} a.
Arguments Err {A} e.

(** ** package time: the [Time] value *)

(** What [Location.lookup] reports for an instant: the offset east of UTC
    in seconds and the interval [start, end) of Unix seconds on which the
    zone is in effect. *)
Record zoneInfo : Type := mkZoneInfo {
  zi_name : bytes;
  zi_offset : Z;
  zi_start : Z;
  zi_end : Z
}.

(** A [time.Location] other than [utcLoc]: its name and its transition
    table, the table being given by the lookup it answers. *)
Record Location : Type := mkLocation {
  loc_name : bytes;
  loc_lookup : Z -> zoneInfo
}.

(** [*Location] arguments: [time.UTC] (the address of [utcLoc]) or the
    address of another location. *)
Inductive LocationPtr : Type :=
| UTC
| LocPtr (l : Location).

(** [time.Time]: [wall] is a [uint64], [ext] an [int64]; [loc] is [None]
    for the nil pointer, which means UTC. *)
Record Time : Type := mkTime {
  wall : Z;
  ext : Z;
  loc : option Location
}.

(** ** package database/sql/driver: driver values *)

(** [driver.Value]: nil, or one of [int64], [float64], [bool], [[]byte],
    [string], [time.Time]. *)
Inductive driver_Value : Type :=
| DNil
| DInt64 (n : Z)
| DFloat64 (f : float)
| DBool (b : bool)
| DBytes (b : bytes)
| DString (s : bytes)
| DTime (t : Time).

(** ** package strconv / fmt *)

Definition digit_byte (d : Z) : byte := byte_of (bv "0"%byte + d).

(** The decimal digits of [u >= 0], most significant first; [fuel] bounds
    the number of digits. *)
Fixpoint decimal_rev (fuel : nat) (u : Z) : bytes :=
  match fuel with
  | O => []
  | S k => if u <? 10 then [digit_byte u]
           else digit_byte (u mod 10) :: decimal_rev k (u / 10)
  end.

Definition decimal (u : Z) : bytes := rev (decimal_rev 20 u).

(** [strconv.FormatInt(n, 10)] for an [int64]. *)
Definition FormatInt (n : Z) : bytes :=
  if n <? 0 then "-"%byte :: decimal (- n) else decimal n.

Section Fmt.

(** The renderings [fmt] delegates to and that are not modelled here:
    [%v] of a [float64] (shortest representation that round-trips) and
    [time.Time.String]. *)
Variable fmtFloat_v : float -> bytes.
Variable Time_String : Time -> bytes.

(** [fmt.Sprintf("%s", value)] on a driver value. Strings and byte slices
    are written as they are, a [time.Time] is a [Stringer]; for the other
    operands [%s] is a bad verb and [fmt] writes [%!s(type=value)], or
    [%!s(<nil>)] for nil. *)
Definition Sprintf_s (value : driver_Value) : bytes :=
  match value with
  | DNil => lit "%!s(<nil>)"
  | DInt64 n => lit "%!s(int64=" ++ FormatInt n ++ lit ")"
  | DFloat64 f => lit "%!s(float64=" ++ fmtFloat_v f ++ lit ")"
  | DBool b => lit "%!s(bool=" ++ (if b then lit "true" else lit "false") ++ lit ")"
  | DBytes b => b
  | DString s => s
  | DTime t => Time_String t
  end.

End Fmt.

(** ** package time: constants and the instant a [Time] denotes *)

Definition secondsPerMinute : Z := 60.
Definition secondsPerHour : Z := 60 * secondsPerMinute.
Definition secondsPerDay : Z := 24 * secondsPerHour.
Definition daysPer400Years : Z := 365 * 400 + 97.
Definition daysPer100Years : Z := 365 * 100 + 24.
Definition daysPer4Years : Z := 365 * 4 + 1.

Definition absoluteZeroYear : Z := -292277022399.
Definition absoluteToInternal : Z := -9223371966579724800.
Definition internalToAbsolute : Z := - absoluteToInternal.
Definition unixToInternal : Z :=
  (1969 * 365 + 1969 / 4 - 1969 / 100 + 1969 / 400) * secondsPerDay.
Definition internalToUnix : Z := - unixToInternal.
Definition wallToInternal : Z :=
  (1884 * 365 + 1884 / 4 - 1884 / 100 + 1884 / 400) * secondsPerDay.

Definition hasMonotonic : Z := Z.shiftl 1 63.
Definition nsecShift : Z := 30.
Definition nsecMask : Z := Z.shiftl 1 30 - 1.

(** [alpha] and [omega]: the ends of the time line of a zone. *)
Definition alpha : Z := - 2 ^ 63.
Definition omega : Z := 2 ^ 63 - 1.

(** [t.nsec()]: the nanoseconds within the second. *)
Definition Time_nsec (t : Time) : Z := Z.land (wall t) nsecMask.

(** [t.sec()]: seconds since January 1, year 1. With the monotonic bit set
    the wall seconds are the 33 bits above the nanoseconds, counted from
    1885; otherwise they are [ext]. *)
Definition Time_sec (t : Time) : Z :=
  if negb (Z.land (wall t) hasMonotonic =? 0)
  then i64 (wallToInternal + Z.shiftr (u64 (Z.shiftl (wall t) 1)) (nsecShift + 1))
  else ext t.

(** [t.unixSec()] *)
Definition Time_unixSec (t : Time) : Z := i64 (Time_sec t + internalToUnix).

(** [t.IsZero()]: the instant is January 1, year 1, 00:00:00 UTC. *)
Definition Time_IsZero (t : Time) : bool :=
  (Time_sec t =? 0) && (Time_nsec t =? 0).

(** [t.Equal(u)]: the same instant, whatever the locations. *)
Definition Time_Equal (t u : Time) : bool :=
  if negb (Z.land (Z.land (wall t) (wall u)) hasMonotonic =? 0)
  then ext t =? ext u
  else (Time_sec t =? Time_sec u) && (Time_nsec t =? Time_nsec u).

(** [t.stripMono()] *)
Definition Time_stripMono (t : Time) : Time :=
  if negb (Z.land (wall t) hasMonotonic =? 0)
  then mkTime (Z.land (wall t) nsecMask) (Time_sec t) (loc t)
  else t.

(** [t.setLoc(loc)]: [utcLoc] is stored as the nil pointer. *)
Definition Time_setLoc (t : Time) (l : LocationPtr) : Time :=
  let t' := Time_stripMono t in
  mkTime (wall t') (ext t')
         (match l with UTC => None | LocPtr l' => Some l' end).

(** [t.addSec(d)]: saturating on [ext] when there is no monotonic reading
    or when the wall seconds leave their 33 bits. *)
Definition Time_addSec (t : Time) (d : Z) : Time :=
  let plain (t : Time) :=
    let sum := i64 (ext t + d) in
    if Bool.eqb (ext t <? sum) (0 <? d) then mkTime (wall t) sum (loc t)
    else if 0 <? d then mkTime (wall t) (2 ^ 63 - 1) (loc t)
    else mkTime (wall t) (- (2 ^ 63 - 1)) (loc t) in
  if negb (Z.land (wall t) hasMonotonic =? 0) then
    let sec := Z.shiftr (u64 (Z.shiftl (wall t) 1)) (nsecShift + 1) in
    let dsec := i64 (sec + d) in
    if (0 <=? dsec) && (dsec <=? 2 ^ 33 - 1)
    then mkTime (Z.lor (Z.lor (Z.land (wall t) nsecMask)
                              (u64 (Z.shiftl dsec nsecShift)))
                       hasMonotonic)
                (ext t) (loc t)
    else plain (Time_stripMono t)
  else plain t.

(** [l.lookup(sec)] through a [*Location]; [utcLoc] has no zones. *)
Definition lookup (l : LocationPtr) (sec : Z) : zoneInfo :=
  match l with
  | UTC => mkZoneInfo (lit "UTC") 0 alpha omega
  | LocPtr l' => loc_lookup l' sec
  end.

(** [time.FixedZone(name, offset)] *)
Definition FixedZone (name : bytes) (offset : Z) : Location :=
  mkLocation name (fun _ => mkZoneInfo name offset alpha omega).

(** [t.locabs()]: the zone offset in effect at [t] and the seconds since
    the absolute zero year, on the clock of [t]'s location. *)
Definition Time_locabs (t : Time) : Z * Z :=
  let sec := Time_unixSec t in
  let offset := match loc t with
                | None => 0
                | Some l => zi_offset (loc_lookup l sec)
                end in
  let sec' := match loc t with
              | None => sec
              | Some _ => i64 (sec + offset)
              end in
  (offset, u64 (i64 (sec' + (unixToInternal + internalToAbsolute)))).

(** [t.abs()] *)
Definition Time_abs (t : Time) : Z := snd (Time_locabs t).

(** [isLeap(year)] *)
Definition isLeap (year : Z) : bool :=
  (go_rem year 4 =? 0) &&
  (negb (go_rem year 100 =? 0) || (go_rem year 400 =? 0)).

(** [daysBefore[m]]: days in a non-leap year before month [m+1]. *)
Definition daysBefore_table : list Z :=
  [0; 31; 31 + 28; 31 + 28 + 31; 31 + 28 + 31 + 30; 31 + 28 + 31 + 30 + 31;
   31 + 28 + 31 + 30 + 31 + 30; 31 + 28 + 31 + 30 + 31 + 30 + 31;
   31 + 28 + 31 + 30 + 31 + 30 + 31 + 31;
   31 + 28 + 31 + 30 + 31 + 30 + 31 + 31 + 30;
   31 + 28 + 31 + 30 + 31 + 30 + 31 + 31 + 30 + 31;
   31 + 28 + 31 + 30 + 31 + 30 + 31 + 31 + 30 + 31 + 30;
   31 + 28 + 31 + 30 + 31 + 30 + 31 + 31 + 30 + 31 + 30 + 31].

Definition daysBefore (m : Z) : Z := nth (Z.to_nat m) daysBefore_table 0.

(** [daysIn(m, year)] *)
Definition daysIn (m : Z) (year : Z) : Z :=
  if (m =? 2) && isLeap year then 29
  else daysBefore m - daysBefore (m - 1).

(** [absDate(abs, full)]: year, month, day of the month and day of the
    year of an absolute time; month and day are 0 when [full] is false. *)
Definition absDate (abs : Z) (full : bool) : Z * Z * Z * Z :=
  let d := abs / secondsPerDay in
  (* 400-year cycles *)
  let n := d / daysPer400Years in
  let y := 400 * n in
  let d := d - daysPer400Years * n in
  (* 100-year cycles; the last has one more leap year *)
  let n := d / daysPer100Years in
  let n := n - Z.shiftr n 2 in
  let y := y + 100 * n in
  let d := d - daysPer100Years * n in
  (* 4-year cycles *)
  let n := d / daysPer4Years in
  let y := y + 4 * n in
  let d := d - daysPer4Years * n in
  (* years within a 4-year cycle; the last is a leap year *)
  let n := d / 365 in
  let n := n - Z.shiftr n 2 in
  let y := y + n in
  let d := d - 365 * n in
  let year := i64 (i64 (u64 y) + absoluteZeroYear) in
  let yday := d in
  if negb full then (year, 0, 0, yday)
  else
    let finish (day : Z) :=
      let month := day / 31 in
      let end_ := daysBefore (month + 1) in
      let '(month, begin) :=
        if end_ <=? day then (month + 1, end_) else (month, daysBefore month) in
      (year, month + 1, day - begin + 1, yday) in
    if isLeap year then
      if 31 + 29 - 1 <? yday then finish (yday - 1)
      else if yday =? 31 + 29 - 1 then (year, 2, 29, yday)
      else finish yday
    else finish yday.

(** [absClock(abs)]: hour, minute and second within the day. *)
Definition absClock (abs : Z) : Z * Z * Z :=
  let sec := abs mod secondsPerDay in
  let hour := sec / secondsPerHour in
  let sec := sec - hour * secondsPerHour in
  let min := sec / secondsPerMinute in
  let sec := sec - min * secondsPerMinute in
  (hour, min, sec).

(** [t.Year()] *)
Definition Time_Year (t : Time) : Z :=
  let '(year, _, _, _) := absDate (Time_abs t) false in year.

(** The offset of [t.Zone()]: seconds east of UTC in effect at [t]. *)
Definition Time_Zone_offset (t : Time) : Z := fst (Time_locabs t).

(** [t.Nanosecond()] *)
Definition Time_Nanosecond (t : Time) : Z := Time_nsec t.

(** [daysSinceEpoch(year)]: days from the absolute zero year to the start
    of [year]. *)
Definition daysSinceEpoch (year : Z) : Z :=
  let y := u64 (i64 year - absoluteZeroYear) in
  let n := y / 400 in
  let y := y - 400 * n in
  let d := daysPer400Years * n in
  let n := y / 100 in
  let y := y - 100 * n in
  let d := d + daysPer100Years * n in
  let n := y / 4 in
  let y := y - 4 * n in
  let d := d + daysPer4Years * n in
  let n := y in
  d + 365 * n.

(** [norm(hi, lo, base)]: [lo] brought into [0, base), the carry added to
    [hi]. *)
Definition norm (hi lo base : Z) : Z * Z :=
  let '(hi, lo) :=
    if lo <? 0 then
      let n := go_div (- lo - 1) base + 1 in (hi - n, lo + n * base)
    else (hi, lo) in
  if base <=? lo then
    let n := go_div lo base in (hi + n, lo - n * base)
  else (hi, lo).

(** [unixTime(sec, nsec)] followed by the [setLoc] of its callers. *)
Definition unixTime (sec nsec : Z) (l : LocationPtr) : Time :=
  Time_setLoc (mkTime (u64 nsec) (i64 (sec + unixToInternal)) None) l.

(** [time.Date(year, month, day, hour, min, sec, nsec, loc)] *)
Definition Date (year month day hour min sec nsec : Z) (l : LocationPtr)
  : Time :=
  let m := month - 1 in
  let '(year, m) := norm year m 12 in
  let month := m + 1 in
  let '(sec, nsec) := norm sec nsec 1000000000 in
  let '(min, sec) := norm min sec 60 in
  let '(hour, min) := norm hour min 60 in
  let '(day, hour) := norm day hour 24 in
  let d := daysSinceEpoch year in
  let d := u64 (d + u64 (daysBefore (month - 1))) in
  let d := if isLeap year && (3 <=? month) then u64 (d + 1) else d in
  let d := u64 (d + u64 (day - 1)) in
  let abs := u64 (d * secondsPerDay) in
  let abs := u64 (abs + u64 (hour * secondsPerHour + min * secondsPerMinute + sec)) in
  let unix := i64 (i64 abs + (absoluteToInternal + internalToUnix)) in
  let zi := lookup l unix in
  let offset := zi_offset zi in
  let unix :=
    if negb (offset =? 0) then
      let utc := i64 (unix - offset) in
      let offset :=
        if (utc <? zi_start zi) || (zi_end zi <=? utc)
        then zi_offset (lookup l utc) else offset in
      i64 (unix - offset)
    else unix in
  unixTime unix nsec l.

(** ** package time: RFC 3339 text *)

Definition byte_leb (a b : byte) : bool := bv a <=? bv b.
Definition byte_ltb (a b : byte) : bool := bv a <? bv b.

(** [appendInt(b, x, width)]: the decimal form of [x], zero-padded to
    [width] digits, after a minus sign when [x] is negative. *)
Definition appendInt (b : bytes) (x : Z) (width : Z) : bytes :=
  let '(b, u) := if x <? 0 then (b ++ ["-"%byte], u64 (- x)) else (b, u64 x) in
  let ds := decimal u in
  let n := Z.of_nat (length ds) in
  b ++ repeat "0"%byte (Z.to_nat (width - n)) ++ ds.

(** The trailing-zero loop of [appendNano]. *)
Fixpoint dropZeros_rev (r : bytes) : bytes :=
  match r with
  | c :: r' => if Byte.eqb c "0"%byte then dropZeros_rev r' else r
  | [] => []
  end.

Definition commaOrPeriod (c : byte) : bool :=
  Byte.eqb c "."%byte || Byte.eqb c ","%byte.

(** [appendNano(b, nanosec, std)], [std] being given by what is read off
    it: whether to trim trailing zeros, the number [n] of digits and the
    separator. *)
Definition appendNano (b : bytes) (nanosec : Z) (trim : bool) (n : Z) (dot : byte)
  : bytes :=
  if trim && ((n =? 0) || (nanosec =? 0)) then b
  else
    let b := b ++ [dot] in
    let b := appendInt b nanosec 9 in
    let b := if n <? 9 then firstn (length b - 9 + Z.to_nat n) b else b in
    if trim then
      let r := dropZeros_rev (rev b) in
      let r := match r with
               | c :: r' => if commaOrPeriod c then r' else r
               | [] => r
               end in
      rev r
    else b.

(** [t.appendFormatRFC3339(b, nanos)] *)
Definition Time_appendFormatRFC3339 (t : Time) (b : bytes) (nanos : bool)
  : bytes :=
  let '(offset, abs) := Time_locabs t in
  let '(year, month, day, _) := absDate abs true in
  let b := appendInt b year 4 in
  let b := b ++ ["-"%byte] in
  let b := appendInt b month 2 in
  let b := b ++ ["-"%byte] in
  let b := appendInt b day 2 in
  let b := b ++ ["T"%byte] in
  let '(hour, min, sec) := absClock abs in
  let b := appendInt b hour 2 in
  let b := b ++ [":"%byte] in
  let b := appendInt b min 2 in
  let b := b ++ [":"%byte] in
  let b := appendInt b sec 2 in
  let b := if nanos then appendNano b (Time_Nanosecond t) true 9 "."%byte
           else b in
  if offset =? 0 then b ++ ["Z"%byte]
  else
    let zone := go_div offset 60 in
    let '(b, zone) :=
      if zone <? 0 then (b ++ ["-"%byte], - zone) else (b ++ ["+"%byte], zone) in
    let b := appendInt b (go_div zone 60) 2 in
    let b := b ++ [":"%byte] in
    appendInt b (go_rem zone 60) 2.

(** [num2(b)]: two digits read as a number, in [byte] arithmetic. *)
Definition num2 (b : bytes) : Z :=
  (10 * ((bv (at_ b 0) - bv "0"%byte) mod 256)
   + (bv (at_ b 1) - bv "0"%byte) mod 256) mod 256.

(** [t.appendStrictRFC3339(b)]: the RFC 3339 text of [t] after [b], or the
    error of a year that is not four digits wide or of a zone hour that is
    not below 24. *)
Definition Time_appendStrictRFC3339 (t : Time) (b : bytes) : bytes * option error :=
  let n0 := length b in
  let b := Time_appendFormatRFC3339 t b true in
  if negb (Byte.eqb (at_ b (n0 + 4)) "-"%byte)
  then (b, Some (errors_New (lit "year outside of range [0,9999]")))
  else if negb (Byte.eqb (at_ b (length b - 1)) "Z"%byte) then
    let c := at_ b (length b - 6) in
    if (byte_leb "0"%byte c && byte_leb c "9"%byte)
       || (24 <=? num2 (skipn (length b - 5) b))
    then (b, Some (errors_New (lit "timezone hour outside of range [0,23]")))
    else (b, None)
  else (b, None).

(** [t.MarshalJSON()]: the RFC 3339 text in double quotes. *)
Definition Time_MarshalJSON (t : Time) : result bytes :=
  let b := [quote_byte] in
  let '(b, err) := Time_appendStrictRFC3339 t b in
  let b := b ++ [quote_byte] in
  match err with
  | Some (errors_New text) => Err (errors_New (lit "Time.MarshalJSON: " ++ text))
  | Some e => Err e
  | None => Ok b
  end.

(** [isDigit(s, i)] *)
Definition isDigit (s : bytes) (i : nat) : bool :=
  if (length s <=? i)%nat then false
  else byte_leb "0"%byte (at_ s i) && byte_leb (at_ s i) "9"%byte.

(** [leadingInt(s)]: the leading digits of [s] as a number and the rest of
    [s]; [None] on overflow. *)
Fixpoint leadingInt_from (s : bytes) (x : Z) : option (Z * bytes) :=
  match s with
  | [] => Some (x, [])
  | c :: s' =>
      if byte_ltb c "0"%byte || byte_ltb "9"%byte c then Some (x, s)
      else if 2 ^ 63 / 10 <? x then None
      else
        let x := u64 (x * 10 + bv c - bv "0"%byte) in
        if 2 ^ 63 <? x then None else leadingInt_from s' x
  end.

Definition leadingInt (s : bytes) : option (Z * bytes) := leadingInt_from s 0.

(** [atoi(s)]: [None] for [errAtoi]. *)
Definition atoi (s : bytes) : option Z :=
  let '(neg, s) :=
    match s with
    | c :: s' =>
        if Byte.eqb c "-"%byte || Byte.eqb c "+"%byte
        then (Byte.eqb c "-"%byte, s') else (false, s)
    | [] => (false, s)
    end in
  match leadingInt s with
  | Some (q, []) => let x := i64 q in Some (if neg then i64 (- x) else x)
  | _ => None
  end.

(** [parseNanoseconds(value, nbytes)]: the nanoseconds of a fraction that
    starts with its separator; the flag is false where Go reports an error
    or a range error. *)
Definition parseNanoseconds (value : bytes) (nbytes : nat) : Z * bool :=
  if negb (commaOrPeriod (at_ value 0)) then (0, false)
  else
    let '(value, nbytes) :=
      if (10 <? nbytes)%nat then (firstn 10 value, 10%nat) else (value, nbytes) in
    match atoi (slice value 1 nbytes) with
    | None => (0, false)
    | Some ns =>
        if ns <? 0 then (ns, false)
        else (i64 (ns * 10 ^ Z.of_nat (10 - nbytes)), true)
    end.

(** The [parseUint] closure of [parseRFC3339]: [s] as an unsigned decimal
    within [min, max]; otherwise the shared flag [ok] is cleared and [min]
    is returned. *)
Fixpoint parseUint_digits (s : bytes) (x : Z) : option Z :=
  match s with
  | [] => Some x
  | c :: s' =>
      if byte_ltb c "0"%byte || byte_ltb "9"%byte c then None
      else parseUint_digits s' (x * 10 + bv c - bv "0"%byte)
  end.

Definition parseUint (s : bytes) (min max : Z) (ok : bool) : Z * bool :=
  match parseUint_digits s 0 with
  | None => (min, false)
  | Some x => if (x <? min) || (max <? x) then (min, false) else (x, ok)
  end.

(** The end of the run of digits of [s] that starts at index [n]. *)
Fixpoint digitsEnd (fuel : nat) (s : bytes) (n : nat) : nat :=
  match fuel with
  | O => n
  | S k => if (n <? length s)%nat && isDigit s n then digitsEnd k s (S n) else n
  end.

(** [parseRFC3339(s, local)]: [None] when [ok] is false. *)
Definition parseRFC3339 (s : bytes) (local : Location) : option Time :=
  if (length s <? 19)%nat then None
  else
    let ok := true in
    let '(year, ok) := parseUint (slice s 0 4) 0 9999 ok in
    let '(month, ok) := parseUint (slice s 5 7) 1 12 ok in
    let '(day, ok) := parseUint (slice s 8 10) 1 (daysIn month year) ok in
    let '(hour, ok) := parseUint (slice s 11 13) 0 23 ok in
    let '(min, ok) := parseUint (slice s 14 16) 0 59 ok in
    let '(sec, ok) := parseUint (slice s 17 19) 0 59 ok in
    if negb ok
       || negb (Byte.eqb (at_ s 4) "-"%byte && Byte.eqb (at_ s 7) "-"%byte
                && Byte.eqb (at_ s 10) "T"%byte && Byte.eqb (at_ s 13) ":"%byte
                && Byte.eqb (at_ s 16) ":"%byte)
    then None
    else
      let s := skipn 19 s in
      (* the fractional second *)
      let '(nsec, s) :=
        if (2 <=? length s)%nat && Byte.eqb (at_ s 0) "."%byte && isDigit s 1
        then
          let n := digitsEnd (length s) s 2 in
          (fst (parseNanoseconds s n), skipn n s)
        else (0, s) in
      (* the time zone *)
      let t := Date year month day hour min sec nsec UTC in
      if negb ((length s =? 1)%nat && Byte.eqb (at_ s 0) "Z"%byte) then
        if negb (length s =? 6)%nat then None
        else
          let '(hr, ok) := parseUint (slice s 1 3) 0 23 ok in
          let '(mm, ok) := parseUint (slice s 4 6) 0 59 ok in
          if negb ok
             || negb ((Byte.eqb (at_ s 0) "-"%byte || Byte.eqb (at_ s 0) "+"%byte)
                      && Byte.eqb (at_ s 3) ":"%byte)
          then None
          else
            let zoneOffset := (hr * 60 + mm) * 60 in
            let zoneOffset :=
              if Byte.eqb (at_ s 0) "-"%byte then zoneOffset * -1 else zoneOffset in
            let t := Time_addSec t (- zoneOffset) in
            (* the local zone, if it has this offset at this instant *)
            if zi_offset (loc_lookup local (Time_unixSec t)) =? zoneOffset
            then Some (Time_setLoc t (LocPtr local))
            else Some (Time_setLoc t (LocPtr (FixedZone [] zoneOffset)))
      else Some t.

Section TimeParse.

(** [time.Local], and [time.Parse(time.RFC3339, s)], the layout-driven
    parser that [parseStrictRFC3339] falls back on and that is not
    modelled here. *)
Variable Local : Location.
Variable Parse_RFC3339 : bytes -> result Time.

(** [parseStrictRFC3339(b)]: the direct parser, and [time.Parse] where it
    gives up (the stricter checks after it are switched off in the
    source). *)
Definition parseStrictRFC3339 (b : bytes) : result Time :=
  match parseRFC3339 b Local with
  | Some t => Ok t
  | None => Parse_RFC3339 b
  end.

(** [t.UnmarshalJSON(data)] on a non-nil [t]: the error and the new [*t].
    [null] is a no-op; on a parse error [*t] becomes the zero [Time]. *)
Definition Time_UnmarshalJSON (t : Time) (data : bytes) : option error * Time :=
  if bytes_eqb data (lit "null") then (None, t)
  else if (length data <? 2)%nat
          || negb (Byte.eqb (at_ data 0) quote_byte)
          || negb (Byte.eqb (at_ data (length data - 1)) quote_byte)
  then (Some (errors_New (lit "Time.UnmarshalJSON: input is not a JSON string")), t)
  else
    let data := slice data 1 (length data - 1) in
    match parseStrictRFC3339 data with
    | Ok t' => (None, t')
    | Err e => (Some e, mkTime 0 0 None)
    end.

End TimeParse.

(** ** package encoding/json: the scanner *)

(** The values a call of [scanner.step] returns. *)
Definition scanContinue : Z := 0.
Definition scanBeginLiteral : Z := 1.
Definition scanBeginObject : Z := 2.
Definition scanObjectKey : Z := 3.
Definition scanObjectValue : Z := 4.
Definition scanEndObject : Z := 5.
Definition scanBeginArray : Z := 6.
Definition scanArrayValue : Z := 7.
Definition scanEndArray : Z := 8.
Definition scanSkipSpace : Z := 9.
Definition scanEnd : Z := 10.
Definition scanError : Z := 11.

(** The entries of [scanner.parseState]. *)
Inductive parseStateEntry : Type :=
| parseObjectKey
| parseObjectValue
| parseArrayValue.

Definition maxNestingDepth : Z := 10000.

(** The state functions the field [scanner.step] ranges over, by name. *)
Inductive stepFn : Type :=
| fnBeginValueOrEmpty | fnBeginValue | fnBeginStringOrEmpty | fnBeginString
| fnEndValue | fnEndTop
| fnInString | fnInStringEsc | fnInStringEscU | fnInStringEscU1
| fnInStringEscU12 | fnInStringEscU123
| fnNeg | fn1 | fn0 | fnDot | fnDot0 | fnE | fnESign | fnE0
| fnT | fnTr | fnTru | fnF | fnFa | fnFal | fnFals | fnN | fnNu | fnNul
| fnError.

(** [json.scanner]; the top of [parseState] (its last element in Go) is the
    head of the list. *)
Record scanner : Type := mkScanner {
  step : stepFn;
  endTop : bool;
  parseState : list parseStateEntry;
  err : option error;
  scanned : Z   (* the field bytes *)
}.

Definition set_step (s : scanner) (f : stepFn) : scanner :=
  mkScanner f (endTop s) (parseState s) (err s) (scanned s).

Definition set_parseState (s : scanner) (ps : list parseStateEntry) : scanner :=
  mkScanner (step s) (endTop s) ps (err s) (scanned s).

(** [s.reset()] on a new scanner. *)
Definition newScanner : scanner := mkScanner fnBeginValue false [] None 0.

(** [s.error(c, context)] *)
Definition scanner_error (s : scanner) (c : byte) (context : bytes) : scanner * Z :=
  (mkScanner fnError (endTop s) (parseState s)
             (Some (json_SyntaxError_char c context (scanned s))) (scanned s),
   scanError).

(** [s.pushParseState(c, newParseState, successState)] *)
Definition pushParseState (s : scanner) (c : byte) (newParseState : parseStateEntry)
  (successState : Z) : scanner * Z :=
  let s := set_parseState s (newParseState :: parseState s) in
  if Z.of_nat (length (parseState s)) <=? maxNestingDepth then (s, successState)
  else scanner_error s c (lit "exceeded max depth").

(** [s.popParseState()] *)
Definition popParseState (s : scanner) : scanner :=
  let ps := tl (parseState s) in
  match ps with
  | [] => mkScanner fnEndTop true ps (err s) (scanned s)
  | _ => mkScanner fnEndValue (endTop s) ps (err s) (scanned s)
  end.

Definition isSpace (c : byte) : bool :=
  byte_leb c " "%byte
  && (Byte.eqb c " "%byte || Byte.eqb c x09 || Byte.eqb c x0d || Byte.eqb c x0a).

Definition isDigitByte (c : byte) : bool :=
  byte_leb "0"%byte c && byte_leb c "9"%byte.

Definition isHexByte (c : byte) : bool :=
  isDigitByte c
  || (byte_leb "a"%byte c && byte_leb c "f"%byte)
  || (byte_leb "A"%byte c && byte_leb c "F"%byte).

Definition stateEndTop (s : scanner) (c : byte) : scanner * Z :=
  if negb (isSpace c)
  then (fst (scanner_error s c (lit "after top-level value")), scanEnd)
  else (s, scanEnd).

Definition stateEndValue (s : scanner) (c : byte) : scanner * Z :=
  match parseState s with
  | [] =>
      (* the top-level value ended before this byte *)
      stateEndTop (mkScanner fnEndTop true [] (err s) (scanned s)) c
  | ps :: rest =>
      if isSpace c then (set_step s fnEndValue, scanSkipSpace)
      else
        match ps with
        | parseObjectKey =>
            if Byte.eqb c ":"%byte
            then (set_step (set_parseState s (parseObjectValue :: rest)) fnBeginValue,
                  scanObjectKey)
            else scanner_error s c (lit "after object key")
        | parseObjectValue =>
            if Byte.eqb c ","%byte
            then (set_step (set_parseState s (parseObjectKey :: rest)) fnBeginString,
                  scanObjectValue)
            else if Byte.eqb c "}"%byte then (popParseState s, scanEndObject)
            else scanner_error s c (lit "after object key:value pair")
        | parseArrayValue =>
            if Byte.eqb c ","%byte then (set_step s fnBeginValue, scanArrayValue)
            else if Byte.eqb c "]"%byte then (popParseState s, scanEndArray)
            else scanner_error s c (lit "after array element")
        end
  end.

Definition stateBeginValue (s : scanner) (c : byte) : scanner * Z :=
  if isSpace c then (s, scanSkipSpace)
  else if Byte.eqb c "{"%byte
  then pushParseState (set_step s fnBeginStringOrEmpty) c parseObjectKey scanBeginObject
  else if Byte.eqb c "["%byte
  then pushParseState (set_step s fnBeginValueOrEmpty) c parseArrayValue scanBeginArray
  else if Byte.eqb c quote_byte then (set_step s fnInString, scanBeginLiteral)
  else if Byte.eqb c "-"%byte then (set_step s fnNeg, scanBeginLiteral)
  else if Byte.eqb c "0"%byte then (set_step s fn0, scanBeginLiteral)
  else if Byte.eqb c "t"%byte then (set_step s fnT, scanBeginLiteral)
  else if Byte.eqb c "f"%byte then (set_step s fnF, scanBeginLiteral)
  else if Byte.eqb c "n"%byte then (set_step s fnN, scanBeginLiteral)
  else if byte_leb "1"%byte c && byte_leb c "9"%byte
  then (set_step s fn1, scanBeginLiteral)
  else scanner_error s c (lit "looking for beginning of value").

Definition stateBeginValueOrEmpty (s : scanner) (c : byte) : scanner * Z :=
  if isSpace c then (s, scanSkipSpace)
  else if Byte.eqb c "]"%byte then stateEndValue s c
  else stateBeginValue s c.

Definition stateBeginString (s : scanner) (c : byte) : scanner * Z :=
  if isSpace c then (s, scanSkipSpace)
  else if Byte.eqb c quote_byte then (set_step s fnInString, scanBeginLiteral)
  else scanner_error s c (lit "looking for beginning of object key string").

Definition stateBeginStringOrEmpty (s : scanner) (c : byte) : scanner * Z :=
  if isSpace c then (s, scanSkipSpace)
  else if Byte.eqb c "}"%byte
  then stateEndValue (set_parseState s (parseObjectValue :: tl (parseState s))) c
  else stateBeginString s c.

Definition stateInString (s : scanner) (c : byte) : scanner * Z :=
  if Byte.eqb c quote_byte then (set_step s fnEndValue, scanContinue)
  else if Byte.eqb c backslash_byte then (set_step s fnInStringEsc, scanContinue)
  else if bv c <? 32 then scanner_error s c (lit "in string literal")
  else (s, scanContinue).

Definition stateInStringEsc (s : scanner) (c : byte) : scanner * Z :=
  if Byte.eqb c "b"%byte || Byte.eqb c "f"%byte || Byte.eqb c "n"%byte
     || Byte.eqb c "r"%byte || Byte.eqb c "t"%byte || Byte.eqb c backslash_byte
     || Byte.eqb c "/"%byte || Byte.eqb c quote_byte
  then (set_step s fnInString, scanContinue)
  else if Byte.eqb c "u"%byte then (set_step s fnInStringEscU, scanContinue)
  else scanner_error s c (lit "in string escape code").

(** [stateInStringEscU], [...U1], [...U12], [...U123]: one hexadecimal
    digit each, then [next]. *)
Definition stateInStringEscHex (next : stepFn) (s : scanner) (c : byte)
  : scanner * Z :=
  if isHexByte c then (set_step s next, scanContinue)
  else scanner_error s c (lit "in \u hexadecimal character escape").

Definition state0 (s : scanner) (c : byte) : scanner * Z :=
  if Byte.eqb c "."%byte then (set_step s fnDot, scanContinue)
  else if Byte.eqb c "e"%byte || Byte.eqb c "E"%byte
  then (set_step s fnE, scanContinue)
  else stateEndValue s c.

Definition stateNeg (s : scanner) (c : byte) : scanner * Z :=
  if Byte.eqb c "0"%byte then (set_step s fn0, scanContinue)
  else if byte_leb "1"%byte c && byte_leb c "9"%byte
  then (set_step s fn1, scanContinue)
  else scanner_error s c (lit "in numeric literal").

Definition state1 (s : scanner) (c : byte) : scanner * Z :=
  if isDigitByte c then (set_step s fn1, scanContinue) else state0 s c.

Definition stateDot (s : scanner) (c : byte) : scanner * Z :=
  if isDigitByte c then (set_step s fnDot0, scanContinue)
  else scanner_error s c (lit "after decimal point in numeric literal").

Definition stateDot0 (s : scanner) (c : byte) : scanner * Z :=
  if isDigitByte c then (s, scanContinue)
  else if Byte.eqb c "e"%byte || Byte.eqb c "E"%byte
  then (set_step s fnE, scanContinue)
  else stateEndValue s c.

Definition stateESign (s : scanner) (c : byte) : scanner * Z :=
  if isDigitByte c then (set_step s fnE0, scanContinue)
  else scanner_error s c (lit "in exponent of numeric literal").

Definition stateE (s : scanner) (c : byte) : scanner * Z :=
  if Byte.eqb c "+"%byte || Byte.eqb c "-"%byte
  then (set_step s fnESign, scanContinue)
  else stateESign s c.

Definition stateE0 (s : scanner) (c : byte) : scanner * Z :=
  if isDigitByte c then (s, scanContinue) else stateEndValue s c.

(** [stateT], [stateTr], ..., [stateNul]: the next letter of [true],
    [false] or [null], then [next]. *)
Definition stateLetter (expect : byte) (next : stepFn) (context : bytes)
  (s : scanner) (c : byte) : scanner * Z :=
  if Byte.eqb c expect then (set_step s next, scanContinue)
  else scanner_error s c context.

(** [s.step(s, c)]: the call through the function value. *)
Definition scanner_step (s : scanner) (c : byte) : scanner * Z :=
  match step s with
  | fnBeginValueOrEmpty => stateBeginValueOrEmpty s c
  | fnBeginValue => stateBeginValue s c
  | fnBeginStringOrEmpty => stateBeginStringOrEmpty s c
  | fnBeginString => stateBeginString s c
  | fnEndValue => stateEndValue s c
  | fnEndTop => stateEndTop s c
  | fnInString => stateInString s c
  | fnInStringEsc => stateInStringEsc s c
  | fnInStringEscU => stateInStringEscHex fnInStringEscU1 s c
  | fnInStringEscU1 => stateInStringEscHex fnInStringEscU12 s c
  | fnInStringEscU12 => stateInStringEscHex fnInStringEscU123 s c
  | fnInStringEscU123 => stateInStringEscHex fnInString s c
  | fnNeg => stateNeg s c
  | fn1 => state1 s c
  | fn0 => state0 s c
  | fnDot => stateDot s c
  | fnDot0 => stateDot0 s c
  | fnE => stateE s c
  | fnESign => stateESign s c
  | fnE0 => stateE0 s c
  | fnT => stateLetter "r"%byte fnTr (lit "in literal true (expecting 'r')") s c
  | fnTr => stateLetter "u"%byte fnTru (lit "in literal true (expecting 'u')") s c
  | fnTru => stateLetter "e"%byte fnEndValue (lit "in literal true (expecting 'e')") s c
  | fnF => stateLetter "a"%byte fnFa (lit "in literal false (expecting 'a')") s c
  | fnFa => stateLetter "l"%byte fnFal (lit "in literal false (expecting 'l')") s c
  | fnFal => stateLetter "s"%byte fnFals (lit "in literal false (expecting 's')") s c
  | fnFals => stateLetter "e"%byte fnEndValue (lit "in literal false (expecting 'e')") s c
  | fnN => stateLetter "u"%byte fnNu (lit "in literal null (expecting 'u')") s c
  | fnNu => stateLetter "l"%byte fnNul (lit "in literal null (expecting 'l')") s c
  | fnNul => stateLetter "l"%byte fnEndValue (lit "in literal null (expecting 'l')") s c
  | fnError => (s, scanError)
  end.

(** [s.eof()] *)
Definition scanner_eof (s : scanner) : scanner * Z :=
  match err s with
  | Some _ => (s, scanError)
  | None =>
      if endTop s then (s, scanEnd)
      else
        let s := fst (scanner_step s " "%byte) in
        if endTop s then (s, scanEnd)
        else
          match err s with
          | None =>
              (mkScanner (step s) (endTop s) (parseState s)
                         (Some (json_SyntaxError_eof (scanned s))) (scanned s),
               scanError)
          | Some _ => (s, scanError)
          end
  end.

(** [checkValid(data, scan)]: [None] when [data] is one JSON value. *)
Fixpoint checkValid_loop (data : bytes) (scan : scanner) : option error :=
  match data with
  | [] => let '(scan, v) := scanner_eof scan in
          if v =? scanError then err scan else None
  | c :: data' =>
      let scan := mkScanner (step scan) (endTop scan) (parseState scan) (err scan)
                            (scanned scan + 1) in
      let '(scan, v) := scanner_step scan c in
      if v =? scanError then err scan else checkValid_loop data' scan
  end.

Definition checkValid (data : bytes) : option error :=
  checkValid_loop data newScanner.

(** ** package encoding/json: compaction, and the codec of [*time.Time] *)

Definition hex (d : Z) : byte := nth (Z.to_nat d) (lit "0123456789abcdef") x00.

(** The loop of [appendCompact(dst, src, escape)] from index [i] on, [rest]
    being [src[i:]]; the flag tells that the loop left by [break]. *)
Fixpoint appendCompact_loop (escape : bool) (src rest : bytes) (i : nat)
  (dst : bytes) (start : nat) (scan : scanner) : bytes * nat * scanner :=
  match rest with
  | [] => (dst, start, scan)
  | c :: rest' =>
      let flush (dst : bytes) (start : nat) :=
        if (start <? i)%nat then dst ++ slice src start i else dst in
      let '(dst, start) :=
        if escape && (Byte.eqb c "<"%byte || Byte.eqb c ">"%byte || Byte.eqb c "&"%byte)
        then (flush dst start
                ++ [backslash_byte; "u"%byte; "0"%byte; "0"%byte;
                    hex (Z.shiftr (bv c) 4); hex (Z.land (bv c) 15)],
              S i)
        else (dst, start) in
      let '(dst, start) :=
        if escape && Byte.eqb c xe2 && (i + 2 <? length src)%nat
           && Byte.eqb (at_ src (i + 1)) x80
           && (Z.land (bv (at_ src (i + 2))) 254 =? 168)
        then (flush dst start
                ++ [backslash_byte; "u"%byte; "2"%byte; "0"%byte; "2"%byte;
                    hex (Z.land (bv (at_ src (i + 2))) 15)],
              (i + 3)%nat)
        else (dst, start) in
      let '(scan, v) := scanner_step scan c in
      if scanSkipSpace <=? v then
        if v =? scanError then (dst, start, scan)
        else appendCompact_loop escape src rest' (S i) (flush dst start) (S i) scan
      else appendCompact_loop escape src rest' (S i) dst start scan
  end.

(** [appendCompact(dst, src, escape)] for an empty [dst]: [src] without its
    insignificant space, with [<], [>], [&], U+2028 and U+2029 escaped when
    [escape] is set. *)
Definition appendCompact (src : bytes) (escape : bool) : result bytes :=
  let '(dst, start, scan) := appendCompact_loop escape src src 0 [] 0 newScanner in
  let '(scan, v) := scanner_eof scan in
  if v =? scanError then
    match err scan with
    | Some e => Err e
    | None => Ok []
    end
  else if (start <? length src)%nat then Ok (dst ++ skipn start src)
  else Ok dst.

(** [marshalerEncoder] on a non-nil value of type [Type_] whose
    [MarshalJSON] returned [r], HTML escaping being on as in
    [json.Marshal]. *)
Definition marshalerEncoder (Type_ : bytes) (r : result bytes) : result bytes :=
  match r with
  | Ok b =>
      match appendCompact b true with
      | Ok out => Ok out
      | Err e => Err (json_MarshalerError Type_ e (lit "MarshalJSON"))
      end
  | Err e => Err (json_MarshalerError Type_ e (lit "MarshalJSON"))
  end.

(** [json.Marshal(t)] for [t] of type [*time.Time]: [null] for the nil
    pointer, otherwise what [t.MarshalJSON()] returns, compacted. *)
Definition json_Marshal_TimePtr (t : option Time) : result bytes :=
  match t with
  | None => Ok (lit "null")
  | Some t' => marshalerEncoder (lit "*time.Time") (Time_MarshalJSON t')
  end.

(** The bytes of the top-level value of a valid document: the document
    without the space around it. *)
Fixpoint trimLeft (s : bytes) : bytes :=
  match s with
  | c :: s' => if isSpace c then trimLeft s' else s
  | [] => []
  end.

Definition valueBytes (data : bytes) : bytes :=
  rev (trimLeft (rev (trimLeft data))).

Section JsonTime.

Variable Local : Location.
Variable Parse_RFC3339 : bytes -> result Time.

(** [json.Unmarshal(data, &t)] for [t] of type [time.Time]: [data] is
    checked first; [*time.Time] is an [Unmarshaler], so the decoder hands
    it the bytes of the value, whatever its kind, [null] included. *)
Definition json_Unmarshal_Time (data : bytes) (t : Time) : option error * Time :=
  match checkValid data with
  | Some e => (Some e, t)
  | None => Time_UnmarshalJSON Local Parse_RFC3339 t (valueBytes data)
  end.

End JsonTime.

(** ** package database/sql: [NullTime] *)

Record sql_NullTime : Type := mk_sql_NullTime {
  nt_Time : Time;
  nt_Valid : bool
}.

(** The [%T] of a driver value. *)
Definition typeName (v : driver_Value) : bytes :=
  match v with
  | DNil => lit "<nil>"
  | DInt64 _ => lit "int64"
  | DFloat64 _ => lit "float64"
  | DBool _ => lit "bool"
  | DBytes _ => lit "[]uint8"
  | DString _ => lit "string"
  | DTime _ => lit "time.Time"
  end.

(** [convertAssign(dest, src)] for [dest] of type [*time.Time]: only a
    [time.Time] can be stored. *)
Definition convertAssign_Time (dest : Time) (src : driver_Value)
  : option error * Time :=
  match src with
  | DTime s => (None, s)
  | _ => (Some (errors_New
                  (lit "unsupported Scan, storing driver.Value type " ++ typeName src
                   ++ lit " into type *time.Time")),
          dest)
  end.

(** [n.Scan(value)] *)
Definition sql_NullTime_Scan (n : sql_NullTime) (value : driver_Value)
  : option error * sql_NullTime :=
  match value with
  | DNil => (None, mk_sql_NullTime (mkTime 0 0 None) false)
  | _ =>
      let '(e, t) := convertAssign_Time (nt_Time n) value in
      (e, mk_sql_NullTime t true)
  end.

(** [n.Value()] *)
Definition sql_NullTime_Value (n : sql_NullTime) : result driver_Value :=
  if negb (nt_Valid n) then Ok DNil else Ok (DTime (nt_Time n)).

(** ** package encoding/json: encoding a value to a stream *)

Section Encoder.

(** The values an interface can hold, and [json.Marshal] on them (HTML
    escaping on), the encoding engine itself being outside this file. *)
Variable any : Type.
Variable json_Marshal : any -> result bytes.

(** [json.NewEncoder(w).Encode(v)] for a [bytes.Buffer] [w] and a non-nil
    [v], also behind a pointer: the encoding of [v] followed by a newline
    is written to [w]; nothing is written when the encoding fails. *)
Definition Encoder_Encode (w : bytes) (v : any) : option error * bytes :=
  match json_Marshal v with
  | Err e => (Some e, w)
  | Ok e => (None, w ++ (e ++ [x0a]))
  end.

End Encoder.

(** A few Go values and [json.Marshal] on them: booleans, [int64]s,
    [*time.Time] pointers and channels (which JSON cannot encode). *)
Inductive goValue : Type :=
| VBool (b : bool)
| VInt64 (n : Z)
| VTimePtr (p : option Time)
| VChan.

Definition json_Marshal_goValue (v : goValue) : result bytes :=
  match v with
  | VBool b => Ok (if b then lit "true" else lit "false")
  | VInt64 n => Ok (FormatInt n)
  | VTimePtr p => json_Marshal_TimePtr p
  | VChan => Err (other_error (lit "*json.UnsupportedTypeError")
                              (lit "json: unsupported type: chan int"))
  end.

(** * types.go *)

Section Adapters.

(** What the standard library leaves to the process and to code that is
    not modelled here: the local time zone, [time.Parse] with the RFC 3339
    layout, and the [fmt] renderings of floats and of times. *)
Variable Local : Location.
Variable Parse_RFC3339 : bytes -> result Time.
Variable fmtFloat_v : float -> bytes.
Variable Time_String : Time -> bytes.

(** ** NullTime *)

(** [type NullTime time.Time] *)
Definition NullTime : Type := Time.

(** [func (ns *NullTime) Scan(value interface{}) error], for a non-nil
    receiver: the error and the new [*ns]. *)
Definition NullTime_Scan (ns : NullTime) (value : driver_Value)
  : option error * NullTime :=
  let v := mk_sql_NullTime (mkTime 0 0 None) false in
  let '(err, v) := sql_NullTime_Scan v value in
  match err with
  | Some e => (Some e, ns)
  | None => (None, nt_Time v)
  end.

(** [func (ns NullTime) MarshalJSON() ([]byte, error)] *)
Definition NullTime_MarshalJSON (ns : NullTime) : result bytes :=
  let t : option Time := if negb (Time_IsZero ns) then Some ns else None in
  json_Marshal_TimePtr t.

(** [func (ns *NullTime) UnmarshalJSON(data []byte) error], for a non-nil
    receiver: the error and the new [*ns]. *)
Definition NullTime_UnmarshalJSON (ns : NullTime) (data : bytes)
  : option error * NullTime :=
  let t := mkTime 0 0 None in
  let '(err, t) := json_Unmarshal_Time Local Parse_RFC3339 data t in
  match err with
  | Some e => (Some e, ns)
  | None => (None, t)
  end.

(** [func (ns NullTime) Value() (driver.Value, error)] *)
Definition NullTime_Value (ns : NullTime) : result driver_Value :=
  sql_NullTime_Value (mk_sql_NullTime ns (negb (Time_IsZero ns))).

(** ** JSONRawMessage *)

(** [type JSONRawMessage json.RawMessage], a [[]byte]. *)
Definition JSONRawMessage : Type := bytes.

(** [func (m *JSONRawMessage) Scan(value interface{}) error], for a non-nil
    receiver: the error and the new [*m]. *)
Definition JSONRawMessage_Scan (m : JSONRawMessage) (value : driver_Value)
  : option error * JSONRawMessage :=
  (None, Sprintf_s fmtFloat_v Time_String value).

(** [func (m JSONRawMessage) Value() (driver.Value, error)] *)
Definition JSONRawMessage_Value (m : JSONRawMessage) : result driver_Value :=
  if (length m =? 0)%nat then Ok (DString (lit "null"))
  else Ok (DString m).

(** [func (m JSONRawMessage) MarshalJSON() ([]byte, error)] *)
Definition JSONRawMessage_MarshalJSON (m : JSONRawMessage) : result bytes :=
  if (length m =? 0)%nat then Ok (lit "null")
  else Ok m.

(** [func (m *JSONRawMessage) UnmarshalJSON(data []byte) error]: the
    receiver is [None] for the nil pointer and [Some] of the slice it
    points to otherwise; the result is the error and the receiver after the
    call. *)
Definition JSONRawMessage_UnmarshalJSON (m : option JSONRawMessage) (data : bytes)
  : option error * option JSONRawMessage :=
  match m with
  | None => (Some (errors_New (lit "json.RawMessage: UnmarshalJSON on nil pointer")),
             None)
  | Some old => (None, Some (slice old 0 0 ++ data))
  end.

(** ** NullJSONRawMessage *)

(** [type NullJSONRawMessage json.RawMessage] *)
Definition NullJSONRawMessage : Type := bytes.

(** [func (m *NullJSONRawMessage) Scan(value interface{}) error] *)
Definition NullJSONRawMessage_Scan (m : NullJSONRawMessage) (value : driver_Value)
  : option error * NullJSONRawMessage :=
  let value := match value with
               | DNil => DString (lit "null")
               | _ => value
               end in
  (None, Sprintf_s fmtFloat_v Time_String value).

(** [func (m NullJSONRawMessage) Value() (driver.Value, error)] *)
Definition NullJSONRawMessage_Value (m : NullJSONRawMessage)
  : result driver_Value :=
  if (length m =? 0)%nat then Ok DNil
  else Ok (DString m).

(** [func (m NullJSONRawMessage) MarshalJSON() ([]byte, error)] *)
Definition NullJSONRawMessage_MarshalJSON (m : NullJSONRawMessage)
  : result bytes :=
  if (length m =? 0)%nat then Ok (lit "null")
  else Ok m.

(** [func (m *NullJSONRawMessage) UnmarshalJSON(data []byte) error] *)
Definition NullJSONRawMessage_UnmarshalJSON (m : option NullJSONRawMessage)
  (data : bytes) : option error * option NullJSONRawMessage :=
  match m with
  | None => (Some (errors_New (lit "json.RawMessage: UnmarshalJSON on nil pointer")),
             None)
  | Some old => (None, Some (slice old 0 0 ++ data))
  end.

(** ** The generic helpers *)

(** The values an interface can hold, the memory a destination lives in,
    and the JSON engine on them: [json.Unmarshal(data, &dst)] for a local
    interface variable [dst] ([None] when it is nil), which returns an
    error and leaves a memory, and [json.Marshal]. *)
Variable any : Type.
Variable Store : Type.
Variable json_Unmarshal : bytes -> option any -> Store -> option error * Store.
Variable json_Marshal : any -> result bytes.

(** [func JSONScan(dst interface{}, value interface{}) error] *)
Definition JSONScan (dst : option any) (value : driver_Value) (mem : Store)
  : option error * Store :=
  let value := match value with
               | DNil => DString (lit "null")
               | _ => value
               end in
  let '(err, mem) :=
    json_Unmarshal (Sprintf_s fmtFloat_v Time_String value) dst mem in
  match err with
  | Some e => (Some (fmt_Errorf (lit "unable to decode payload to: %s") e), mem)
  | None => (None, mem)
  end.

(** [func JSONValue(src interface{}) (driver.Value, error)]; [src] is
    [None] for the nil interface. *)
Definition JSONValue (src : option any) : result driver_Value :=
  match src with
  | None => Ok DNil
  | Some v =>
      let b : bytes := [] in
      let '(err, b) := Encoder_Encode any json_Marshal b v in
      match err with
      | Some e => Err e
      | None => Ok (DString b)
      end
  end.

End Adapters.

(** * The adapters under encoding/json *)

(** [json.Unmarshal(data, &dst)] for a local interface variable [dst] that
    holds a non-nil pointer to a value [s] whose pointer type is an
    [Unmarshaler], as [*NullTime] and the pointers to the raw payloads
    are. [data] is checked first. On the literal [null] the decoder does
    not go through the pointer: it sets [dst] itself to nil and [s] stays
    as it is. Any other value is handed to [UnmarshalJSON], without the
    space around it. *)
Definition json_Unmarshal_Unmarshaler {T : Type}
  (UnmarshalJSON : T -> bytes -> option error * T) (data : bytes) (s : T)
  : option error * T :=
  match checkValid data with
  | Some e => (Some e, s)
  | None =>
      let item := valueBytes data in
      if Byte.eqb (at_ item 0) "n"%byte then (None, s)
      else UnmarshalJSON s item
  end.

(** [json.Unmarshal(data, &dst)] for the destinations of [JSONScan] that
    are followed here: the nil interface and such a pointer, the memory
    being the value it points to. [decode_nil] is the decoding of a valid
    document into a nil interface, which is not modelled. *)
Definition json_Unmarshal_dst {T : Type} (decode_nil : bytes -> option error)
  (UnmarshalJSON : T -> bytes -> option error * T)
  (data : bytes) (dst : option unit) (s : T) : option error * T :=
  match dst with
  | Some _ => json_Unmarshal_Unmarshaler UnmarshalJSON data s
  | None =>
      match checkValid data with
      | Some e => (Some e, s)
      | None => (decode_nil data, s)
      end
  end.

(** [json.Marshal(v)] for an interface that holds a [NullTime], a
    [JSONRawMessage] or a [NullJSONRawMessage]: each is a [Marshaler], so
    the encoder calls its [MarshalJSON] and compacts what it returns. *)
Definition json_Marshal_NullTime (ns : NullTime) : result bytes :=
  marshalerEncoder (lit "types.NullTime") (NullTime_MarshalJSON ns).

Definition json_Marshal_JSONRawMessage (m : JSONRawMessage) : result bytes :=
  marshalerEncoder (lit "types.JSONRawMessage") (JSONRawMessage_MarshalJSON m).

Definition json_Marshal_NullJSONRawMessage (m : NullJSONRawMessage)
  : result bytes :=
  marshalerEncoder (lit "types.NullJSONRawMessage")
                   (NullJSONRawMessage_MarshalJSON m).

(** * The vocabulary of the properties *)

(** The error of [UnmarshalJSON] through a nil pointer. *)
Definition NilReceiverError : error :=
  errors_New (lit "json.RawMessage: UnmarshalJSON on nil pointer").

(** [k] decimal digits of [u], least significant first. *)
Fixpoint digits_le (k : nat) (u : Z) : bytes :=
  match k with
  | O => []
  | S k' => digit_byte (u mod 10) :: digits_le k' (u / 10)
  end.

(** [u] written with exactly [k] digits, most significant first. *)
Definition digitsN (k : nat) (u : Z) : bytes := rev (digits_le k u).

(** A byte that stands for itself in a JSON string and that
    [appendCompact] leaves alone. *)
Definition plainByte (c : byte) : bool :=
  negb (Byte.eqb c quote_byte) && negb (Byte.eqb c backslash_byte)
  && (32 <=? bv c)
  && negb (Byte.eqb c "<"%byte || Byte.eqb c ">"%byte || Byte.eqb c "&"%byte)
  && negb (Byte.eqb c xe2).

(** [s] between double quotes. *)
Definition quoted (s : bytes) : bytes := quote_byte :: s ++ [quote_byte].

(** The scanner after the opening quote of a top-level string. *)
Definition inString : scanner := mkScanner fnInString false [] None 0.

(** The first half of [absDate]: the years since the absolute zero year
    and the day of the year of a count of days. *)
Definition yearDay (d : Z) : Z * Z :=
  let n := d / daysPer400Years in
  let y := 400 * n in
  let d := d - daysPer400Years * n in
  let n := d / daysPer100Years in
  let n := n - Z.shiftr n 2 in
  let y := y + 100 * n in
  let d := d - daysPer100Years * n in
  let n := d / daysPer4Years in
  let y := y + 4 * n in
  let d := d - daysPer4Years * n in
  let n := d / 365 in
  let n := n - Z.shiftr n 2 in
  let y := y + n in
  let d := d - 365 * n in
  (y, d).

(** The second half: month and day of the month of a day of the year. *)
Definition monthDay (leap : bool) (yday : Z) : Z * Z :=
  let finish (day : Z) :=
    let month := day / 31 in
    let end_ := daysBefore (month + 1) in
    let '(month, begin) :=
      if end_ <=? day then (month + 1, end_) else (month, daysBefore month) in
    (month + 1, day - begin + 1) in
  if leap then
    if 31 + 29 - 1 <? yday then finish (yday - 1)
    else if yday =? 31 + 29 - 1 then (2, 29)
    else finish yday
  else finish yday.

(** Days before the year that is [y] years after the absolute zero year. *)
Definition daysBeforeYear (y : Z) : Z :=
  daysPer400Years * (y / 400) + daysPer100Years * (y mod 400 / 100)
  + daysPer4Years * (y mod 100 / 4) + 365 * (y mod 4).

(** Whether the year that is [y] years after the absolute zero year is a
    leap year. *)
Definition leapYear (y : Z) : bool :=
  (y mod 4 =? 3) && (negb (y mod 100 =? 99) || (y mod 400 =? 399)).

(** What [monthDay] must satisfy on a day of the year: a month of the
    year, a day of that month, and the day of the year that [time.Date]
    computes back from them. *)
Definition monthDay_ok (leap : bool) (yday : Z) : bool :=
  let '(m, d) := monthDay leap yday in
  (1 <=? m) && (m <=? 12) && (1 <=? d)
  && (d <=? (if (m =? 2) && leap then 29 else daysBefore m - daysBefore (m - 1)))
  && (daysBefore (m - 1) + (if leap && (3 <=? m) then 1 else 0) + (d - 1) =? yday).

(** The seconds since year 1 of the first instant of the year 0 and of the
    first instant of the year 10000. *)
Definition internalMin : Z := -31622400.
Definition internalMax : Z := 315537897600.

(** The fraction of a second as [appendNano] writes it. *)
Definition fracText (nsec : Z) : bytes :=
  if nsec =? 0 then []
  else "."%byte :: rev (dropZeros_rev (digits_le 9 nsec)).

(** The zone as [appendFormatRFC3339] writes it. *)
Definition zoneText (offset : Z) : bytes :=
  if offset =? 0 then ["Z"%byte]
  else
    let zone := go_div offset 60 in
    (if zone <? 0 then "-"%byte else "+"%byte)
      :: digitsN 2 (Z.abs zone / 60) ++ ":"%byte :: digitsN 2 (Z.abs zone mod 60).

(** Date and time of day: nineteen bytes. *)
Definition dateTimeText (year month day hour min sec : Z) : bytes :=
  digitsN 4 year ++ "-"%byte :: digitsN 2 month ++ "-"%byte :: digitsN 2 day
  ++ "T"%byte :: digitsN 2 hour ++ ":"%byte :: digitsN 2 min ++ ":"%byte
  :: digitsN 2 sec.

(** The RFC 3339 text of a date, a time of day, a fraction and a zone. *)
Definition rfc3339Text (year month day hour min sec nsec offset : Z) : bytes :=
  dateTimeText year month day hour min sec ++ fracText nsec ++ zoneText offset.

(** The invariants of a [Time]: its fields are a [uint64] and an [int64],
    and its nanoseconds are below one second. *)
Definition Time_valid (t : Time) : Prop :=
  0 <= wall t < 2 ^ 64 /\ - 2 ^ 63 <= ext t < 2 ^ 63 /\ Time_nsec t < 1000000000.

(** The text that [MarshalJSON] produces for [t]. *)
Definition Time_text (t : Time) : bytes :=
  let '(year, month, day, _) := absDate (Time_abs t) true in
  let '(hour, min, sec) := absClock (Time_abs t) in
  rfc3339Text year month day hour min sec (Time_nsec t) (Time_Zone_offset t).

(** The first instant of the year 10000, in UTC. *)
Definition year10000 : Time := Date 10000 1 1 0 0 0 0 UTC.

(** 2006-01-02T22:04:05Z. *)
Definition refTime : Time := mkTime 0 (unixToInternal + 1136239445) None.

(** What [parseRFC3339] does with the time it has read in UTC once it has
    read the zone. *)
Definition zoned (t : Time) (offset : Z) (local : Location) : Time :=
  if offset =? 0 then t
  else
    let t := Time_addSec t (- offset) in
    if zi_offset (loc_lookup local (Time_unixSec t)) =? offset
    then Time_setLoc t (LocPtr local)
    else Time_setLoc t (LocPtr (FixedZone [] offset)).

(** An instant in a zone thirty seconds east of UTC. *)
Definition halfMinuteEast : Time :=
  Date 2000 1 1 0 0 0 0 (LocPtr (FixedZone (lit "LMT") 30)).

(** [time.Local] of a process whose time zone is UTC. *)
Definition utcLocal : Location :=
  mkLocation (lit "UTC") (fun _ => mkZoneInfo (lit "UTC") 0 alpha omega).

(** An instant with a monotonic clock reading, as [time.Now] returns it
    in such a process: wall seconds since 1885 and nanoseconds in [wall],
    the monotonic reading in [ext], [time.Local] as location. *)
Definition withMonotonic : Time :=
  mkTime (hasMonotonic + 4450000000 * 2 ^ 30) 1000 (Some utcLocal).

(** A zone seven hours west of UTC, named MST. *)
Definition MST : Location := FixedZone (lit "MST") (-25200).

(** 2006-01-02T15:04:05.123456-07:00 in that zone. *)
Definition mstTime : Time :=
  mkTime 123456000 (unixToInternal + 1136239445) (Some MST).

(** A stand-in for [time.Parse] that parses nothing. *)
Definition noParse (b : bytes) : result Time :=
  Err (other_error (lit "*time.ParseError") b).

(** The zone as [appendFormatRFC3339] writes it when the hours may need
    more than two digits. *)
Definition zoneTextWide (offset : Z) : bytes :=
  (if go_div offset 60 <? 0 then "-"%byte else "+"%byte)
    :: appendInt [] (Z.abs (go_div offset 60) / 60) 2
    ++ ":"%byte :: digitsN 2 (Z.abs (go_div offset 60) mod 60).

(** A raw payload, the empty one read as the four bytes [null]. *)
Definition orNull (m : bytes) : bytes :=
  if (length m =? 0)%nat then lit "null" else m.

(** The driver values of a kind that [%s] does not format: integers,
    floats and booleans. *)
Definition badVerb (v : driver_Value) : bool :=
  match v with
  | DInt64 _ | DFloat64 _ | DBool _ => true
  | _ => false
  end.

(** The syntax error of a document that starts with a percent sign, at the
    given offset. *)
Definition percentError (Offset : Z) : error :=
  json_SyntaxError_char "%"%byte (lit "looking for beginning of value") Offset.

(** Seconds since January 1 of the year 1, 00:00:00 UTC, of a date and a
    time of day read in UTC. *)
Definition civilSeconds (year month day hour min sec : Z) : Z :=
  (daysBeforeYear (year - absoluteZeroYear) + daysBefore (month - 1)
   + (if isLeap year && (3 <=? month) then 1 else 0) + (day - 1)) * 86400
  + hour * 3600 + min * 60 + sec + absoluteToInternal.

(** * Properties *)

(** ** The raw payload adapters *)

(** C4: on the empty byte sequence [JSONRawMessage.Value] is the
    four-character text [null], which is not SQL NULL, while
    [NullJSONRawMessage.Value] is SQL NULL; both [MarshalJSON] give the
    literal [null]. *)
Theorem raw_payload_empty :
  JSONRawMessage_Value [] = Ok (DString (lit "null"))
  /\ length (lit "null") = 4%nat
  /\ DString (lit "null") <> DNil
  /\ NullJSONRawMessage_Value [] = Ok DNil
  /\ JSONRawMessage_MarshalJSON [] = Ok (lit "null")
  /\ NullJSONRawMessage_MarshalJSON [] = Ok (lit "null").
Proof.
  repeat split; try reflexivity.
  discriminate.
Qed.

Lemma length_pos_false (m : bytes) : m <> [] -> (length m =? 0)%nat = false.
Proof.
  destruct m; simpl; intros H; [contradiction H|]; reflexivity.
Qed.

(** C9: [JSONRawMessage.MarshalJSON] returns a non-empty payload as it is,
    without error. *)
Theorem JSONRawMessage_MarshalJSON_passthrough (b : bytes) :
  b <> [] -> JSONRawMessage_MarshalJSON b = Ok b.
Proof.
  intros Hb. unfold JSONRawMessage_MarshalJSON.
  rewrite (length_pos_false b Hb). reflexivity.
Qed.

Lemma JSONRawMessage_MarshalJSON_passthrough_witness :
  lit "{}" <> [] /\ JSONRawMessage_MarshalJSON (lit "{}") = Ok (lit "{}").
Proof.
  split.
  - discriminate.
  - apply (JSONRawMessage_MarshalJSON_passthrough (lit "{}")). discriminate.
Defined.

(** C8: for both raw payload adapters [UnmarshalJSON] fails, with the nil
    receiver error, exactly when the receiver is the nil pointer, and there
    is then nothing it has written to; on any other receiver, whatever it
    held and whatever the input, it succeeds and the receiver holds the
    input bytes. *)
Theorem raw_payload_UnmarshalJSON (m : option bytes) (data : bytes) :
  (fst (JSONRawMessage_UnmarshalJSON m data) = Some NilReceiverError <-> m = None)
  /\ (fst (JSONRawMessage_UnmarshalJSON m data) = None <-> m <> None)
  /\ JSONRawMessage_UnmarshalJSON None data = (Some NilReceiverError, None)
  /\ (forall old, JSONRawMessage_UnmarshalJSON (Some old) data = (None, Some data))
  /\ (fst (NullJSONRawMessage_UnmarshalJSON m data) = Some NilReceiverError <-> m = None)
  /\ (fst (NullJSONRawMessage_UnmarshalJSON m data) = None <-> m <> None)
  /\ NullJSONRawMessage_UnmarshalJSON None data = (Some NilReceiverError, None)
  /\ (forall old, NullJSONRawMessage_UnmarshalJSON (Some old) data = (None, Some data)).
Proof.
  unfold JSONRawMessage_UnmarshalJSON, NullJSONRawMessage_UnmarshalJSON.
  destruct m as [old|]; simpl;
    repeat split; intros; simpl; try reflexivity; try congruence;
    try discriminate.
Qed.

(** C10: neither raw payload [Scan] returns an error, whatever the driver
    value; on the nil driver value [NullJSONRawMessage.Scan] stores the
    four bytes [null], while [JSONRawMessage.Scan] stores what [fmt] writes
    for nil under [%s], which is another text. *)
Theorem raw_payload_Scan_nil (fmtFloat_v : float -> bytes)
  (Time_String : Time -> bytes) (m : bytes) (value : driver_Value) :
  fst (JSONRawMessage_Scan fmtFloat_v Time_String m value) = None
  /\ fst (NullJSONRawMessage_Scan fmtFloat_v Time_String m value) = None
  /\ snd (NullJSONRawMessage_Scan fmtFloat_v Time_String m DNil) = lit "null"
  /\ length (lit "null") = 4%nat
  /\ snd (JSONRawMessage_Scan fmtFloat_v Time_String m DNil) = lit "%!s(<nil>)"
  /\ snd (JSONRawMessage_Scan fmtFloat_v Time_String m DNil) <> lit "null".
Proof.
  repeat split; try reflexivity.
  simpl. discriminate.
Qed.

(** ** The generic helpers *)



(** C5, as stated, fails on [true]: the driver value ends in a newline,
    which the JSON text of [true] does not. *)
Lemma JSONValue_true_not_exact :
  json_Marshal_goValue (VBool true) = Ok (lit "true")
  /\ JSONValue goValue json_Marshal_goValue (Some (VBool true))
     = Ok (DString (lit "true" ++ [x0a]))
  /\ JSONValue goValue json_Marshal_goValue (Some (VBool true))
     <> Ok (DString (lit "true")).
Proof.
  repeat split; try reflexivity.
  simpl. discriminate.
Qed.

(** C5, amended: [JSONValue] returns SQL NULL without error for the nil
    source; for any other source it returns the JSON text of the value
    followed by one newline, or the error of the encoder when the value has
    no JSON text. *)
Theorem JSONValue_spec (any : Type) (json_Marshal : any -> result bytes) :
  JSONValue any json_Marshal None = Ok DNil
  /\ forall v : any,
       JSONValue any json_Marshal (Some v)
       = match json_Marshal v with
         | Ok text => Ok (DString (text ++ [x0a]))
         | Err e => Err e
         end.
Proof.
  split; [reflexivity|].
  intros v. unfold JSONValue, Encoder_Encode.
  destruct (json_Marshal v); reflexivity.
Qed.

Example JSONValue_chan :
  JSONValue goValue json_Marshal_goValue (Some VChan)
  = Err (other_error (lit "*json.UnsupportedTypeError")
                     (lit "json: unsupported type: chan int")).
Proof. reflexivity. Qed.

(** ** NullTime: the zero instant *)

(** C1: for a [NullTime] of the zero instant [Value] is SQL NULL and
    [MarshalJSON] is the four bytes [null]. *)
Theorem NullTime_zero_is_absent (ns : NullTime) :
  Time_IsZero ns = true ->
  NullTime_Value ns = Ok DNil
  /\ NullTime_MarshalJSON ns = Ok (lit "null")
  /\ length (lit "null") = 4%nat.
Proof.
  intros Hz. unfold NullTime_Value, NullTime_MarshalJSON, sql_NullTime_Value.
  simpl. rewrite Hz. simpl. repeat split.
Qed.

Lemma NullTime_zero_is_absent_witness :
  Time_IsZero (mkTime 0 0 None) = true
  /\ NullTime_Value (mkTime 0 0 None) = Ok DNil
  /\ NullTime_MarshalJSON (mkTime 0 0 None) = Ok (lit "null")
  /\ length (lit "null") = 4%nat.
Proof.
  split.
  - reflexivity.
  - apply (NullTime_zero_is_absent (mkTime 0 0 None)). reflexivity.
Defined.

(** C2: [UnmarshalJSON] on the bytes [null] succeeds and leaves the zero
    instant in the receiver, whatever the receiver held. *)
Theorem NullTime_UnmarshalJSON_null (Local : Location)
  (Parse_RFC3339 : bytes -> result Time) (ns : NullTime) :
  NullTime_UnmarshalJSON Local Parse_RFC3339 ns (lit "null")
  = (None, mkTime 0 0 None)
  /\ Time_IsZero (mkTime 0 0 None) = true.
Proof.
  split; reflexivity.
Qed.

(** ** Decimal digits *)

Lemma length_digits_le (k : nat) (u : Z) : length (digits_le k u) = k.
Proof.
  revert u. induction k as [|k IH]; intros u; simpl; [reflexivity|].
  now rewrite IH.
Qed.

Lemma length_digitsN (k : nat) (u : Z) : length (digitsN k u) = k.
Proof. unfold digitsN. rewrite length_rev. apply length_digits_le. Qed.

Lemma digits_le_zero (k : nat) : digits_le k 0 = repeat "0"%byte k.
Proof.
  induction k as [|k IH]; simpl; [reflexivity|].
  rewrite Zdiv_0_l, IH. reflexivity.
Qed.

Lemma rev_repeat {A : Type} (x : A) (n : nat) : rev (repeat x n) = repeat x n.
Proof.
  induction n as [|n IH]; simpl; [reflexivity|].
  rewrite IH. clear IH. induction n as [|n IH]; simpl; [reflexivity|].
  now rewrite IH.
Qed.

(** The digits [decimal_rev] produces, followed by the zeros that pad them
    to [k] digits, are the [k] digits of [u]. *)
Lemma decimal_rev_padded (k : nat) :
  forall (fuel : nat) (u : Z),
    (1 <= k <= fuel)%nat -> 0 <= u < 10 ^ Z.of_nat k ->
    (length (decimal_rev fuel u) <= k)%nat
    /\ decimal_rev fuel u ++ repeat "0"%byte (k - length (decimal_rev fuel u))
       = digits_le k u.
Proof.
  induction k as [|k IH]; intros fuel u Hk Hu; [lia|].
  destruct fuel as [|fuel]; [lia|].
  simpl decimal_rev. destruct (u <? 10) eqn:Hlt.
  - apply Z.ltb_lt in Hlt. simpl. split; [lia|].
    rewrite Z.mod_small by lia. rewrite Z.div_small by lia.
    rewrite digits_le_zero. now rewrite Nat.sub_0_r.
  - apply Z.ltb_ge in Hlt.
    destruct k as [|k].
    + simpl in Hu. lia.
    + assert (Hu' : 0 <= u / 10 < 10 ^ Z.of_nat (S k)).
      { split; [apply Z.div_pos; lia|].
        apply Z.div_lt_upper_bound; [lia|].
        replace (Z.of_nat (S (S k))) with (Z.succ (Z.of_nat (S k))) in Hu by lia.
        rewrite Z.pow_succ_r in Hu by lia. lia. }
      destruct (IH fuel (u / 10) ltac:(lia) Hu') as [Hlen Heq].
      split; [simpl; lia|].
      cbn [length app digits_le]. f_equal.
      replace (S (S k) - S (length (decimal_rev fuel (u / 10))))%nat
        with (S k - length (decimal_rev fuel (u / 10)))%nat by lia.
      exact Heq.
Qed.

Lemma u64_small (z : Z) : 0 <= z < 2 ^ 64 -> u64 z = z.
Proof. intros H. unfold u64. apply Z.mod_small. exact H. Qed.

Lemma i64_small (z : Z) : - 2 ^ 63 <= z < 2 ^ 63 -> i64 z = z.
Proof.
  intros H. unfold i64. rewrite Z.mod_small; lia.
Qed.

Lemma pow10_le_19 (k : nat) : (k <= 19)%nat -> 10 ^ Z.of_nat k < 2 ^ 64.
Proof.
  intros H.
  apply Z.le_lt_trans with (10 ^ 19); [|reflexivity].
  apply Z.pow_le_mono_r; lia.
Qed.

(** [appendInt] on a number that fits its width writes exactly that many
    digits. *)
Lemma appendInt_fits (b : bytes) (x : Z) (w : nat) :
  (1 <= w <= 19)%nat -> 0 <= x < 10 ^ Z.of_nat w ->
  appendInt b x (Z.of_nat w) = b ++ digitsN w x.
Proof.
  intros Hw Hx. unfold appendInt.
  destruct (x <? 0) eqn:Hneg; [apply Z.ltb_lt in Hneg; lia|].
  pose proof (pow10_le_19 w ltac:(lia)) as Hp.
  rewrite u64_small by lia.
  unfold decimal. rewrite length_rev.
  destruct (decimal_rev_padded w 20 x ltac:(lia) Hx) as [Hlen Heq].
  f_equal. unfold digitsN. rewrite <- Heq, rev_app_distr, rev_repeat.
  f_equal. f_equal. lia.
Qed.

(** ** JSON strings without escapes *)

Lemma plainByte_parts (c : byte) :
  plainByte c = true ->
  Byte.eqb c quote_byte = false /\ Byte.eqb c backslash_byte = false
  /\ 32 <= bv c
  /\ (Byte.eqb c "<"%byte || Byte.eqb c ">"%byte || Byte.eqb c "&"%byte) = false
  /\ Byte.eqb c xe2 = false.
Proof.
  unfold plainByte. intros H.
  apply andb_prop in H as [H H5]. apply andb_prop in H as [H H4].
  apply andb_prop in H as [H H3]. apply andb_prop in H as [H1 H2].
  apply negb_true_iff in H1, H2, H4, H5. apply Z.leb_le in H3.
  repeat split; assumption.
Qed.

Lemma plainByte_step (c : byte) (n : Z) :
  plainByte c = true ->
  scanner_step (mkScanner fnInString false [] None n) c
  = (mkScanner fnInString false [] None n, scanContinue).
Proof.
  intros H. apply plainByte_parts in H as (Hq & Hb & Hge & _ & _).
  unfold scanner_step, stateInString. simpl step.
  rewrite Hq, Hb.
  destruct (bv c <? 32) eqn:Hlt; [|reflexivity].
  apply Z.ltb_lt in Hlt. lia.
Qed.

Lemma plainByte_no_escape (c : byte) :
  plainByte c = true ->
  (Byte.eqb c "<"%byte || Byte.eqb c ">"%byte || Byte.eqb c "&"%byte) = false
  /\ Byte.eqb c xe2 = false.
Proof.
  intros H. apply plainByte_parts in H as (_ & _ & _ & He & Hx).
  split; assumption.
Qed.

(** Inside a string of plain bytes the compaction loop copies nothing and
    drops nothing, up to and including the closing quote. *)
Lemma appendCompact_loop_plain (src : bytes) (s : bytes) :
  Forall (fun c => plainByte c = true) s ->
  forall i : nat,
    appendCompact_loop true src (s ++ [quote_byte]) i [] 0 inString
    = ([], 0%nat, mkScanner fnEndValue false [] None 0).
Proof.
  induction 1 as [|c s Hc Hs IH]; intros i.
  - reflexivity.
  - simpl app. cbn [appendCompact_loop].
    destruct (plainByte_no_escape c Hc) as [He1 He2].
    rewrite He1, He2. cbn [andb].
    unfold inString. rewrite (plainByte_step c 0 Hc).
    cbn. apply IH.
Qed.

Lemma appendCompact_quoted (s : bytes) :
  Forall (fun c => plainByte c = true) s ->
  appendCompact (quoted s) true = Ok (quoted s).
Proof.
  intros Hs. unfold appendCompact, quoted.
  cbn [appendCompact_loop].
  change (Byte.eqb quote_byte "<"%byte || Byte.eqb quote_byte ">"%byte
          || Byte.eqb quote_byte "&"%byte) with false.
  change (Byte.eqb quote_byte xe2) with false. cbn [andb].
  change (scanner_step newScanner quote_byte) with (inString, scanBeginLiteral).
  cbn [Z.leb Z.compare scanSkipSpace scanBeginLiteral Pos.compare Pos.compare_cont].
  change (scanSkipSpace <=? scanBeginLiteral) with false. cbv iota.
  rewrite (appendCompact_loop_plain _ s Hs 1).
  reflexivity.
Qed.

(** The same bytes pass [checkValid]. *)
Lemma checkValid_loop_plain (s : bytes) :
  Forall (fun c => plainByte c = true) s ->
  forall n : Z,
    checkValid_loop (s ++ [quote_byte]) (mkScanner fnInString false [] None n) = None.
Proof.
  induction 1 as [|c s Hc Hs IH]; intros n.
  - reflexivity.
  - simpl app. cbn [checkValid_loop]. cbn [step endTop parseState err scanned].
    rewrite (plainByte_step c (n + 1) Hc).
    change (scanContinue =? scanError) with false. cbv iota.
    apply IH.
Qed.

Lemma checkValid_quoted (s : bytes) :
  Forall (fun c => plainByte c = true) s ->
  checkValid (quoted s) = None.
Proof.
  intros Hs. unfold checkValid, quoted. cbn [checkValid_loop].
  cbn [step endTop parseState err scanned newScanner].
  change (scanner_step (mkScanner fnBeginValue false [] None (0 + 1)) quote_byte)
    with (mkScanner fnInString false [] None 1, scanBeginLiteral).
  change (scanBeginLiteral =? scanError) with false. cbv iota.
  apply checkValid_loop_plain. exact Hs.
Qed.

Lemma trimLeft_quote (s : bytes) : trimLeft (quote_byte :: s) = quote_byte :: s.
Proof. reflexivity. Qed.

Lemma valueBytes_quoted (s : bytes) : valueBytes (quoted s) = quoted s.
Proof.
  unfold valueBytes, quoted. rewrite trimLeft_quote.
  simpl rev. rewrite rev_app_distr. simpl. 
  rewrite rev_app_distr. simpl. rewrite rev_involutive. reflexivity.
Qed.

(** ** The calendar *)

Lemma absDate_full (abs : Z) :
  absDate abs true
  = let '(y, yday) := yearDay (abs / secondsPerDay) in
    let year := i64 (i64 (u64 y) + absoluteZeroYear) in
    let '(month, day) := monthDay (isLeap year) yday in
    (year, month, day, yday).
Proof.
  unfold absDate, yearDay, monthDay. cbv zeta. cbn [negb].
  set (year := i64 _). set (yd := _ - 365 * _).
  destruct (isLeap year).
  - destruct (31 + 29 - 1 <? yd).
    + destruct (daysBefore ((yd - 1) / 31 + 1) <=? yd - 1); reflexivity.
    + destruct (yd =? 31 + 29 - 1); [reflexivity|].
      destruct (daysBefore (yd / 31 + 1) <=? yd); reflexivity.
  - destruct (daysBefore (yd / 31 + 1) <=? yd); reflexivity.
Qed.

Lemma absDate_year (abs : Z) (full : bool) :
  fst (fst (fst (absDate abs full)))
  = i64 (i64 (u64 (fst (yearDay (abs / secondsPerDay)))) + absoluteZeroYear).
Proof.
  destruct full.
  - rewrite absDate_full. destruct (yearDay _) as [y yd]. cbv zeta.
    destruct (monthDay _ _). reflexivity.
  - reflexivity.
Qed.

Lemma yearDay_spec (d : Z) :
  0 <= d ->
  let '(y, yday) := yearDay d in
  0 <= y /\ d = daysBeforeYear y + yday
  /\ 0 <= yday < (if leapYear y then 366 else 365).
Proof.
  intros Hd. unfold yearDay, daysBeforeYear, leapYear.
  unfold daysPer400Years, daysPer100Years, daysPer4Years.
  rewrite !Z.shiftr_div_pow2 by lia. change (2 ^ 2) with 4.
  cbv zeta.
  set (n400 := d / (365 * 400 + 97)).
  set (d1 := d - (365 * 400 + 97) * n400).
  set (n100' := d1 / (365 * 100 + 24)).
  set (n100 := n100' - n100' / 4).
  set (d2 := d1 - (365 * 100 + 24) * n100).
  set (n4 := d2 / (365 * 4 + 1)).
  set (d3 := d2 - (365 * 4 + 1) * n4).
  set (n1' := d3 / 365).
  set (n1 := n1' - n1' / 4).
  set (y := 400 * n400 + 100 * n100 + 4 * n4 + n1).
  assert (H400 : 0 <= n400 /\ 0 <= d1 < 146097) by (subst d1 n400; Z.div_mod_to_equations; lia).
  assert (H100 : 0 <= n100 <= 3 /\ 0 <= d2 /\ (n100 < 3 -> d2 < 36524) /\ (n100 = 3 -> d2 <= 36524))
    by (subst d2 n100 n100'; Z.div_mod_to_equations; lia).
  assert (H4 : 0 <= n4 <= 24 /\ 0 <= d3 < 1461 /\ (n4 = 24 -> n100 < 3 -> d3 < 1460))
    by (subst d3 n4; Z.div_mod_to_equations; lia).
  assert (H1 : 0 <= n1 <= 3 /\ 0 <= d3 - 365 * n1 /\ (n1 < 3 -> d3 - 365 * n1 < 365)
               /\ (n1 = 3 -> d3 - 365 * n1 <= 365))
    by (subst n1 n1'; Z.div_mod_to_equations; lia).
  assert (Hy400 : y / 400 = n400) by (subst y; Z.div_mod_to_equations; lia).
  assert (Hy100 : y mod 400 / 100 = n100) by (subst y; Z.div_mod_to_equations; lia).
  assert (Hy4 : y mod 100 / 4 = n4) by (subst y; Z.div_mod_to_equations; lia).
  assert (Hy1 : y mod 4 = n1) by (subst y; Z.div_mod_to_equations; lia).
  assert (Hm100 : y mod 100 = 4 * n4 + n1) by (subst y; Z.div_mod_to_equations; lia).
  assert (Hm400 : y mod 400 = 100 * n100 + 4 * n4 + n1) by (subst y; Z.div_mod_to_equations; lia).
  rewrite Hy400, Hy100, Hy4, Hy1, Hm100, Hm400.
  split; [subst y; lia|]. split; [subst d3 d2 d1; lia|].
  split; [lia|].
  destruct (n1 =? 3) eqn:E1; [apply Z.eqb_eq in E1|apply Z.eqb_neq in E1]; cbn [andb].
  - destruct (4 * n4 + n1 =? 99) eqn:E2; [apply Z.eqb_eq in E2|apply Z.eqb_neq in E2];
      cbn [negb orb].
    + destruct (100 * n100 + 4 * n4 + n1 =? 399) eqn:E3;
        [apply Z.eqb_eq in E3|apply Z.eqb_neq in E3]; lia.
    + lia.
  - lia.
Qed.

Lemma go_rem_zero (a b : Z) : 0 < b -> (go_rem a b =? 0) = (a mod b =? 0).
Proof.
  intros Hb. unfold go_rem.
  destruct (Z.rem a b =? 0) eqn:E1; destruct (a mod b =? 0) eqn:E2;
    try reflexivity;
    [apply Z.eqb_eq in E1; apply Z.eqb_neq in E2
    |apply Z.eqb_neq in E1; apply Z.eqb_eq in E2];
    exfalso.
  - apply E2. apply Z.mod_divide; [lia|]. apply Z.rem_divide; [lia|exact E1].
  - apply E1. apply Z.rem_divide; [lia|]. apply Z.mod_divide; [lia|exact E2].
Qed.

Lemma isLeap_leapYear (y : Z) : isLeap (y + absoluteZeroYear) = leapYear y.
Proof.
  unfold isLeap, leapYear, absoluteZeroYear.
  rewrite !go_rem_zero by lia.
  assert (H4 : ((y + -292277022399) mod 4 =? 0) = (y mod 4 =? 3)).
  { destruct (y mod 4 =? 3) eqn:E; [apply Z.eqb_eq in E; apply Z.eqb_eq
                                   |apply Z.eqb_neq in E; apply Z.eqb_neq];
      Z.div_mod_to_equations; lia. }
  assert (H100 : ((y + -292277022399) mod 100 =? 0) = (y mod 100 =? 99)).
  { destruct (y mod 100 =? 99) eqn:E; [apply Z.eqb_eq in E; apply Z.eqb_eq
                                      |apply Z.eqb_neq in E; apply Z.eqb_neq];
      Z.div_mod_to_equations; lia. }
  assert (H400 : ((y + -292277022399) mod 400 =? 0) = (y mod 400 =? 399)).
  { destruct (y mod 400 =? 399) eqn:E; [apply Z.eqb_eq in E; apply Z.eqb_eq
                                       |apply Z.eqb_neq in E; apply Z.eqb_neq];
      Z.div_mod_to_equations; lia. }
  rewrite H4, H100, H400. reflexivity.
Qed.

Lemma daysSinceEpoch_daysBeforeYear (y : Z) :
  0 <= y < 2 ^ 62 ->
  daysSinceEpoch (y + absoluteZeroYear) = daysBeforeYear y.
Proof.
  intros Hy. unfold daysSinceEpoch, daysBeforeYear. cbv zeta.
  assert (Ha : - 2 ^ 63 <= y + absoluteZeroYear < 2 ^ 63)
    by (unfold absoluteZeroYear; lia).
  rewrite (i64_small _ Ha).
  replace (y + absoluteZeroYear - absoluteZeroYear) with y by lia.
  rewrite u64_small by lia.
  assert (H1 : y - 400 * (y / 400) = y mod 400) by (Z.div_mod_to_equations; lia).
  rewrite H1.
  assert (H2 : y mod 400 - 100 * (y mod 400 / 100) = y mod 100)
    by (Z.div_mod_to_equations; lia).
  rewrite H2.
  assert (H3 : y mod 100 - 4 * (y mod 100 / 4) = y mod 4)
    by (Z.div_mod_to_equations; lia).
  rewrite H3. lia.
Qed.

(** Checking a property of the numbers below [n] by running it. *)
Lemma forall_below (P : Z -> bool) (n : nat) :
  forallb P (map Z.of_nat (seq 0 n)) = true ->
  forall z : Z, 0 <= z < Z.of_nat n -> P z = true.
Proof.
  intros H z Hz. rewrite forallb_forall in H. apply H.
  apply in_map_iff. exists (Z.to_nat z). split; [lia|].
  apply in_seq. lia.
Qed.

Lemma monthDay_spec (leap : bool) (yday : Z) :
  0 <= yday < (if leap then 366 else 365) ->
  monthDay_ok leap yday = true.
Proof.
  intros H. destruct leap.
  - apply (forall_below (monthDay_ok true) 366); [vm_compute; reflexivity|lia].
  - apply (forall_below (monthDay_ok false) 365); [vm_compute; reflexivity|lia].
Qed.

Lemma absClock_spec (abs : Z) :
  let '(hour, min, sec) := absClock abs in
  0 <= hour < 24 /\ 0 <= min < 60 /\ 0 <= sec < 60
  /\ hour * secondsPerHour + min * secondsPerMinute + sec = abs mod secondsPerDay.
Proof.
  unfold absClock, secondsPerDay, secondsPerHour, secondsPerMinute. cbv zeta.
  change (24 * (60 * 60)) with 86400. change (60 * 60) with 3600.
  set (s := abs mod 86400).
  assert (Hs : 0 <= s < 86400) by (subst s; apply Z.mod_pos_bound; lia).
  repeat split; Z.div_mod_to_equations; lia.
Qed.

(** ** Wrap-around *)

Lemma i64_add_i64 (a b : Z) : i64 (i64 a + b) = i64 (a + b).
Proof. unfold i64. Z.div_mod_to_equations. lia. Qed.

Lemma u64_add_i64 (a b : Z) : u64 (i64 a + b) = u64 (a + b).
Proof. unfold u64, i64. Z.div_mod_to_equations. lia. Qed.

Lemma u64_i64 (a : Z) : u64 (i64 a) = u64 a.
Proof. unfold u64, i64. Z.div_mod_to_equations. lia. Qed.

Lemma i64_u64 (a : Z) : i64 (u64 a) = i64 a.
Proof. unfold u64, i64. Z.div_mod_to_equations. lia. Qed.

Lemma u64_range (a : Z) : 0 <= u64 a < 2 ^ 64.
Proof. unfold u64. apply Z.mod_pos_bound. lia. Qed.

Lemma i64_range (a : Z) : - 2 ^ 63 <= i64 a < 2 ^ 63.
Proof. unfold i64. Z.div_mod_to_equations. lia. Qed.

(** The absolute time of [t]: the seconds of [t] on the clock of its zone,
    counted from the absolute zero year, as a [uint64]. *)
Lemma Time_abs_eq (t : Time) :
  Time_abs t = u64 (Time_sec t + Time_Zone_offset t + internalToAbsolute).
Proof.
  unfold Time_abs, Time_Zone_offset, Time_locabs, Time_unixSec. cbn [fst snd].
  unfold internalToUnix.
  destruct (loc t) as [l|].
  - set (off := zi_offset _). clearbody off.
    generalize (Time_sec t) unixToInternal internalToAbsolute. intros a b c.
    unfold u64, i64. Z.div_mod_to_equations. lia.
  - generalize (Time_sec t) unixToInternal internalToAbsolute. intros a b c.
    unfold u64, i64. Z.div_mod_to_equations. lia.
Qed.

Lemma Time_locabs_eq (t : Time) :
  Time_locabs t = (Time_Zone_offset t, Time_abs t).
Proof. unfold Time_Zone_offset, Time_abs. now destruct (Time_locabs t). Qed.

(** ** Years 0 to 9999 *)

Lemma daysBeforeYear_linear (y : Z) :
  daysBeforeYear y = 365 * y + y / 4 - y / 100 + y / 400.
Proof.
  unfold daysBeforeYear, daysPer400Years, daysPer100Years, daysPer4Years.
  Z.div_mod_to_equations. lia.
Qed.

(** The year of an absolute time, without wrap-around. *)
Lemma absDate_year_exact (abs : Z) (full : bool) :
  0 <= abs < 2 ^ 64 ->
  fst (fst (fst (absDate abs full)))
  = fst (yearDay (abs / secondsPerDay)) + absoluteZeroYear.
Proof.
  intros Habs. rewrite absDate_year.
  assert (Hd : 0 <= abs / secondsPerDay < 2 ^ 48).
  { unfold secondsPerDay, secondsPerHour, secondsPerMinute.
    Z.div_mod_to_equations. lia. }
  pose proof (yearDay_spec (abs / secondsPerDay) (proj1 Hd)) as Hy.
  destruct (yearDay (abs / secondsPerDay)) as [y yd]. cbn [fst].
  destruct Hy as (Hy0 & Hsum & Hyd).
  rewrite daysBeforeYear_linear in Hsum.
  assert (Hyb : y < 2 ^ 48) by (Z.div_mod_to_equations; lia).
  rewrite u64_small by lia.
  rewrite (i64_small y) by lia.
  apply i64_small. unfold absoluteZeroYear. lia.
Qed.

(** An absolute time whose year is within [0, 9999] is, in seconds since
    year 1, at least minus one leap year and below 9999 years. *)
Lemma year_range_internal (abs : Z) :
  0 <= abs < 2 ^ 64 ->
  0 <= fst (fst (fst (absDate abs false))) <= 9999 ->
  internalMin <= abs + absoluteToInternal < internalMax.
Proof.
  intros Habs. rewrite (absDate_year_exact abs false Habs).
  assert (Hd : 0 <= abs / secondsPerDay).
  { unfold secondsPerDay, secondsPerHour, secondsPerMinute.
    Z.div_mod_to_equations. lia. }
  pose proof (yearDay_spec (abs / secondsPerDay) Hd) as Hy.
  destruct (yearDay (abs / secondsPerDay)) as [y yd]. cbn [fst].
  destruct Hy as (Hy0 & Hsum & Hyd).
  rewrite daysBeforeYear_linear in Hsum.
  unfold absoluteZeroYear, internalMin, internalMax, absoluteToInternal.
  intros Hyear.
  assert (Hyd' : 0 <= yd < 366) by (destruct (leapYear y); lia).
  assert (Hyl : yd < 365 \/ y mod 4 = 3).
  { unfold leapYear in Hyd. destruct (y mod 4 =? 3) eqn:E.
    - right. now apply Z.eqb_eq in E.
    - left. cbn [andb] in Hyd. lia. }
  revert Hsum. unfold secondsPerDay, secondsPerHour, secondsPerMinute.
  intros Hsum.
  Z.div_mod_to_equations. lia.
Qed.

(** ** The RFC 3339 text of a time *)

Lemma digit_cases (d : Z) :
  0 <= d <= 9 ->
  d = 0 \/ d = 1 \/ d = 2 \/ d = 3 \/ d = 4 \/ d = 5 \/ d = 6 \/ d = 7 \/ d = 8 \/ d = 9.
Proof. lia. Qed.

Ltac digit_cases d H :=
  let C := fresh "C" in
  pose proof (digit_cases d H) as C;
  repeat (destruct C as [C|C]; [rewrite C|]); try rewrite C.

Lemma digit_byte_value (d : Z) : 0 <= d <= 9 -> bv (digit_byte d) = 48 + d.
Proof. intros H. digit_cases d H; reflexivity. Qed.

Lemma digit_byte_isDigit (d : Z) : 0 <= d <= 9 -> isDigitByte (digit_byte d) = true.
Proof. intros H. digit_cases d H; reflexivity. Qed.

Lemma digit_byte_plain (d : Z) : 0 <= d <= 9 -> plainByte (digit_byte d) = true.
Proof. intros H. digit_cases d H; reflexivity. Qed.

Lemma digit_byte_zero (d : Z) :
  0 <= d <= 9 -> Byte.eqb (digit_byte d) "0"%byte = (d =? 0).
Proof. intros H. digit_cases d H; reflexivity. Qed.

Lemma digit_byte_not_sep (d : Z) :
  0 <= d <= 9 -> commaOrPeriod (digit_byte d) = false.
Proof. intros H. digit_cases d H; reflexivity. Qed.

Lemma mod10_range (u : Z) : 0 <= u mod 10 <= 9.
Proof. pose proof (Z.mod_pos_bound u 10). lia. Qed.

Lemma digits_le_plain (k : nat) (u : Z) :
  Forall (fun c => plainByte c = true) (digits_le k u).
Proof.
  revert u. induction k as [|k IH]; intros u; simpl; constructor.
  - apply digit_byte_plain, mod10_range.
  - apply IH.
Qed.

Lemma digits_le_isDigit (k : nat) (u : Z) :
  Forall (fun c => isDigitByte c = true) (digits_le k u).
Proof.
  revert u. induction k as [|k IH]; intros u; simpl; constructor.
  - apply digit_byte_isDigit, mod10_range.
  - apply IH.
Qed.

Lemma digitsN_plain (k : nat) (u : Z) :
  Forall (fun c => plainByte c = true) (digitsN k u).
Proof. unfold digitsN. apply Forall_rev, digits_le_plain. Qed.

Lemma dropZeros_rev_Forall (P : byte -> Prop) (r : bytes) :
  Forall P r -> Forall P (dropZeros_rev r).
Proof.
  induction 1 as [|c r Hc Hr IH]; simpl; [constructor|].
  destruct (Byte.eqb c "0"%byte); [exact IH|]. now constructor.
Qed.

(** Dropping the low zeros of the digits of a positive number leaves the
    digits of the number without its factors of ten; the lowest one is not
    zero. *)
Lemma dropZeros_digits (k : nat) :
  forall (u : Z) (rest : bytes),
    0 < u < 10 ^ Z.of_nat k ->
    exists j : nat,
      (j < k)%nat
      /\ dropZeros_rev (digits_le k u ++ rest)
         = digits_le (k - j) (u / 10 ^ Z.of_nat j) ++ rest
      /\ u = 10 ^ Z.of_nat j * (u / 10 ^ Z.of_nat j)
      /\ (u / 10 ^ Z.of_nat j) mod 10 <> 0.
Proof.
  induction k as [|k IH]; intros u rest Hu.
  - simpl in Hu. lia.
  - destruct (Z.eq_dec (u mod 10) 0) as [Hz|Hnz].
    + assert (Hu' : 0 < u / 10 < 10 ^ Z.of_nat k).
      { replace (Z.of_nat (S k)) with (Z.succ (Z.of_nat k)) in Hu by lia.
        rewrite Z.pow_succ_r in Hu by lia.
        Z.div_mod_to_equations. lia. }
      destruct (IH (u / 10) rest Hu') as (j & Hj & Hdrop & Hmul & Hlow).
      exists (S j).
      assert (Hpow : 10 ^ Z.of_nat (S j) = 10 * 10 ^ Z.of_nat j).
      { replace (Z.of_nat (S j)) with (Z.succ (Z.of_nat j)) by lia.
        apply Z.pow_succ_r. lia. }
      assert (Hdiv : u / 10 ^ Z.of_nat (S j) = u / 10 / 10 ^ Z.of_nat j).
      { rewrite Hpow. rewrite Z.div_div; [reflexivity|lia|].
        apply Z.pow_pos_nonneg; lia. }
      split; [lia|]. split; [|split].
      * cbn [digits_le app dropZeros_rev].
        rewrite digit_byte_zero by apply mod10_range.
        rewrite Hz. cbn [Z.eqb]. rewrite Hdrop, Hdiv.
        replace (S k - S j)%nat with (k - j)%nat by lia. reflexivity.
      * rewrite Hdiv, Hpow. rewrite <- Z.mul_assoc, <- Hmul.
        Z.div_mod_to_equations. lia.
      * rewrite Hdiv. exact Hlow.
    + exists 0%nat. split; [lia|].
      change (10 ^ Z.of_nat 0) with 1. rewrite Z.div_1_r.
      split; [|split; [lia|exact Hnz]].
      cbn [digits_le app dropZeros_rev].
      rewrite digit_byte_zero by apply mod10_range.
      destruct (u mod 10 =? 0) eqn:E; [apply Z.eqb_eq in E; contradiction|].
      reflexivity.
Qed.

Lemma appendInt_2 (b : bytes) (x : Z) :
  0 <= x < 100 -> appendInt b x 2 = b ++ digitsN 2 x.
Proof. intros H. apply (appendInt_fits b x 2); [lia|exact H]. Qed.

Lemma appendInt_4 (b : bytes) (x : Z) :
  0 <= x < 10000 -> appendInt b x 4 = b ++ digitsN 4 x.
Proof. intros H. apply (appendInt_fits b x 4); [lia|exact H]. Qed.

Lemma appendInt_9 (b : bytes) (x : Z) :
  0 <= x < 1000000000 -> appendInt b x 9 = b ++ digitsN 9 x.
Proof. intros H. apply (appendInt_fits b x 9); [lia|exact H]. Qed.

Lemma dropZeros_rev_app (l rest : bytes) :
  dropZeros_rev l <> [] -> dropZeros_rev (l ++ rest) = dropZeros_rev l ++ rest.
Proof.
  induction l as [|c l IH]; simpl; intros H; [contradiction|].
  destruct (Byte.eqb c "0"%byte); [now apply IH|reflexivity].
Qed.

(** The digits of a positive fraction, without their low zeros: at least
    one is left, and the lowest is not a separator. *)
Lemma dropZeros_nsec (nsec : Z) :
  0 < nsec < 1000000000 ->
  exists (d : byte) (tl : bytes),
    dropZeros_rev (digits_le 9 nsec) = d :: tl /\ commaOrPeriod d = false.
Proof.
  intros Hn.
  destruct (dropZeros_digits 9 nsec [] Hn) as (j & Hj & Hdrop & _ & _).
  rewrite !app_nil_r in Hdrop. rewrite Hdrop.
  destruct (9 - j)%nat as [|m] eqn:Em; [lia|].
  cbn [digits_le]. eexists. eexists. split; [reflexivity|].
  apply digit_byte_not_sep, mod10_range.
Qed.

Lemma appendNano_fracText (b : bytes) (nsec : Z) :
  0 <= nsec < 1000000000 ->
  appendNano b nsec true 9 "."%byte = b ++ fracText nsec.
Proof.
  intros Hn. unfold appendNano, fracText.
  change (9 =? 0) with false. cbn [orb andb].
  destruct (nsec =? 0) eqn:E0; [now rewrite app_nil_r|].
  apply Z.eqb_neq in E0.
  rewrite appendInt_9 by exact Hn.
  change (9 <? 9) with false. cbv iota.
  unfold digitsN.
  rewrite !rev_app_distr, rev_involutive. cbn [rev app].
  destruct (dropZeros_nsec nsec ltac:(lia)) as (d & tl & Hd & Hsep).
  rewrite dropZeros_rev_app by (rewrite Hd; discriminate).
  rewrite Hd. cbn [app]. rewrite Hsep.
  cbn [rev]. rewrite !rev_app_distr. cbn [rev app].
  rewrite rev_involutive. rewrite <- !app_assoc. reflexivity.
Qed.

(** The date of an absolute time: the year without wrap-around, a month
    and a day of that month, and the count of days that [time.Date]
    computes back from them. *)
Lemma absDate_spec (abs : Z) :
  0 <= abs < 2 ^ 64 ->
  exists y month day yday : Z,
    absDate abs true = (y + absoluteZeroYear, month, day, yday)
    /\ 0 <= y < 2 ^ 48
    /\ 1 <= month <= 12
    /\ 1 <= day <= daysIn month (y + absoluteZeroYear)
    /\ abs / secondsPerDay
       = daysBeforeYear y + daysBefore (month - 1)
         + (if isLeap (y + absoluteZeroYear) && (3 <=? month) then 1 else 0)
         + (day - 1).
Proof.
  intros Habs. rewrite absDate_full.
  assert (Hd : 0 <= abs / secondsPerDay < 2 ^ 48).
  { unfold secondsPerDay, secondsPerHour, secondsPerMinute.
    Z.div_mod_to_equations. lia. }
  pose proof (yearDay_spec (abs / secondsPerDay) (proj1 Hd)) as Hy.
  destruct (yearDay (abs / secondsPerDay)) as [y yd].
  destruct Hy as (Hy0 & Hsum & Hyd). cbv zeta.
  assert (Hyb : y < 2 ^ 48).
  { rewrite daysBeforeYear_linear in Hsum. Z.div_mod_to_equations. lia. }
  rewrite u64_small by lia. rewrite (i64_small y) by lia.
  rewrite i64_small by (unfold absoluteZeroYear; lia).
  rewrite isLeap_leapYear.
  pose proof (monthDay_spec (leapYear y) yd Hyd) as Hmd.
  unfold monthDay_ok in Hmd.
  destruct (monthDay (leapYear y) yd) as [m d].
  apply andb_prop in Hmd as [Hmd H5]. apply andb_prop in Hmd as [Hmd H4].
  apply andb_prop in Hmd as [Hmd H3]. apply andb_prop in Hmd as [H1 H2].
  apply Z.leb_le in H1, H2, H3, H4. apply Z.eqb_eq in H5.
  exists y, m, d, yd. split; [reflexivity|].
  split; [lia|]. split; [lia|]. split.
  - unfold daysIn. rewrite isLeap_leapYear. lia.
  - rewrite isLeap_leapYear. lia.
Qed.

Lemma daysBefore_month (m : Z) :
  1 <= m <= 12 -> 0 <= daysBefore (m - 1) <= 334 /\ daysBefore m - daysBefore (m - 1) <= 31.
Proof.
  intros H.
  assert (C : m = 1 \/ m = 2 \/ m = 3 \/ m = 4 \/ m = 5 \/ m = 6 \/ m = 7
              \/ m = 8 \/ m = 9 \/ m = 10 \/ m = 11 \/ m = 12) by lia.
  repeat (destruct C as [C|C]; [subst m; vm_compute; split; [split|]; discriminate|]).
  subst m; vm_compute; split; [split|]; discriminate.
Qed.

Lemma daysIn_le_31 (m year : Z) : 1 <= m <= 12 -> daysIn m year <= 31.
Proof.
  intros H. unfold daysIn.
  destruct ((m =? 2) && isLeap year); [lia|].
  apply daysBefore_month. exact H.
Qed.

Lemma Time_nsec_nonneg (t : Time) : 0 <= Time_nsec t.
Proof.
  unfold Time_nsec. apply Z.land_nonneg. right. vm_compute. discriminate.
Qed.

Lemma zone_format (b : bytes) (offset : Z) :
  - 360000 < offset < 360000 ->
  (if offset =? 0 then b ++ ["Z"%byte]
   else
     let zone := go_div offset 60 in
     let '(b, zone) :=
       if zone <? 0 then (b ++ ["-"%byte], - zone) else (b ++ ["+"%byte], zone) in
     let b := appendInt b (go_div zone 60) 2 in
     let b := b ++ [":"%byte] in
     appendInt b (go_rem zone 60) 2)
  = b ++ zoneText offset.
Proof.
  intros Hoff. unfold zoneText.
  destruct (offset =? 0); [reflexivity|].
  cbv zeta. unfold go_div, go_rem.
  assert (Hz : -6000 < offset ÷ 60 < 6000)
    by (Z.to_euclidean_division_equations; lia).
  destruct (offset ÷ 60 <? 0) eqn:E;
    [apply Z.ltb_lt in E|apply Z.ltb_ge in E].
  - rewrite Z.abs_neq by lia.
    rewrite Z.quot_div_nonneg by lia. rewrite Z.rem_mod_nonneg by lia.
    rewrite !appendInt_2 by (Z.div_mod_to_equations; lia).
    rewrite <- !app_assoc. reflexivity.
  - rewrite Z.abs_eq by lia.
    rewrite Z.quot_div_nonneg by lia. rewrite Z.rem_mod_nonneg by lia.
    rewrite !appendInt_2 by (Z.div_mod_to_equations; lia).
    rewrite <- !app_assoc. reflexivity.
Qed.

(** [appendFormatRFC3339] on a time whose year has four digits. *)
Lemma appendFormatRFC3339_text (t : Time) (b : bytes)
  (year month day yday hour min sec : Z) :
  absDate (Time_abs t) true = (year, month, day, yday) ->
  absClock (Time_abs t) = (hour, min, sec) ->
  0 <= year <= 9999 ->
  Time_nsec t < 1000000000 ->
  - 360000 < Time_Zone_offset t < 360000 ->
  Time_appendFormatRFC3339 t b true
  = b ++ rfc3339Text year month day hour min sec (Time_nsec t) (Time_Zone_offset t).
Proof.
  intros Hdate Hclock Hyear Hnsec Hoff.
  assert (Habs : 0 <= Time_abs t < 2 ^ 64)
    by (rewrite Time_abs_eq; apply u64_range).
  destruct (absDate_spec (Time_abs t) Habs)
    as (y & m & d & yd & Hd & Hy & Hm & Hday & _).
  rewrite Hdate in Hd. injection Hd as -> -> -> ->.
  pose proof (daysIn_le_31 m (y + absoluteZeroYear) Hm) as H31.
  pose proof (absClock_spec (Time_abs t)) as Hc. rewrite Hclock in Hc.
  destruct Hc as (Hh & Hmi & Hs & _).
  pose proof (Time_nsec_nonneg t) as Hn0.
  unfold Time_appendFormatRFC3339.
  rewrite Time_locabs_eq, Hdate, Hclock.
  rewrite appendInt_4 by lia.
  rewrite !appendInt_2 by lia.
  unfold Time_Nanosecond. rewrite appendNano_fracText by lia.
  rewrite zone_format by exact Hoff.
  unfold rfc3339Text, dateTimeText.
  repeat (rewrite <- ?app_assoc; cbn [app]; f_equal).
Qed.

Lemma fracText_plain (nsec : Z) : Forall (fun c => plainByte c = true) (fracText nsec).
Proof.
  unfold fracText. destruct (nsec =? 0); constructor; [reflexivity|].
  apply Forall_rev, dropZeros_rev_Forall, digits_le_plain.
Qed.

Lemma zoneText_plain (offset : Z) :
  Forall (fun c => plainByte c = true) (zoneText offset).
Proof.
  unfold zoneText. destruct (offset =? 0); [repeat constructor|].
  cbv zeta. constructor; [destruct (go_div offset 60 <? 0); reflexivity|].
  apply Forall_app. split; [apply digitsN_plain|].
  constructor; [reflexivity|apply digitsN_plain].
Qed.

Lemma rfc3339Text_plain (year month day hour min sec nsec offset : Z) :
  Forall (fun c => plainByte c = true)
         (rfc3339Text year month day hour min sec nsec offset).
Proof.
  unfold rfc3339Text, dateTimeText.
  apply Forall_app. split.
  - repeat (apply Forall_app; split;
            [apply digitsN_plain|constructor; [reflexivity|]]).
    apply digitsN_plain.
  - apply Forall_app. split; [apply fracText_plain|apply zoneText_plain].
Qed.

Lemma length_dateTimeText (year month day hour min sec : Z) :
  length (dateTimeText year month day hour min sec) = 19%nat.
Proof. reflexivity. Qed.

Lemma at_suffix (pre suf : bytes) (k : nat) :
  (1 <= k <= length suf)%nat ->
  at_ (pre ++ suf) (length (pre ++ suf) - k) = at_ suf (length suf - k).
Proof.
  intros Hk. unfold at_. rewrite length_app.
  rewrite app_nth2 by lia. f_equal. lia.
Qed.

Lemma skipn_suffix (pre suf : bytes) (k : nat) :
  (k <= length suf)%nat ->
  skipn (length (pre ++ suf) - k) (pre ++ suf) = skipn (length suf - k) suf.
Proof.
  intros Hk. rewrite length_app. rewrite skipn_app.
  rewrite skipn_all2 by lia. cbn [app]. f_equal. lia.
Qed.

Lemma digit_byte_not_Z (d : Z) :
  0 <= d <= 9 -> Byte.eqb (digit_byte d) "Z"%byte = false.
Proof. intros H. digit_cases d H; reflexivity. Qed.

Lemma num2_digits (h : Z) (rest : bytes) :
  0 <= h < 100 -> num2 (digitsN 2 h ++ rest) = h.
Proof.
  intros Hh. unfold num2, digitsN, at_. cbn [digits_le rev app nth].
  rewrite !digit_byte_value by apply mod10_range.
  change (bv "0"%byte) with 48.
  Z.div_mod_to_equations. lia.
Qed.

(** The checks of [appendStrictRFC3339] pass on a four-digit year and a
    zone of less than a day. *)
Lemma appendStrictRFC3339_ok (t : Time)
  (year month day yday hour min sec : Z) :
  absDate (Time_abs t) true = (year, month, day, yday) ->
  absClock (Time_abs t) = (hour, min, sec) ->
  0 <= year <= 9999 ->
  Time_nsec t < 1000000000 ->
  - 86400 < Time_Zone_offset t < 86400 ->
  Time_appendStrictRFC3339 t [quote_byte]
  = (quote_byte
       :: rfc3339Text year month day hour min sec (Time_nsec t) (Time_Zone_offset t),
     None).
Proof.
  intros Hdate Hclock Hyear Hnsec Hoff.
  unfold Time_appendStrictRFC3339.
  rewrite (appendFormatRFC3339_text t [quote_byte] _ _ _ _ _ _ _ Hdate Hclock Hyear Hnsec)
    by lia.
  cbn [length]. cbv zeta.
  replace (Byte.eqb (at_ ([quote_byte] ++ rfc3339Text year month day hour min sec
                            (Time_nsec t) (Time_Zone_offset t)) (1 + 4)) "-"%byte)
    with true by reflexivity.
  cbn [negb].
  set (off := Time_Zone_offset t) in *.
  set (pre := [quote_byte] ++ dateTimeText year month day hour min sec
                ++ fracText (Time_nsec t)).
  assert (Hb : [quote_byte] ++ rfc3339Text year month day hour min sec (Time_nsec t) off
               = pre ++ zoneText off).
  { subst pre. unfold rfc3339Text. now rewrite <- !app_assoc. }
  change (quote_byte :: rfc3339Text year month day hour min sec (Time_nsec t) off)
    with ([quote_byte] ++ rfc3339Text year month day hour min sec (Time_nsec t) off).
  rewrite Hb. clear Hb. clearbody pre.
  unfold zoneText.
  destruct (off =? 0) eqn:E0.
  - rewrite at_suffix by (cbn; lia). reflexivity.
  - apply Z.eqb_neq in E0. cbv zeta.
    set (zone := go_div off 60) in *.
    assert (Hz : 0 <= Z.abs zone / 60 < 24 /\ 0 <= Z.abs zone mod 60 < 60).
    { subst zone. unfold go_div. Z.to_euclidean_division_equations. lia. }
    set (sign := if zone <? 0 then "-"%byte else "+"%byte) in *.
    set (suf := sign :: digitsN 2 (Z.abs zone / 60) ++ ":"%byte
                     :: digitsN 2 (Z.abs zone mod 60)) in *.
    assert (Hlen : length suf = 6%nat) by reflexivity.
    rewrite !at_suffix by lia. rewrite skipn_suffix by lia. rewrite Hlen.
    replace (at_ suf (6 - 1)) with (digit_byte ((Z.abs zone mod 60) mod 10))
      by reflexivity.
    rewrite digit_byte_not_Z by apply mod10_range. cbn [negb].
    replace (at_ suf (6 - 6)) with sign by reflexivity.
    replace (byte_leb "0"%byte sign && byte_leb sign "9"%byte) with false
      by (subst sign; destruct (zone <? 0); reflexivity).
    cbn [orb].
    replace (skipn (6 - 5) suf)
      with (digitsN 2 (Z.abs zone / 60) ++ ":"%byte :: digitsN 2 (Z.abs zone mod 60))
      by reflexivity.
    rewrite num2_digits by lia.
    destruct (24 <=? Z.abs zone / 60) eqn:E24; [apply Z.leb_le in E24; lia|].
    reflexivity.
Qed.

Lemma Time_text_plain (t : Time) : Forall (fun c => plainByte c = true) (Time_text t).
Proof.
  unfold Time_text. destruct (absDate _ _) as [[[year month] day] yday].
  destruct (absClock _) as [[hour min] sec]. apply rfc3339Text_plain.
Qed.

Lemma Time_Year_eq (t : Time) :
  Time_Year t = fst (fst (fst (absDate (Time_abs t) true))).
Proof.
  unfold Time_Year. rewrite (absDate_year (Time_abs t) true).
  rewrite <- (absDate_year (Time_abs t) false).
  now destruct (absDate (Time_abs t) false) as [[[y m] d] yd].
Qed.

Lemma Time_MarshalJSON_ok (t : Time) :
  Time_nsec t < 1000000000 ->
  0 <= Time_Year t <= 9999 ->
  - 86400 < Time_Zone_offset t < 86400 ->
  Time_MarshalJSON t = Ok (quoted (Time_text t)).
Proof.
  intros Hnsec Hyear Hoff.
  rewrite Time_Year_eq in Hyear.
  unfold Time_text.
  destruct (absDate (Time_abs t) true) as [[[year month] day] yday] eqn:Hdate.
  destruct (absClock (Time_abs t)) as [[hour min] sec] eqn:Hclock.
  cbn [fst] in Hyear.
  unfold Time_MarshalJSON.
  rewrite (appendStrictRFC3339_ok t _ _ _ _ _ _ _ Hdate Hclock Hyear Hnsec Hoff).
  reflexivity.
Qed.

Lemma marshalerEncoder_quoted (Type_ : bytes) (r : result bytes) (text : bytes) :
  r = Ok (quoted text) ->
  Forall (fun c => plainByte c = true) text ->
  marshalerEncoder Type_ r = Ok (quoted text).
Proof.
  intros -> Hplain. unfold marshalerEncoder.
  now rewrite appendCompact_quoted.
Qed.

Lemma json_Marshal_TimePtr_Some (t : Time) :
  json_Marshal_TimePtr (Some t)
  = marshalerEncoder (lit "*time.Time") (Time_MarshalJSON t).
Proof. reflexivity. Qed.

Lemma json_Marshal_TimePtr_ok (t : Time) :
  Time_nsec t < 1000000000 ->
  0 <= Time_Year t <= 9999 ->
  - 86400 < Time_Zone_offset t < 86400 ->
  json_Marshal_TimePtr (Some t) = Ok (quoted (Time_text t)).
Proof.
  intros Hnsec Hyear Hoff.
  rewrite json_Marshal_TimePtr_Some.
  apply marshalerEncoder_quoted.
  - apply Time_MarshalJSON_ok; assumption.
  - apply Time_text_plain.
Qed.

(** ** NullTime.MarshalJSON: when it succeeds *)

Lemma year10000_eq : year10000 = mkTime 0 315537897600 None.
Proof. vm_compute. reflexivity. Qed.

Lemma year10000_MarshalJSON :
  NullTime_MarshalJSON year10000
  = Err (json_MarshalerError (lit "*time.Time")
           (errors_New (lit "Time.MarshalJSON: year outside of range [0,9999]"))
           (lit "MarshalJSON")).
Proof. vm_compute. reflexivity. Qed.

(** C7, as stated, fails on the first instant of the year 10000, a valid
    [Time] that is not the zero instant: [MarshalJSON] returns the error of
    [time.Time.MarshalJSON], wrapped by the encoder. *)
Lemma NullTime_MarshalJSON_year10000 :
  Time_valid year10000
  /\ Time_IsZero year10000 = false
  /\ Time_Year year10000 = 10000
  /\ NullTime_MarshalJSON year10000
     = Err (json_MarshalerError (lit "*time.Time")
              (errors_New (lit "Time.MarshalJSON: year outside of range [0,9999]"))
              (lit "MarshalJSON")).
Proof.
  split; [|split; [|split]].
  - rewrite year10000_eq. unfold Time_valid. cbn [wall ext].
    replace (Time_nsec (mkTime 0 315537897600 None)) with 0 by reflexivity. lia.
  - vm_compute. reflexivity.
  - vm_compute. reflexivity.
  - exact year10000_MarshalJSON.
Qed.

(** [MarshalJSON] returns no error for the zero instant, nor for a valid
    instant whose year, on the clock of its location, is within [0, 9999]
    and whose zone is less than a day from UTC. *)
Lemma NullTime_MarshalJSON_succeeds (ns : NullTime) :
  Time_valid ns ->
  Time_IsZero ns = true
  \/ (0 <= Time_Year ns <= 9999 /\ - 86400 < Time_Zone_offset ns < 86400) ->
  NullTime_MarshalJSON ns
  = Ok (if Time_IsZero ns then lit "null" else quoted (Time_text ns)).
Proof.
  intros (_ & _ & Hnsec) Hcase. unfold NullTime_MarshalJSON.
  destruct (Time_IsZero ns) eqn:Hz; cbn [negb].
  - reflexivity.
  - destruct Hcase as [Hc|[Hyear Hoff]]; [discriminate|].
    apply json_Marshal_TimePtr_ok; assumption.
Qed.

Example refTime_text : Time_text refTime = lit "2006-01-02T22:04:05Z".
Proof. vm_compute. reflexivity. Qed.

(** A zone a day from UTC is refused as well. *)
Example NullTime_MarshalJSON_zone24 :
  NullTime_MarshalJSON (Date 2000 1 1 0 0 0 0 (LocPtr (FixedZone [] 86400)))
  = Err (json_MarshalerError (lit "*time.Time")
           (errors_New (lit "Time.MarshalJSON: timezone hour outside of range [0,23]"))
           (lit "MarshalJSON")).
Proof. vm_compute. reflexivity. Qed.

(** ** Reading decimal digits back *)

Lemma byte_eqb_refl (c : byte) : Byte.eqb c c = true.
Proof. apply Byte.byte_dec_lb. reflexivity. Qed.

Lemma isDigitByte_range (c : byte) :
  isDigitByte c = true ->
  (byte_ltb c "0"%byte || byte_ltb "9"%byte c) = false.
Proof.
  unfold isDigitByte, byte_leb, byte_ltb. intros H.
  apply andb_prop in H as [H1 H2]. apply Z.leb_le in H1, H2.
  apply orb_false_iff. split; apply Z.ltb_ge; assumption.
Qed.

Lemma isDigitByte_not_sign (c : byte) :
  isDigitByte c = true ->
  (Byte.eqb c "-"%byte || Byte.eqb c "+"%byte) = false.
Proof.
  intros H. apply orb_false_iff. split.
  - destruct (Byte.eqb c "-"%byte) eqn:E; [|reflexivity].
    apply Byte.byte_dec_bl in E. subst c. discriminate H.
  - destruct (Byte.eqb c "+"%byte) eqn:E; [|reflexivity].
    apply Byte.byte_dec_bl in E. subst c. discriminate H.
Qed.

Lemma isDigitByte_value (c : byte) : isDigitByte c = true -> 48 <= bv c <= 57.
Proof.
  unfold isDigitByte, byte_leb. intros H.
  apply andb_prop in H as [H1 H2]. apply Z.leb_le in H1, H2.
  change (bv "0"%byte) with 48 in H1. change (bv "9"%byte) with 57 in H2. lia.
Qed.

Lemma parseUint_digits_snoc (s : bytes) (c : byte) :
  forall x : Z,
    parseUint_digits (s ++ [c]) x
    = match parseUint_digits s x with
      | Some y => if byte_ltb c "0"%byte || byte_ltb "9"%byte c then None
                  else Some (y * 10 + bv c - bv "0"%byte)
      | None => None
      end.
Proof.
  induction s as [|d s IH]; intros x; cbn [app parseUint_digits].
  - destruct (byte_ltb c "0"%byte || byte_ltb "9"%byte c); reflexivity.
  - destruct (byte_ltb d "0"%byte || byte_ltb "9"%byte d); [reflexivity|].
    apply IH.
Qed.

Lemma digitsN_S (k : nat) (u : Z) :
  digitsN (S k) u = digitsN k (u / 10) ++ [digit_byte (u mod 10)].
Proof. reflexivity. Qed.

Lemma pow10_S (k : nat) : 10 ^ Z.of_nat (S k) = 10 * 10 ^ Z.of_nat k.
Proof.
  replace (Z.of_nat (S k)) with (Z.succ (Z.of_nat k)) by lia.
  apply Z.pow_succ_r. lia.
Qed.

Lemma pow10_pos (k : nat) : 0 < 10 ^ Z.of_nat k.
Proof. apply Z.pow_pos_nonneg; lia. Qed.

Lemma parseUint_digits_digitsN (k : nat) :
  forall u : Z, 0 <= u < 10 ^ Z.of_nat k ->
  parseUint_digits (digitsN k u) 0 = Some u.
Proof.
  induction k as [|k IH]; intros u Hu.
  - change (10 ^ Z.of_nat 0) with 1 in Hu. assert (u = 0) by lia. subst u.
    reflexivity.
  - rewrite digitsN_S, parseUint_digits_snoc.
    rewrite pow10_S in Hu.
    rewrite IH by (Z.div_mod_to_equations; lia).
    rewrite isDigitByte_range
      by (apply digit_byte_isDigit, mod10_range).
    rewrite digit_byte_value by apply mod10_range.
    change (bv "0"%byte) with 48. f_equal.
    Z.div_mod_to_equations. lia.
Qed.

Lemma parseUint_digitsN (k : nat) (u min max : Z) (ok : bool) :
  0 <= u < 10 ^ Z.of_nat k -> min <= u <= max ->
  parseUint (digitsN k u) min max ok = (u, ok).
Proof.
  intros Hu Hm. unfold parseUint.
  rewrite parseUint_digits_digitsN by exact Hu.
  destruct (u <? min) eqn:E1; [apply Z.ltb_lt in E1; lia|].
  destruct (max <? u) eqn:E2; [apply Z.ltb_lt in E2; lia|].
  reflexivity.
Qed.

Lemma digitsN_isDigit (k : nat) (u : Z) :
  Forall (fun c => isDigitByte c = true) (digitsN k u).
Proof. unfold digitsN. apply Forall_rev, digits_le_isDigit. Qed.

(** On digits alone, and as long as the number stays small, [leadingInt]
    reads what [parseUint] reads and leaves nothing. *)
Lemma leadingInt_from_digits (s : bytes) :
  Forall (fun c => isDigitByte c = true) s ->
  forall (x : Z) (a : nat),
    0 <= x < 10 ^ Z.of_nat a -> (a + length s <= 17)%nat ->
    exists v : Z,
      parseUint_digits s x = Some v
      /\ leadingInt_from s x = Some (v, [])
      /\ 0 <= v < 10 ^ Z.of_nat (a + length s).
Proof.
  induction 1 as [|c s Hc Hs IH]; intros x a Hx Hlen.
  - exists x. cbn [length] in *. rewrite Nat.add_0_r. repeat split; lia.
  - cbn [parseUint_digits leadingInt_from length] in *.
    rewrite (isDigitByte_range c Hc).
    pose proof (isDigitByte_value c Hc) as Hv.
    change (bv "0"%byte) with 48.
    assert (Hp : 10 ^ Z.of_nat a <= 10 ^ 17)
      by (apply Z.pow_le_mono_r; lia).
    destruct (2 ^ 63 / 10 <? x) eqn:E1;
      [apply Z.ltb_lt in E1; change (2 ^ 63 / 10) with 922337203685477580 in E1; lia|].
    assert (Hx' : 0 <= x * 10 + bv c - 48 < 10 ^ Z.of_nat (S a))
      by (rewrite pow10_S; lia).
    assert (Hp' : 10 ^ Z.of_nat (S a) <= 10 ^ 17)
      by (apply Z.pow_le_mono_r; lia).
    rewrite u64_small by lia.
    destruct (2 ^ 63 <? x * 10 + bv c - 48) eqn:E2;
      [apply Z.ltb_lt in E2; lia|].
    destruct (IH (x * 10 + bv c - 48) (S a) Hx' ltac:(lia)) as (v & H1 & H2 & H3).
    exists v. repeat split; try assumption; try lia.
    replace (a + S (length s))%nat with (S a + length s)%nat by lia. lia.
Qed.

Lemma leadingInt_digitsN (k : nat) (u : Z) :
  (k <= 17)%nat -> 0 <= u < 10 ^ Z.of_nat k ->
  leadingInt (digitsN k u) = Some (u, []).
Proof.
  intros Hk Hu. unfold leadingInt.
  destruct (leadingInt_from_digits (digitsN k u) (digitsN_isDigit k u) 0 0)
    as (v & H1 & H2 & _).
  - change (10 ^ Z.of_nat 0) with 1. lia.
  - rewrite length_digitsN. lia.
  - rewrite parseUint_digits_digitsN in H1 by exact Hu.
    injection H1 as <-. exact H2.
Qed.

Lemma atoi_digitsN (k : nat) (u : Z) :
  (1 <= k <= 17)%nat -> 0 <= u < 10 ^ Z.of_nat k ->
  atoi (digitsN k u) = Some u.
Proof.
  intros Hk Hu. unfold atoi.
  pose proof (leadingInt_digitsN k u ltac:(lia) Hu) as Hl.
  pose proof (digitsN_isDigit k u) as Hd.
  pose proof (length_digitsN k u) as Hlen.
  destruct (digitsN k u) as [|c s]; [cbn in Hlen; lia|].
  rewrite (isDigitByte_not_sign c) by (now inversion Hd).
  rewrite Hl.
  assert (Hp : 10 ^ Z.of_nat k <= 10 ^ 17) by (apply Z.pow_le_mono_r; lia).
  rewrite i64_small by lia. reflexivity.
Qed.

(** ** Reading the RFC 3339 text back *)

Lemma fracText_zero : fracText 0 = [].
Proof. reflexivity. Qed.

(** The fraction of a positive number of nanoseconds: a period and [k]
    digits, the number being those digits scaled to nine. *)
Lemma fracText_shape (nsec : Z) :
  0 < nsec < 1000000000 ->
  exists (k : nat) (m : Z),
    (1 <= k <= 9)%nat /\ 0 <= m < 10 ^ Z.of_nat k
    /\ fracText nsec = "."%byte :: digitsN k m
    /\ nsec = m * 10 ^ Z.of_nat (9 - k).
Proof.
  intros Hn. unfold fracText.
  destruct (nsec =? 0) eqn:E; [apply Z.eqb_eq in E; lia|].
  destruct (dropZeros_digits 9 nsec [] Hn) as (j & Hj & Hdrop & Hmul & Hlow).
  rewrite !app_nil_r in Hdrop.
  exists (9 - j)%nat, (nsec / 10 ^ Z.of_nat j).
  pose proof (pow10_pos j) as Hpj. pose proof (pow10_pos (9 - j)) as Hpk.
  assert (Hsplit : 10 ^ Z.of_nat j * 10 ^ Z.of_nat (9 - j) = 1000000000).
  { rewrite <- Z.pow_add_r by lia.
    replace (Z.of_nat j + Z.of_nat (9 - j)) with 9 by lia. reflexivity. }
  split; [lia|]. split; [|split].
  - split; [apply Z.div_pos; lia|]. nia.
  - rewrite Hdrop. reflexivity.
  - replace (9 - (9 - j))%nat with j by lia. lia.
Qed.

Lemma firstn_exact {A : Type} (l r : list A) : firstn (length l) (l ++ r) = l.
Proof.
  rewrite firstn_app, Nat.sub_diag, firstn_all. cbn [firstn]. apply app_nil_r.
Qed.

Lemma skipn_exact {A : Type} (l r : list A) : skipn (length l) (l ++ r) = r.
Proof.
  rewrite skipn_app, Nat.sub_diag, skipn_all. reflexivity.
Qed.

Lemma parseNanoseconds_frac (k : nat) (m : Z) (rest : bytes) :
  (1 <= k <= 9)%nat -> 0 <= m < 10 ^ Z.of_nat k ->
  parseNanoseconds ("."%byte :: digitsN k m ++ rest) (S k)
  = (m * 10 ^ Z.of_nat (9 - k), true).
Proof.
  intros Hk Hm. unfold parseNanoseconds.
  change (at_ ("."%byte :: digitsN k m ++ rest) 0) with "."%byte.
  change (commaOrPeriod "."%byte) with true. cbn [negb].
  destruct (10 <? S k)%nat eqn:E; [apply Nat.ltb_lt in E; lia|].
  unfold slice. cbn [skipn].
  replace (S k - 1)%nat with (length (digitsN k m))
    by (rewrite length_digitsN; lia).
  rewrite firstn_exact.
  rewrite atoi_digitsN by (try lia; exact Hm).
  destruct (m <? 0) eqn:E0; [apply Z.ltb_lt in E0; lia|].
  replace (10 - S k)%nat with (9 - k)%nat by lia.
  f_equal. apply i64_small.
  assert (Hsplit : 10 ^ Z.of_nat k * 10 ^ Z.of_nat (9 - k) = 1000000000).
  { rewrite <- Z.pow_add_r by lia.
    replace (Z.of_nat k + Z.of_nat (9 - k)) with 9 by lia. reflexivity. }
  pose proof (pow10_pos (9 - k)). nia.
Qed.

Lemma isDigit_app (pre rest : bytes) (c : byte) :
  isDigit (pre ++ c :: rest) (length pre) = isDigitByte c.
Proof.
  unfold isDigit, at_. rewrite length_app. cbn [length].
  destruct (length pre + S (length rest) <=? length pre)%nat eqn:E;
    [apply Nat.leb_le in E; lia|].
  rewrite app_nth2 by lia. rewrite Nat.sub_diag. reflexivity.
Qed.

(** The run of digits that [parseRFC3339] walks over ends where the digits
    end. *)
Lemma digitsEnd_run (D : bytes) :
  Forall (fun c => isDigitByte c = true) D ->
  forall (pre rest : bytes) (c : byte) (fuel : nat),
    isDigitByte c = false -> (length D < fuel)%nat ->
    digitsEnd fuel (pre ++ D ++ c :: rest) (length pre)
    = (length pre + length D)%nat.
Proof.
  induction 1 as [|d D Hd HD IH]; intros pre rest c fuel Hc Hfuel.
  - destruct fuel as [|fuel]; [cbn in Hfuel; lia|].
    cbn [digitsEnd app length]. rewrite isDigit_app, Hc.
    rewrite andb_false_r. lia.
  - destruct fuel as [|fuel]; [cbn in Hfuel; lia|].
    cbn [digitsEnd app length] in *. rewrite isDigit_app, Hd.
    rewrite length_app. cbn [length].
    destruct (length pre <? length pre + S (length (D ++ c :: rest)))%nat eqn:E;
      [|apply Nat.ltb_ge in E; lia].
    cbn [andb].
    replace (pre ++ d :: D ++ c :: rest) with ((pre ++ [d]) ++ D ++ c :: rest)
      by (rewrite <- app_assoc; reflexivity).
    replace (S (length pre)) with (length (pre ++ [d]))
      by (rewrite length_app; cbn; lia).
    rewrite IH by (try assumption; lia).
    rewrite length_app. cbn. lia.
Qed.

(** The zone text of an offset of whole minutes, less than a day. *)
Lemma zoneText_nonzero (offset : Z) :
  offset <> 0 ->
  zoneText offset
  = (if go_div offset 60 <? 0 then "-"%byte else "+"%byte)
      :: digitsN 2 (Z.abs (go_div offset 60) / 60)
      ++ ":"%byte :: digitsN 2 (Z.abs (go_div offset 60) mod 60).
Proof.
  intros H. unfold zoneText.
  destruct (offset =? 0) eqn:E; [apply Z.eqb_eq in E; contradiction|].
  reflexivity.
Qed.

Lemma zoneText_head (offset : Z) :
  exists (c : byte) (rest : bytes),
    zoneText offset = c :: rest /\ isDigitByte c = false
    /\ Byte.eqb c "."%byte = false.
Proof.
  unfold zoneText. destruct (offset =? 0).
  - exists "Z"%byte, []. repeat split.
  - cbv zeta. destruct (go_div offset 60 <? 0); eexists; eexists; repeat split.
Qed.

Lemma zone_slices (sign : byte) (A B : bytes) :
  length A = 2%nat -> length B = 2%nat ->
  let s := sign :: A ++ ":"%byte :: B in
  length s = 6%nat /\ slice s 1 3 = A /\ slice s 4 6 = B
  /\ at_ s 0 = sign /\ at_ s 3 = ":"%byte.
Proof.
  intros HA HB.
  destruct A as [|a1 [|a2 [|a3 A]]]; try discriminate HA.
  destruct B as [|b1 [|b2 [|b3 B]]]; try discriminate HB.
  repeat split.
Qed.

Lemma dateTime_slices (Y M D h mi se rest : bytes) :
  length Y = 4%nat -> length M = 2%nat -> length D = 2%nat ->
  length h = 2%nat -> length mi = 2%nat -> length se = 2%nat ->
  let s := (Y ++ "-"%byte :: M ++ "-"%byte :: D ++ "T"%byte :: h ++ ":"%byte
              :: mi ++ ":"%byte :: se) ++ rest in
  length s = (19 + length rest)%nat
  /\ slice s 0 4 = Y /\ slice s 5 7 = M /\ slice s 8 10 = D
  /\ slice s 11 13 = h /\ slice s 14 16 = mi /\ slice s 17 19 = se
  /\ at_ s 4 = "-"%byte /\ at_ s 7 = "-"%byte /\ at_ s 10 = "T"%byte
  /\ at_ s 13 = ":"%byte /\ at_ s 16 = ":"%byte
  /\ skipn 19 s = rest.
Proof.
  intros HY HM HD Hh Hmi Hse.
  destruct Y as [|y1 [|y2 [|y3 [|y4 [|y5 Y]]]]]; try discriminate HY.
  destruct M as [|m1 [|m2 [|m3 M]]]; try discriminate HM.
  destruct D as [|d1 [|d2 [|d3 D]]]; try discriminate HD.
  destruct h as [|h1 [|h2 [|h3 h]]]; try discriminate Hh.
  destruct mi as [|i1 [|i2 [|i3 mi]]]; try discriminate Hmi.
  destruct se as [|s1 [|s2 [|s3 se]]]; try discriminate Hse.
  repeat split.
Qed.

Lemma rfc3339Text_slices (year month day hour min sec nsec offset : Z) :
  let s := rfc3339Text year month day hour min sec nsec offset in
  length s = (19 + length (fracText nsec ++ zoneText offset))%nat
  /\ slice s 0 4 = digitsN 4 year /\ slice s 5 7 = digitsN 2 month
  /\ slice s 8 10 = digitsN 2 day /\ slice s 11 13 = digitsN 2 hour
  /\ slice s 14 16 = digitsN 2 min /\ slice s 17 19 = digitsN 2 sec
  /\ at_ s 4 = "-"%byte /\ at_ s 7 = "-"%byte /\ at_ s 10 = "T"%byte
  /\ at_ s 13 = ":"%byte /\ at_ s 16 = ":"%byte
  /\ skipn 19 s = fracText nsec ++ zoneText offset.
Proof.
  unfold rfc3339Text, dateTimeText.
  apply dateTime_slices; apply length_digitsN.
Qed.

(** The fraction block of [parseRFC3339] on the text of a fraction and a
    zone: the nanoseconds, and the zone left to read. *)
Lemma parse_fraction (nsec offset : Z) :
  0 <= nsec < 1000000000 ->
  (if (2 <=? length (fracText nsec ++ zoneText offset))%nat
      && Byte.eqb (at_ (fracText nsec ++ zoneText offset) 0) "."%byte
      && isDigit (fracText nsec ++ zoneText offset) 1
   then
     (fst (parseNanoseconds (fracText nsec ++ zoneText offset)
             (digitsEnd (length (fracText nsec ++ zoneText offset))
                        (fracText nsec ++ zoneText offset) 2)),
      skipn (digitsEnd (length (fracText nsec ++ zoneText offset))
                       (fracText nsec ++ zoneText offset) 2)
            (fracText nsec ++ zoneText offset))
   else (0, fracText nsec ++ zoneText offset))
  = (nsec, zoneText offset).
Proof.
  intros Hn.
  destruct (zoneText_head offset) as (c & rest & Hz & Hc & Hdot).
  rewrite Hz. clear Hz.
  destruct (Z.eq_dec nsec 0) as [->|Hnz].
  - rewrite fracText_zero. cbn [app].
    change (at_ (c :: rest) 0) with c. rewrite Hdot.
    rewrite andb_false_r. reflexivity.
  - destruct (fracText_shape nsec ltac:(lia)) as (k & m & Hk & Hm & Hf & Hval).
    rewrite Hf. clear Hf. cbn [app].
    set (s := "."%byte :: digitsN k m ++ c :: rest).
    assert (Hlen : length s = (S k + S (length rest))%nat).
    { subst s. cbn [length]. rewrite length_app, length_digitsN. cbn [length]. lia. }
    assert (Hend : digitsEnd (length s) s 2 = S k /\ isDigit s 1 = true).
    { pose proof (digitsN_isDigit k m) as HF.
      pose proof (length_digitsN k m) as HL.
      subst s. destruct (digitsN k m) as [|d D]; [cbn in HL; lia|].
      inversion HF as [|? ? Hd HD]; subst. split.
      - change ("."%byte :: (d :: D) ++ c :: rest)
          with (["."%byte; d] ++ D ++ c :: rest).
        change 2%nat with (length ["."%byte; d]).
        rewrite (digitsEnd_run D HD ["."%byte; d] rest c) by
          (try assumption; rewrite !length_app; cbn [length]; lia).
        cbn [length] in *. lia.
      - change ("."%byte :: (d :: D) ++ c :: rest)
          with (["."%byte] ++ d :: (D ++ c :: rest)).
        change 1%nat with (length ["."%byte]).
        rewrite isDigit_app. exact Hd. }
    destruct Hend as [Hend Hdig]. rewrite Hend, Hdig.
    destruct (2 <=? length s)%nat eqn:E; [|apply Nat.leb_gt in E; lia].
    change (at_ s 0) with "."%byte. rewrite byte_eqb_refl. cbn [andb].
    subst s. rewrite parseNanoseconds_frac by assumption. cbn [fst].
    f_equal; [lia|].
    cbn [skipn].
    replace k with (length (digitsN k m)) at 1 by apply length_digitsN.
    apply skipn_exact.
Qed.

Lemma zone_offset_value (offset : Z) :
  - 86400 < offset < 86400 -> go_rem offset 60 = 0 ->
  0 <= Z.abs (go_div offset 60) / 60 < 24
  /\ 0 <= Z.abs (go_div offset 60) mod 60 < 60
  /\ (if go_div offset 60 <? 0
      then (Z.abs (go_div offset 60) / 60 * 60 + Z.abs (go_div offset 60) mod 60)
           * 60 * -1
      else (Z.abs (go_div offset 60) / 60 * 60 + Z.abs (go_div offset 60) mod 60)
           * 60) = offset.
Proof.
  unfold go_div, go_rem. intros Hoff Hrem.
  pose proof (Z.quot_rem' offset 60) as Hq. rewrite Hrem in Hq.
  destruct (offset ÷ 60 <? 0) eqn:E;
    [apply Z.ltb_lt in E|apply Z.ltb_ge in E];
    repeat split; Z.div_mod_to_equations; lia.
Qed.

Lemma parseRFC3339_text (year month day hour min sec nsec offset : Z)
  (local : Location) :
  0 <= year <= 9999 -> 1 <= month <= 12 -> 1 <= day <= daysIn month year ->
  0 <= hour < 24 -> 0 <= min < 60 -> 0 <= sec < 60 ->
  0 <= nsec < 1000000000 ->
  - 86400 < offset < 86400 -> go_rem offset 60 = 0 ->
  parseRFC3339 (rfc3339Text year month day hour min sec nsec offset) local
  = Some (zoned (Date year month day hour min sec nsec UTC) offset local).
Proof.
  intros Hy Hmo Hd Hh Hmi Hs Hn Hoff Hrem.
  pose proof (daysIn_le_31 month year Hmo) as H31.
  destruct (rfc3339Text_slices year month day hour min sec nsec offset)
    as (Hlen & S1 & S2 & S3 & S4 & S5 & S6 & A1 & A2 & A3 & A4 & A5 & Hskip).
  unfold parseRFC3339.
  set (T := rfc3339Text year month day hour min sec nsec offset) in *.
  destruct (length T <? 19)%nat eqn:E; [apply Nat.ltb_lt in E; lia|].
  cbv zeta.
  rewrite S1, (parseUint_digitsN 4 year 0 9999 true) by (try assumption; change (10 ^ Z.of_nat 4) with 10000; lia).
  cbv beta iota.
  rewrite S2, (parseUint_digitsN 2 month 1 12 true) by (try assumption; change (10 ^ Z.of_nat 2) with 100; lia).
  cbv beta iota.
  rewrite S3, (parseUint_digitsN 2 day 1 (daysIn month year) true) by (try assumption; change (10 ^ Z.of_nat 2) with 100; lia).
  cbv beta iota.
  rewrite S4, (parseUint_digitsN 2 hour 0 23 true) by (change (10 ^ Z.of_nat 2) with 100; lia).
  cbv beta iota.
  rewrite S5, (parseUint_digitsN 2 min 0 59 true) by (change (10 ^ Z.of_nat 2) with 100; lia).
  cbv beta iota.
  rewrite S6, (parseUint_digitsN 2 sec 0 59 true) by (change (10 ^ Z.of_nat 2) with 100; lia).
  cbv beta iota.
  rewrite A1, A2, A3, A4, A5, !byte_eqb_refl. cbn [negb andb orb].
  rewrite Hskip. rewrite (parse_fraction nsec offset Hn). cbv beta iota.
  unfold zoned.
  destruct (offset =? 0) eqn:E0.
  - apply Z.eqb_eq in E0. subst offset. reflexivity.
  - apply Z.eqb_neq in E0. rewrite (zoneText_nonzero offset E0).
    destruct (zone_offset_value offset Hoff Hrem) as (HH & HM & Hval).
    set (sign := if go_div offset 60 <? 0 then "-"%byte else "+"%byte) in *.
    set (A := digitsN 2 (Z.abs (go_div offset 60) / 60)).
    set (B := digitsN 2 (Z.abs (go_div offset 60) mod 60)).
    destruct (zone_slices sign A B (length_digitsN _ _) (length_digitsN _ _))
      as (L & Z1 & Z2 & Z3 & Z4).
    rewrite L, Z1, Z2, Z3, Z4. clear L Z1 Z2 Z3 Z4. subst A B.
    change (6 =? 1)%nat with false. change (6 =? 6)%nat with true.
    cbn [andb negb].
    rewrite (parseUint_digitsN 2 _ 0 23 true)
      by (change (10 ^ Z.of_nat 2) with 100; lia).
    cbv beta iota.
    rewrite (parseUint_digitsN 2 _ 0 59 true)
      by (change (10 ^ Z.of_nat 2) with 100; lia).
    cbv beta iota. rewrite byte_eqb_refl.
    assert (Hsign : Byte.eqb sign "-"%byte = (go_div offset 60 <? 0)
                    /\ (Byte.eqb sign "-"%byte || Byte.eqb sign "+"%byte) = true).
    { subst sign. destruct (go_div offset 60 <? 0); split; reflexivity. }
    destruct Hsign as [Hs1 Hs2]. rewrite Hs2, Hs1. cbn [andb negb orb].
    rewrite Hval. cbv zeta.
    destruct (zi_offset _ =? offset); reflexivity.
Qed.

(** ** From the date back to the instant *)

Lemma norm_id (hi lo base : Z) : 0 <= lo < base -> norm hi lo base = (hi, lo).
Proof.
  intros H. unfold norm.
  destruct (lo <? 0) eqn:E1; [apply Z.ltb_lt in E1; lia|].
  destruct (base <=? lo) eqn:E2; [apply Z.leb_le in E2; lia|].
  reflexivity.
Qed.

Lemma land_hasMonotonic_small (a : Z) :
  0 <= a < 2 ^ 63 -> Z.land a hasMonotonic = 0.
Proof.
  intros Ha. apply Z.bits_inj'. intros n Hn.
  rewrite Z.land_spec, Z.bits_0.
  change hasMonotonic with (2 ^ 63).
  destruct (Z.eq_dec n 63) as [->|Hne].
  - destruct (Z.eq_dec a 0) as [->|Hnz]; [now rewrite Z.bits_0|].
    rewrite (Z.bits_above_log2 a 63); [reflexivity|lia|].
    apply Z.log2_lt_pow2; lia.
  - rewrite Z.pow2_bits_false by lia. apply andb_false_r.
Qed.

(** [time.Date] in UTC on the date and the clock of an absolute time gives
    the instant of that absolute time. *)
Lemma Date_absDate (abs nsec year month day yday hour min sec : Z) :
  0 <= abs < 2 ^ 64 -> 0 <= nsec < 1000000000 ->
  absDate abs true = (year, month, day, yday) ->
  absClock abs = (hour, min, sec) ->
  Date year month day hour min sec nsec UTC
  = mkTime nsec (i64 (abs + absoluteToInternal)) None.
Proof.
  intros Habs Hn Hdate Hclock.
  destruct (absDate_spec abs Habs) as (y & m & d & yd & Hd & Hy & Hm & Hday & Hdays).
  rewrite Hdate in Hd. injection Hd as -> -> -> ->.
  pose proof (absClock_spec abs) as Hc. rewrite Hclock in Hc.
  destruct Hc as (Hh & Hmi & Hs & Hsum).
  pose proof (daysIn_le_31 m (y + absoluteZeroYear) Hm) as H31.
  pose proof (daysBefore_month m Hm) as [Hdb _].
  unfold Date.
  rewrite (norm_id (y + absoluteZeroYear) (m - 1) 12) by lia.
  rewrite (norm_id sec nsec 1000000000) by lia.
  rewrite (norm_id min sec 60) by lia.
  rewrite (norm_id hour min 60) by lia.
  rewrite (norm_id d hour 24) by lia.
  cbv zeta.
  replace (m - 1 + 1) with m by lia.
  rewrite daysSinceEpoch_daysBeforeYear by lia.
  assert (Hdd : 0 <= abs / secondsPerDay < 2 ^ 48).
  { unfold secondsPerDay, secondsPerHour, secondsPerMinute.
    Z.div_mod_to_equations. lia. }
  set (leapAdj := isLeap (y + absoluteZeroYear) && (3 <=? m)) in *.
  assert (Hdby : 0 <= daysBeforeYear y <= abs / secondsPerDay)
    by (rewrite daysBeforeYear_linear in *; destruct leapAdj;
        Z.div_mod_to_equations; lia).
  rewrite (u64_small (daysBefore (m - 1))) by lia.
  rewrite (u64_small (daysBeforeYear y + daysBefore (m - 1))) by lia.
  assert (Hstep : (if leapAdj
                   then u64 (daysBeforeYear y + daysBefore (m - 1) + 1)
                   else daysBeforeYear y + daysBefore (m - 1))
                  = daysBeforeYear y + daysBefore (m - 1)
                    + (if leapAdj then 1 else 0)).
  { destruct leapAdj; [apply u64_small|]; lia. }
  rewrite Hstep. clear Hstep.
  rewrite (u64_small (d - 1)) by lia.
  replace (daysBeforeYear y + daysBefore (m - 1) + (if leapAdj then 1 else 0)
           + (d - 1)) with (abs / secondsPerDay) by lia.
  rewrite (u64_small (abs / secondsPerDay)) by lia.
  assert (Hmod : 0 <= abs mod secondsPerDay < secondsPerDay)
    by (apply Z.mod_pos_bound; reflexivity).
  assert (Hsplit : abs / secondsPerDay * secondsPerDay + abs mod secondsPerDay = abs)
    by (pose proof (Z.div_mod abs secondsPerDay ltac:(discriminate)); lia).
  change secondsPerDay with 86400 in *.
  rewrite (u64_small (abs / 86400 * 86400)) by lia.
  rewrite Hsum.
  rewrite (u64_small (abs mod 86400)) by lia.
  rewrite Hsplit. rewrite (u64_small abs) by lia.
  cbn [lookup zi_offset]. change (negb (0 =? 0)) with false. cbv iota.
  unfold unixTime, Time_setLoc, Time_stripMono. cbn [wall ext loc].
  rewrite (u64_small nsec) by lia.
  rewrite land_hasMonotonic_small by lia.
  change (negb (0 =? 0)) with false. cbv iota. cbn [wall ext loc].
  f_equal.
  unfold internalToUnix. generalize unixToInternal absoluteToInternal.
  intros a b. unfold i64. Z.div_mod_to_equations. lia.
Qed.

(** ** NullTime: the round trips *)

Lemma Time_sec_range (t : Time) :
  Time_valid t -> - 2 ^ 63 <= Time_sec t < 2 ^ 63.
Proof.
  intros (_ & Hext & _). unfold Time_sec.
  destruct (negb (Z.land (wall t) hasMonotonic =? 0)).
  - apply i64_range.
  - exact Hext.
Qed.

(** Within the years 0 to 9999 the absolute time of [t] is its seconds
    plus its zone offset, without wrap-around. *)
Lemma Time_abs_internal (t : Time) :
  Time_valid t ->
  - 86400 < Time_Zone_offset t < 86400 ->
  internalMin <= Time_abs t + absoluteToInternal < internalMax ->
  Time_abs t + absoluteToInternal = Time_sec t + Time_Zone_offset t.
Proof.
  intros Hv Hoff. pose proof (Time_sec_range t Hv) as Hsec.
  rewrite Time_abs_eq.
  unfold internalMin, internalMax, internalToAbsolute, absoluteToInternal, u64.
  generalize dependent (Time_sec t). generalize dependent (Time_Zone_offset t).
  intros off Hoff sec Hsec Hr.
  Z.div_mod_to_equations. lia.
Qed.

Lemma Time_text_eq (t : Time) (year month day yday hour min sec : Z) :
  absDate (Time_abs t) true = (year, month, day, yday) ->
  absClock (Time_abs t) = (hour, min, sec) ->
  Time_text t
  = rfc3339Text year month day hour min sec (Time_nsec t) (Time_Zone_offset t).
Proof.
  intros Hdate Hclock. unfold Time_text. rewrite Hdate, Hclock. reflexivity.
Qed.

(** The time [parseRFC3339] builds from seconds on the clock of a zone and
    the offset of the zone: the instant, its nanoseconds and the offset. *)
Lemma zoned_instant (nsec sec offset : Z) (local : Location) :
  0 <= nsec < 1000000000 -> - 2 ^ 62 <= sec < 2 ^ 62 ->
  - 86400 < offset < 86400 ->
  let t' := zoned (mkTime nsec (sec + offset) None) offset local in
  wall t' = nsec /\ ext t' = sec /\ Time_Zone_offset t' = offset.
Proof.
  intros Hn Hsec Hoff. unfold zoned.
  assert (Hmono : Z.land nsec hasMonotonic = 0)
    by (apply land_hasMonotonic_small; lia).
  destruct (offset =? 0) eqn:E0.
  - apply Z.eqb_eq in E0. subst offset. cbn [wall ext].
    rewrite Z.add_0_r. repeat split.
  - apply Z.eqb_neq in E0. cbv zeta.
    assert (Hadd : Time_addSec (mkTime nsec (sec + offset) None) (- offset)
                   = mkTime nsec sec None).
    { unfold Time_addSec. cbn [wall ext loc]. rewrite Hmono.
      change (negb (0 =? 0)) with false. cbv iota.
      replace (sec + offset + - offset) with sec by lia.
      rewrite i64_small by lia.
      destruct (sec + offset <? sec) eqn:E1;
        [apply Z.ltb_lt in E1|apply Z.ltb_ge in E1];
        (destruct (0 <? - offset) eqn:E2;
           [apply Z.ltb_lt in E2|apply Z.ltb_ge in E2]);
        try lia; reflexivity. }
    rewrite Hadd.
    assert (Hset : forall l, Time_setLoc (mkTime nsec sec None) (LocPtr l)
                             = mkTime nsec sec (Some l)).
    { intros l. unfold Time_setLoc, Time_stripMono. cbn [wall ext loc].
      rewrite Hmono. reflexivity. }
    rewrite !Hset.
    assert (Hunix : forall l, Time_unixSec (mkTime nsec sec l)
                              = Time_unixSec (mkTime nsec sec None)).
    { intros l. unfold Time_unixSec, Time_sec. cbn [wall ext]. reflexivity. }
    destruct (zi_offset (loc_lookup local (Time_unixSec (mkTime nsec sec None)))
              =? offset) eqn:E.
    + apply Z.eqb_eq in E. cbn [wall ext]. repeat split.
      unfold Time_Zone_offset, Time_locabs. cbn [loc fst].
      rewrite Hunix. exact E.
    + cbn [wall ext]. repeat split.
Qed.

Lemma land_land_small (a w : Z) :
  0 <= a < 2 ^ 63 -> Z.land (Z.land a w) hasMonotonic = 0.
Proof.
  intros Ha. rewrite <- Z.land_assoc, (Z.land_comm w), Z.land_assoc.
  rewrite land_hasMonotonic_small by exact Ha. apply Z.land_0_l.
Qed.

Lemma Time_nsec_bound (t : Time) : 0 <= Time_nsec t < 2 ^ 30.
Proof.
  unfold Time_nsec. change nsecMask with (Z.ones 30).
  rewrite Z.land_ones by lia. apply Z.mod_pos_bound. reflexivity.
Qed.

Lemma Time_nsec_small (n e : Z) (l : option Location) :
  0 <= n < 2 ^ 30 -> Time_nsec (mkTime n e l) = n.
Proof.
  intros Hn. unfold Time_nsec. cbn [wall]. change nsecMask with (Z.ones 30).
  rewrite Z.land_ones by lia. apply Z.mod_small. exact Hn.
Qed.

(** A time without monotonic reading that has the seconds and nanoseconds
    of [t] is the instant of [t]. *)
Lemma Time_Equal_instant (t' t : Time) :
  wall t' = Time_nsec t -> ext t' = Time_sec t -> Time_Equal t' t = true.
Proof.
  intros Hw He. pose proof (Time_nsec_bound t) as Hb.
  assert (Hmono : Z.land (wall t') hasMonotonic = 0)
    by (rewrite Hw; apply land_hasMonotonic_small; lia).
  unfold Time_Equal. rewrite Hw, land_land_small by lia.
  change (negb (0 =? 0)) with false. cbv iota.
  assert (Hs : Time_sec t' = Time_sec t).
  { unfold Time_sec at 1. rewrite Hmono. exact He. }
  assert (Hn : Time_nsec t' = Time_nsec t).
  { unfold Time_nsec at 1. rewrite Hw. unfold Time_nsec.
    rewrite <- Z.land_assoc, Z.land_diag. reflexivity. }
  rewrite Hs, Hn, !Z.eqb_refl. reflexivity.
Qed.

Lemma bytes_eqb_quoted_null (s : bytes) : bytes_eqb (quoted s) (lit "null") = false.
Proof. reflexivity. Qed.

(** [UnmarshalJSON] on a quoted text that the direct parser reads. *)
Lemma NullTime_UnmarshalJSON_quoted (Local : Location)
  (Parse_RFC3339 : bytes -> result Time) (ns : NullTime) (text : bytes) (t' : Time) :
  Forall (fun c => plainByte c = true) text ->
  parseRFC3339 text Local = Some t' ->
  NullTime_UnmarshalJSON Local Parse_RFC3339 ns (quoted text) = (None, t').
Proof.
  intros Hplain Hparse.
  unfold NullTime_UnmarshalJSON, json_Unmarshal_Time.
  rewrite (checkValid_quoted text Hplain), valueBytes_quoted.
  unfold Time_UnmarshalJSON. rewrite bytes_eqb_quoted_null.
  assert (Hlen : length (quoted text) = S (S (length text)))
    by (unfold quoted; cbn [length]; rewrite length_app; cbn [length]; lia).
  rewrite Hlen.
  change (S (S (length text)) <? 2)%nat with false.
  change (at_ (quoted text) 0) with quote_byte.
  assert (Hlast : at_ (quoted text) (S (S (length text)) - 1) = quote_byte).
  { rewrite <- Hlen. unfold quoted.
    change (quote_byte :: text ++ [quote_byte])
      with ((quote_byte :: text) ++ [quote_byte]).
    rewrite at_suffix by (cbn [length]; lia). reflexivity. }
  rewrite Hlast, byte_eqb_refl. cbn [negb orb].
  assert (Hslice : slice (quoted text) 1 (S (S (length text)) - 1) = text).
  { unfold slice, quoted. cbn [skipn].
    replace (S (S (length text)) - 1 - 1)%nat with (length text) by lia.
    apply firstn_exact. }
  rewrite Hslice. unfold parseStrictRFC3339. rewrite Hparse. reflexivity.
Qed.

Lemma NullTime_Value_nonzero (t : NullTime) :
  Time_IsZero t = false -> NullTime_Value t = Ok (DTime t).
Proof.
  intros Hz. unfold NullTime_Value, sql_NullTime_Value. cbn [nt_Valid nt_Time].
  rewrite Hz. reflexivity.
Qed.

Lemma NullTime_Scan_time (ns : NullTime) (t : Time) :
  NullTime_Scan ns (DTime t) = (None, t).
Proof. reflexivity. Qed.

Lemma absDate_year_full (abs : Z) :
  fst (fst (fst (absDate abs false))) = fst (fst (fst (absDate abs true))).
Proof. rewrite !absDate_year. reflexivity. Qed.

(** The JSON round trip, for the years and zones that RFC 3339 can
    express. *)
Lemma NullTime_json_roundtrip (Local : Location)
  (Parse_RFC3339 : bytes -> result Time) (t ns : NullTime) :
  Time_IsZero t = false ->
  Time_valid t ->
  0 <= Time_Year t <= 9999 ->
  - 86400 < Time_Zone_offset t < 86400 ->
  go_rem (Time_Zone_offset t) 60 = 0 ->
  exists (b : bytes) (t' : NullTime),
    NullTime_MarshalJSON t = Ok b
    /\ NullTime_UnmarshalJSON Local Parse_RFC3339 ns b = (None, t')
    /\ Time_Equal t' t = true
    /\ Time_Zone_offset t' = Time_Zone_offset t.
Proof.
  intros Hz Hv Hyear Hoff Hrem.
  pose proof (NullTime_MarshalJSON_succeeds t Hv (or_intror (conj Hyear Hoff)))
    as Hm.
  rewrite Hz in Hm.
  assert (Habs : 0 <= Time_abs t < 2 ^ 64)
    by (rewrite Time_abs_eq; apply u64_range).
  rewrite Time_Year_eq in Hyear.
  pose proof (year_range_internal (Time_abs t) Habs) as Hint.
  rewrite absDate_year_full in Hint. specialize (Hint Hyear).
  destruct (absDate_spec (Time_abs t) Habs)
    as (y & month & day & yday & Hdate & Hy & Hmo & Hday & _).
  rewrite Hdate in Hyear. cbn [fst] in Hyear.
  destruct (absClock (Time_abs t)) as [[hour min] sec] eqn:Hclock.
  pose proof (absClock_spec (Time_abs t)) as Hc. rewrite Hclock in Hc.
  destruct Hc as (Hh & Hmi & Hs & _).
  pose proof (Time_nsec_nonneg t) as Hn0.
  destruct Hv as (Hw & He & Hn).
  pose proof (Time_abs_internal t (conj Hw (conj He Hn)) Hoff Hint) as Hsum.
  pose proof (Time_text_eq t _ _ _ _ _ _ _ Hdate Hclock) as Htext.
  pose proof (parseRFC3339_text (y + absoluteZeroYear) month day hour min sec
                (Time_nsec t) (Time_Zone_offset t) Local
                Hyear Hmo Hday Hh Hmi Hs (conj Hn0 Hn) Hoff Hrem) as Hparse.
  rewrite (Date_absDate (Time_abs t) (Time_nsec t) _ _ _ _ _ _ _
             Habs (conj Hn0 Hn) Hdate Hclock) in Hparse.
  unfold internalMin, internalMax in Hint.
  rewrite i64_small in Hparse by lia.
  rewrite Hsum in Hparse. rewrite <- Htext in Hparse.
  destruct (zoned_instant (Time_nsec t) (Time_sec t) (Time_Zone_offset t) Local
              (conj Hn0 Hn) ltac:(lia) Hoff) as (Hw' & He' & Hoff').
  eexists. eexists. split; [exact Hm|]. split; [|split].
  - apply NullTime_UnmarshalJSON_quoted; [apply Time_text_plain|exact Hparse].
  - apply Time_Equal_instant; assumption.
  - exact Hoff'.
Qed.

(** C3, as stated, fails in its JSON half, on valid instants that are not
    the zero instant. The first instant of the year 10000 has no JSON text
    at all. An instant in a zone thirty seconds east of UTC comes back as
    another instant, whatever the local zone. And an instant with a
    monotonic clock reading comes back as the same instant, but not as the
    same value. *)
Lemma NullTime_json_roundtrip_fails :
  (Time_valid year10000 /\ Time_IsZero year10000 = false
   /\ forall b : bytes, NullTime_MarshalJSON year10000 <> Ok b)
  /\ (Time_valid halfMinuteEast /\ Time_IsZero halfMinuteEast = false
      /\ forall (Local : Location) (Parse_RFC3339 : bytes -> result Time)
                (ns : NullTime),
         exists (b : bytes) (t' : NullTime),
           NullTime_MarshalJSON halfMinuteEast = Ok b
           /\ NullTime_UnmarshalJSON Local Parse_RFC3339 ns b = (None, t')
           /\ Time_Equal t' halfMinuteEast = false)
  /\ (Time_valid withMonotonic /\ Time_IsZero withMonotonic = false
      /\ forall (Parse_RFC3339 : bytes -> result Time) (ns : NullTime),
         exists (b : bytes) (t' : NullTime),
           NullTime_MarshalJSON withMonotonic = Ok b
           /\ NullTime_UnmarshalJSON utcLocal Parse_RFC3339 ns b = (None, t')
           /\ Time_Equal t' withMonotonic = true
           /\ t' <> withMonotonic).
Proof.
  split; [|split].
  - split; [unfold Time_valid; vm_compute; intuition discriminate|].
    split; [vm_compute; reflexivity|].
    intros b. rewrite year10000_MarshalJSON. discriminate.
  - split; [unfold Time_valid; vm_compute; intuition discriminate|].
    split; [vm_compute; reflexivity|].
    intros Local Parse_RFC3339 ns.
    exists (quoted (lit "2000-01-01T00:00:00+00:00")).
    exists (if zi_offset (loc_lookup Local 946684800) =? 0
            then mkTime 0 63082281600 (Some Local)
            else mkTime 0 63082281600 (Some (FixedZone [] 0))).
    split; [vm_compute; reflexivity|].
    destruct Local as [name lk]. split.
    + vm_compute.
      destruct (lk 946684800) as [zn [|p|p] zs ze]; reflexivity.
    + destruct (zi_offset (loc_lookup (mkLocation name lk) 946684800) =? 0);
        vm_compute; reflexivity.
  - split; [unfold Time_valid; vm_compute; intuition discriminate|].
    split; [vm_compute; reflexivity|].
    intros Parse_RFC3339 ns.
    exists (quoted (lit "2026-01-06T15:06:40Z")), (mkTime 0 63903308800 None).
    split; [vm_compute; reflexivity|]. split; [vm_compute; reflexivity|].
    split; [vm_compute; reflexivity|].
    unfold withMonotonic. intros H. apply (f_equal ext) in H. discriminate H.
Qed.

(** C3, amended. For every instant [t] that is not the zero instant,
    [Scan] of what [Value] gives for [t] leaves exactly [t] in the
    receiver. When moreover [t] is a valid time whose year is within
    [0, 9999] and whose zone offset is a whole number of minutes, less than
    a day, [UnmarshalJSON] of what [MarshalJSON] gives for [t] succeeds and
    leaves in the receiver the same instant (in the sense of
    [time.Time.Equal]) with the same zone offset. *)
Theorem NullTime_roundtrip (Local : Location)
  (Parse_RFC3339 : bytes -> result Time) (t ns : NullTime) :
  Time_IsZero t = false ->
  (exists v : driver_Value,
      NullTime_Value t = Ok v /\ NullTime_Scan ns v = (None, t))
  /\ (Time_valid t ->
      0 <= Time_Year t <= 9999 ->
      - 86400 < Time_Zone_offset t < 86400 ->
      go_rem (Time_Zone_offset t) 60 = 0 ->
      exists (b : bytes) (t' : NullTime),
        NullTime_MarshalJSON t = Ok b
        /\ NullTime_UnmarshalJSON Local Parse_RFC3339 ns b = (None, t')
        /\ Time_Equal t' t = true
        /\ Time_Zone_offset t' = Time_Zone_offset t).
Proof.
  intros Hz. split.
  - exists (DTime t). split.
    + apply NullTime_Value_nonzero. exact Hz.
    + apply NullTime_Scan_time.
  - intros Hv Hyear Hoff Hrem.
    apply NullTime_json_roundtrip; assumption.
Qed.

Lemma NullTime_roundtrip_witness :
  Time_IsZero mstTime = false
  /\ (exists v : driver_Value,
         NullTime_Value mstTime = Ok v
         /\ NullTime_Scan (mkTime 0 0 None) v = (None, mstTime))
  /\ (exists (b : bytes) (t' : NullTime),
         NullTime_MarshalJSON mstTime = Ok b
         /\ NullTime_UnmarshalJSON MST noParse (mkTime 0 0 None) b = (None, t')
         /\ Time_Equal t' mstTime = true
         /\ Time_Zone_offset t' = Time_Zone_offset mstTime).
Proof.
  split; [reflexivity|].
  destruct (NullTime_roundtrip MST noParse mstTime (mkTime 0 0 None) eq_refl)
    as [Hdb Hjson].
  split; [exact Hdb|].
  apply Hjson.
  - unfold Time_valid. vm_compute. intuition discriminate.
  - vm_compute. intuition discriminate.
  - vm_compute. intuition discriminate.
  - vm_compute. reflexivity.
Defined.

Example mstTime_roundtrip :
  NullTime_MarshalJSON mstTime
  = Ok (quoted (lit "2006-01-02T15:04:05.123456-07:00"))
  /\ NullTime_UnmarshalJSON MST noParse (mkTime 0 0 None)
       (quoted (lit "2006-01-02T15:04:05.123456-07:00"))
     = (None, mstTime)
  /\ NullTime_UnmarshalJSON (FixedZone (lit "Local") 0) noParse (mkTime 0 0 None)
       (quoted (lit "2006-01-02T15:04:05.123456-07:00"))
     = (None, mkTime 123456000 (unixToInternal + 1136239445)
                     (Some (FixedZone [] (-25200)))).
Proof. repeat split; vm_compute; reflexivity. Qed.

(** ** NullTime.MarshalJSON: when it fails *)

Lemma appendInt_app (b : bytes) (x w : Z) : appendInt b x w = b ++ appendInt [] x w.
Proof.
  unfold appendInt. destruct (x <? 0); cbn [app]; rewrite <- ?app_assoc; reflexivity.
Qed.

Lemma decimal_rev_isDigit (fuel : nat) :
  forall u : Z, 0 <= u ->
  Forall (fun c => isDigitByte c = true) (decimal_rev fuel u).
Proof.
  induction fuel as [|fuel IH]; intros u Hu; cbn [decimal_rev]; [constructor|].
  destruct (u <? 10) eqn:E.
  - apply Z.ltb_lt in E. constructor; [|constructor].
    apply digit_byte_isDigit. lia.
  - constructor; [apply digit_byte_isDigit, mod10_range|].
    apply IH. apply Z.div_pos; lia.
Qed.

Lemma decimal_isDigit (u : Z) :
  0 <= u -> Forall (fun c => isDigitByte c = true) (decimal u).
Proof. intros Hu. unfold decimal. apply Forall_rev, decimal_rev_isDigit, Hu. Qed.

Lemma decimal_rev_length (k : nat) :
  forall (fuel : nat) (u : Z),
    (k < fuel)%nat -> 10 ^ Z.of_nat k <= u ->
    (k < length (decimal_rev fuel u))%nat.
Proof.
  induction k as [|k IH]; intros fuel u Hf Hu;
    (destruct fuel as [|fuel]; [lia|]); cbn [decimal_rev].
  - destruct (u <? 10); cbn [length]; lia.
  - rewrite pow10_S in Hu. pose proof (pow10_pos k) as Hp.
    destruct (u <? 10) eqn:E; [apply Z.ltb_lt in E; lia|].
    cbn [length]. apply -> Nat.succ_lt_mono. apply IH; [lia|].
    apply Z.div_le_lower_bound; lia.
Qed.

Lemma Forall_nth_digit (l : bytes) (i : nat) :
  Forall (fun c => isDigitByte c = true) l -> (i < length l)%nat ->
  isDigitByte (nth i l x00) = true.
Proof.
  intros H Hi. rewrite Forall_forall in H. apply H. apply nth_In. exact Hi.
Qed.

Lemma isDigitByte_not_dash (c : byte) :
  isDigitByte c = true -> Byte.eqb c "-"%byte = false.
Proof.
  intros H. pose proof (isDigitByte_not_sign c H) as Hs.
  apply orb_false_iff in Hs. apply Hs.
Qed.

(** The fifth byte of a year that does not fit four digits is a digit. *)
Lemma appendInt_year_wide (year : Z) (rest : bytes) :
  - 2 ^ 63 <= year < 2 ^ 63 -> year < 0 \/ 9999 < year ->
  isDigitByte (nth 4 (appendInt [] year 4 ++ rest) x00) = true.
Proof.
  intros Hr Hy. unfold appendInt.
  destruct (year <? 0) eqn:E; [apply Z.ltb_lt in E|apply Z.ltb_ge in E].
  - rewrite u64_small by lia. cbn [app nth].
    pose proof (decimal_isDigit (- year) ltac:(lia)) as Hd.
    set (ds := decimal (- year)) in *.
    set (pad := repeat "0"%byte (Z.to_nat (4 - Z.of_nat (length ds)))).
    assert (Hpad : Forall (fun c => isDigitByte c = true) pad).
    { subst pad. apply Forall_forall. intros c Hc.
      apply repeat_spec in Hc. subst c. reflexivity. }
    assert (Hlen : (3 < length (pad ++ ds))%nat).
    { subst pad. rewrite length_app, repeat_length. lia. }
    rewrite app_nth1 by exact Hlen.
    apply Forall_nth_digit; [|exact Hlen].
    apply Forall_app. split; assumption.
  - rewrite u64_small by lia. cbn [app].
    pose proof (decimal_isDigit year ltac:(lia)) as Hd.
    assert (Hlen : (4 < length (decimal year))%nat).
    { unfold decimal. rewrite length_rev.
      apply decimal_rev_length; [lia|]. change (10 ^ Z.of_nat 4) with 10000. lia. }
    replace (Z.to_nat (4 - Z.of_nat (length (decimal year)))) with 0%nat by lia.
    cbn [repeat app]. rewrite app_nth1 by exact Hlen.
    apply Forall_nth_digit; assumption.
Qed.

(** After the year [appendFormatRFC3339] only appends. *)
Lemma appendFormatRFC3339_prefix (t : Time) (b : bytes) :
  Time_nsec t < 1000000000 ->
  exists tail : bytes,
    Time_appendFormatRFC3339 t b true
    = b ++ appendInt [] (Time_Year t) 4 ++ "-"%byte :: tail.
Proof.
  intros Hn. pose proof (Time_nsec_nonneg t) as Hn0.
  rewrite Time_Year_eq.
  unfold Time_appendFormatRFC3339. rewrite Time_locabs_eq.
  destruct (absDate (Time_abs t) true) as [[[year month] day] yday].
  destruct (absClock (Time_abs t)) as [[hour min] sec]. cbn [fst].
  unfold Time_Nanosecond. rewrite appendNano_fracText by lia.
  rewrite (appendInt_app b year 4).
  rewrite (appendInt_app _ month 2), (appendInt_app _ day 2),
    (appendInt_app _ hour 2), (appendInt_app _ min 2), (appendInt_app _ sec 2).
  destruct (Time_Zone_offset t =? 0).
  - eexists. rewrite <- !app_assoc. cbn [app]. reflexivity.
  - cbv zeta. destruct (go_div (Time_Zone_offset t) 60 <? 0).
    + rewrite (appendInt_app _ (go_div _ 60) 2), (appendInt_app _ (go_rem _ 60) 2).
      eexists. rewrite <- !app_assoc. cbn [app]. reflexivity.
    + rewrite (appendInt_app _ (go_div _ 60) 2), (appendInt_app _ (go_rem _ 60) 2).
      eexists. rewrite <- !app_assoc. cbn [app]. reflexivity.
Qed.

Lemma Time_Year_range (t : Time) : - 2 ^ 63 <= Time_Year t < 2 ^ 63.
Proof.
  rewrite Time_Year_eq, absDate_year. apply i64_range.
Qed.

Lemma nth_after_first (c : byte) (l : bytes) (i : nat) :
  nth (S i) ([c] ++ l) x00 = nth i l x00.
Proof. reflexivity. Qed.

Lemma appendStrictRFC3339_year_error (t : Time) (b : bytes) :
  Time_appendFormatRFC3339 t [quote_byte] true = b ->
  isDigitByte (nth 5 b x00) = true ->
  Time_appendStrictRFC3339 t [quote_byte]
  = (b, Some (errors_New (lit "year outside of range [0,9999]"))).
Proof.
  intros Hb Hdig. unfold Time_appendStrictRFC3339. rewrite Hb.
  cbn [length]. cbv zeta.
  change (at_ b (1 + 4)) with (nth 5 b x00).
  rewrite (isDigitByte_not_dash _ Hdig). reflexivity.
Qed.

Lemma Time_MarshalJSON_strict_error (t : Time) (b text : bytes) :
  Time_appendStrictRFC3339 t [quote_byte] = (b, Some (errors_New text)) ->
  Time_MarshalJSON t = Err (errors_New (lit "Time.MarshalJSON: " ++ text)).
Proof.
  intros H. unfold Time_MarshalJSON. rewrite H. reflexivity.
Qed.

(** A year outside [0, 9999] is refused. *)
Lemma Time_MarshalJSON_year_error (t : Time) :
  Time_nsec t < 1000000000 ->
  Time_Year t < 0 \/ 9999 < Time_Year t ->
  Time_MarshalJSON t
  = Err (errors_New (lit "Time.MarshalJSON: year outside of range [0,9999]")).
Proof.
  intros Hn Hy.
  destruct (appendFormatRFC3339_prefix t [quote_byte] Hn) as (tail & Hfmt).
  pose proof (appendInt_year_wide (Time_Year t) ("-"%byte :: tail)
                (Time_Year_range t) Hy) as Hdig.
  eapply Time_MarshalJSON_strict_error.
  apply appendStrictRFC3339_year_error; [exact Hfmt|].
  rewrite nth_after_first. exact Hdig.
Qed.

Lemma zone_format_wide (b : bytes) (offset : Z) :
  offset <> 0 ->
  (if offset =? 0 then b ++ ["Z"%byte]
   else
     let zone := go_div offset 60 in
     let '(b, zone) :=
       if zone <? 0 then (b ++ ["-"%byte], - zone) else (b ++ ["+"%byte], zone) in
     let b := appendInt b (go_div zone 60) 2 in
     let b := b ++ [":"%byte] in
     appendInt b (go_rem zone 60) 2)
  = b ++ zoneTextWide offset.
Proof.
  intros Hoff. unfold zoneTextWide.
  destruct (offset =? 0) eqn:E0; [apply Z.eqb_eq in E0; contradiction|].
  cbv zeta. unfold go_div, go_rem.
  destruct (offset ÷ 60 <? 0) eqn:E;
    [apply Z.ltb_lt in E|apply Z.ltb_ge in E].
  - rewrite Z.abs_neq by lia.
    rewrite Z.quot_div_nonneg by lia. rewrite Z.rem_mod_nonneg by lia.
    rewrite (appendInt_app _ (- (offset ÷ 60) / 60) 2).
    rewrite appendInt_2 by (Z.div_mod_to_equations; lia).
    rewrite <- !app_assoc. reflexivity.
  - rewrite Z.abs_eq by lia.
    rewrite Z.quot_div_nonneg by lia. rewrite Z.rem_mod_nonneg by lia.
    rewrite (appendInt_app _ (offset ÷ 60 / 60) 2).
    rewrite appendInt_2 by (Z.div_mod_to_equations; lia).
    rewrite <- !app_assoc. reflexivity.
Qed.

Lemma appendFormatRFC3339_text_wide (t : Time) (b : bytes)
  (year month day yday hour min sec : Z) :
  absDate (Time_abs t) true = (year, month, day, yday) ->
  absClock (Time_abs t) = (hour, min, sec) ->
  0 <= year <= 9999 ->
  Time_nsec t < 1000000000 ->
  Time_Zone_offset t <> 0 ->
  Time_appendFormatRFC3339 t b true
  = (b ++ dateTimeText year month day hour min sec ++ fracText (Time_nsec t))
      ++ zoneTextWide (Time_Zone_offset t).
Proof.
  intros Hdate Hclock Hyear Hnsec Hoff.
  assert (Habs : 0 <= Time_abs t < 2 ^ 64)
    by (rewrite Time_abs_eq; apply u64_range).
  destruct (absDate_spec (Time_abs t) Habs)
    as (y & m & d & yd & Hd & Hy & Hm & Hday & _).
  rewrite Hdate in Hd. injection Hd as -> -> -> ->.
  pose proof (daysIn_le_31 m (y + absoluteZeroYear) Hm) as H31.
  pose proof (absClock_spec (Time_abs t)) as Hc. rewrite Hclock in Hc.
  destruct Hc as (Hh & Hmi & Hs & _).
  pose proof (Time_nsec_nonneg t) as Hn0.
  unfold Time_appendFormatRFC3339.
  rewrite Time_locabs_eq, Hdate, Hclock.
  rewrite appendInt_4 by lia.
  rewrite !appendInt_2 by lia.
  unfold Time_Nanosecond. rewrite appendNano_fracText by lia.
  rewrite zone_format_wide by exact Hoff.
  unfold dateTimeText.
  f_equal. repeat (rewrite <- ?app_assoc; cbn [app]; f_equal).
Qed.

Lemma rev_three (l : bytes) :
  (3 <= length l)%nat ->
  exists (front : bytes) (a b c : byte),
    rev l = front ++ [a; b; c]
    /\ (Forall (fun x => isDigitByte x = true) l -> isDigitByte a = true).
Proof.
  intros H. destruct l as [|c [|b [|a l]]]; cbn [length] in H; try lia.
  exists (rev l), a, b, c. split.
  - cbn [rev]. rewrite <- !app_assoc. reflexivity.
  - intros HF. inversion HF as [|? ? _ HF1]; subst.
    inversion HF1 as [|? ? _ HF2]; subst. now inversion HF2.
Qed.

(** On a zone of a day or more the first check passes and the second
    fails. *)
Lemma strict_zone_error (pre M : bytes) (sign : byte) (H : Z) :
  nth 5 pre x00 = "-"%byte -> (6 <= length pre)%nat ->
  24 <= H < 2 ^ 63 -> length M = 2%nat ->
  Forall (fun c => isDigitByte c = true) M ->
  isDigitByte sign = false ->
  let b := pre ++ sign :: appendInt [] H 2 ++ ":"%byte :: M in
  (if negb (Byte.eqb (at_ b (1 + 4)) "-"%byte)
   then (b, Some (errors_New (lit "year outside of range [0,9999]")))
   else if negb (Byte.eqb (at_ b (length b - 1)) "Z"%byte) then
     let c := at_ b (length b - 6) in
     if (byte_leb "0"%byte c && byte_leb c "9"%byte)
        || (24 <=? num2 (skipn (length b - 5) b))
     then (b, Some (errors_New (lit "timezone hour outside of range [0,23]")))
     else (b, None)
   else (b, None))
  = (b, Some (errors_New (lit "timezone hour outside of range [0,23]"))).
Proof.
  intros Hdash Hpre HH HM HMd Hsign. cbv zeta.
  destruct M as [|m1 [|m2 [|m3 M]]]; try discriminate HM.
  assert (Hm2 : Byte.eqb m2 "Z"%byte = false).
  { inversion HMd as [|? ? _ H1]; subst. inversion H1 as [|? ? Hd _]; subst.
    destruct (Byte.eqb m2 "Z"%byte) eqn:E; [|reflexivity].
    apply Byte.byte_dec_bl in E. subst m2. discriminate Hd. }
  set (Ht := appendInt [] H 2).
  assert (Hy : at_ (pre ++ sign :: Ht ++ [":"%byte; m1; m2]) (1 + 4) = "-"%byte).
  { unfold at_. rewrite app_nth1 by lia. exact Hdash. }
  rewrite Hy, byte_eqb_refl. cbn [negb].
  destruct (Z_lt_le_dec H 100) as [Hsmall|Hbig].
  - assert (HtE : Ht = digitsN 2 H).
    { subst Ht. rewrite (appendInt_2 [] H) by lia. reflexivity. }
    rewrite HtE.
    set (suf := sign :: digitsN 2 H ++ [":"%byte; m1; m2]).
    assert (Hlen : length suf = 6%nat) by reflexivity.
    rewrite !at_suffix by lia. rewrite skipn_suffix by lia. rewrite Hlen.
    change (at_ suf (6 - 1)) with m2. rewrite Hm2. cbn [negb].
    change (at_ suf (6 - 6)) with sign.
    change (skipn (6 - 5) suf) with (digitsN 2 H ++ [":"%byte; m1; m2]).
    rewrite num2_digits by lia.
    destruct (24 <=? H) eqn:E; [|apply Z.leb_gt in E; lia].
    rewrite orb_true_r. reflexivity.
  - assert (HtD : Forall (fun c => isDigitByte c = true) (decimal_rev 20 H))
      by (apply decimal_rev_isDigit; lia).
    assert (HtL : (2 < length (decimal_rev 20 H))%nat)
      by (apply decimal_rev_length; [lia|change (10 ^ Z.of_nat 2) with 100; lia]).
    assert (HtE : Ht = rev (decimal_rev 20 H)).
    { subst Ht. unfold appendInt.
      destruct (H <? 0) eqn:E; [apply Z.ltb_lt in E; lia|].
      rewrite u64_small by lia. unfold decimal. rewrite length_rev.
      replace (Z.to_nat (2 - Z.of_nat (length (decimal_rev 20 H)))) with 0%nat by lia.
      reflexivity. }
    destruct (rev_three (decimal_rev 20 H) ltac:(lia))
      as (front & a & b' & c' & Hrev & Ha).
    specialize (Ha HtD). rewrite HtE, Hrev.
    replace (pre ++ sign :: (front ++ [a; b'; c']) ++ [":"%byte; m1; m2])
      with ((pre ++ sign :: front) ++ [a; b'; c'; ":"%byte; m1; m2])
      by (rewrite <- !app_assoc; reflexivity).
    set (suf := [a; b'; c'; ":"%byte; m1; m2]).
    assert (Hlen : length suf = 6%nat) by reflexivity.
    rewrite !at_suffix by lia. rewrite Hlen.
    change (at_ suf (6 - 1)) with m2. rewrite Hm2. cbn [negb].
    change (at_ suf (6 - 6)) with a.
    change (byte_leb "0"%byte a && byte_leb a "9"%byte) with (isDigitByte a).
    rewrite Ha. reflexivity.
Qed.

(** A zone of a day or more from UTC is refused. *)
Lemma Time_MarshalJSON_zone_error (t : Time) :
  Time_nsec t < 1000000000 ->
  0 <= Time_Year t <= 9999 ->
  - 2 ^ 63 <= Time_Zone_offset t < 2 ^ 63 ->
  Time_Zone_offset t <= - 86400 \/ 86400 <= Time_Zone_offset t ->
  Time_MarshalJSON t
  = Err (errors_New
           (lit "Time.MarshalJSON: timezone hour outside of range [0,23]")).
Proof.
  intros Hnsec Hyear Hint Hoff.
  rewrite Time_Year_eq in Hyear.
  destruct (absDate (Time_abs t) true) as [[[year month] day] yday] eqn:Hdate.
  destruct (absClock (Time_abs t)) as [[hour min] sec] eqn:Hclock.
  cbn [fst] in Hyear.
  pose proof (appendFormatRFC3339_text_wide t [quote_byte] _ _ _ _ _ _ _
                Hdate Hclock Hyear Hnsec ltac:(lia)) as Hfmt.
  set (off := Time_Zone_offset t) in *.
  set (pre := [quote_byte] ++ dateTimeText year month day hour min sec
                ++ fracText (Time_nsec t)) in *.
  unfold zoneTextWide in Hfmt.
  set (sign := if go_div off 60 <? 0 then "-"%byte else "+"%byte) in *.
  set (H := Z.abs (go_div off 60) / 60) in *.
  set (M := digitsN 2 (Z.abs (go_div off 60) mod 60)) in *.
  assert (Hpre : nth 5 pre x00 = "-"%byte /\ (6 <= length pre)%nat).
  { subst pre.
    destruct (dateTime_slices (digitsN 4 year) (digitsN 2 month) (digitsN 2 day)
                (digitsN 2 hour) (digitsN 2 min) (digitsN 2 sec)
                (fracText (Time_nsec t))
                (length_digitsN _ _) (length_digitsN _ _) (length_digitsN _ _)
                (length_digitsN _ _) (length_digitsN _ _) (length_digitsN _ _))
      as (Hl & _ & _ & _ & _ & _ & _ & Hd & _).
    unfold dateTimeText. split.
    - rewrite nth_after_first. exact Hd.
    - rewrite length_app, Hl. cbn [length]. lia. }
  assert (HH : 24 <= H < 2 ^ 63).
  { subst H. unfold go_div. Z.to_euclidean_division_equations. lia. }
  assert (Hsign : isDigitByte sign = false)
    by (subst sign; destruct (go_div off 60 <? 0); reflexivity).
  eapply Time_MarshalJSON_strict_error.
  unfold Time_appendStrictRFC3339. rewrite Hfmt. cbn [length]. cbv zeta.
  apply (strict_zone_error pre M sign H (proj1 Hpre) (proj2 Hpre) HH
           (length_digitsN _ _) (digitsN_isDigit _ _) Hsign).
Qed.

(** C7, amended. For a valid time whose zone offset is an [int],
    [MarshalJSON] succeeds exactly on the zero instant and on the instants
    whose year, on the clock of their location, is within [0, 9999] and
    whose zone is less than a day from UTC: it returns [null] for the
    first and the quoted RFC 3339 text for the others, and an error for
    every other instant. *)
Theorem NullTime_MarshalJSON_spec (ns : NullTime) :
  Time_valid ns ->
  - 2 ^ 63 <= Time_Zone_offset ns < 2 ^ 63 ->
  (Time_IsZero ns = true
   \/ (0 <= Time_Year ns <= 9999 /\ - 86400 < Time_Zone_offset ns < 86400) ->
   NullTime_MarshalJSON ns
   = Ok (if Time_IsZero ns then lit "null" else quoted (Time_text ns)))
  /\ (~ (Time_IsZero ns = true
         \/ (0 <= Time_Year ns <= 9999 /\ - 86400 < Time_Zone_offset ns < 86400)) ->
      exists e : error, NullTime_MarshalJSON ns = Err e).
Proof.
  intros Hv Hint. split.
  - apply NullTime_MarshalJSON_succeeds. exact Hv.
  - intros Hnot. destruct Hv as (_ & _ & Hnsec).
    unfold NullTime_MarshalJSON.
    destruct (Time_IsZero ns) eqn:Hz; [exfalso; apply Hnot; now left|].
    cbn [negb]. rewrite json_Marshal_TimePtr_Some.
    assert (Hcases : (Time_Year ns < 0 \/ 9999 < Time_Year ns)
                     \/ (0 <= Time_Year ns <= 9999
                         /\ (Time_Zone_offset ns <= - 86400
                             \/ 86400 <= Time_Zone_offset ns))) by lia.
    destruct Hcases as [Hy|[Hy Ho]].
    + rewrite (Time_MarshalJSON_year_error ns Hnsec Hy).
      eexists. reflexivity.
    + rewrite (Time_MarshalJSON_zone_error ns Hnsec Hy Hint Ho).
      eexists. reflexivity.
Qed.

Lemma NullTime_MarshalJSON_spec_witness :
  NullTime_MarshalJSON refTime
  = Ok (if Time_IsZero refTime then lit "null" else quoted (Time_text refTime)).
Proof.
  apply (NullTime_MarshalJSON_spec refTime).
  - unfold Time_valid. vm_compute. intuition discriminate.
  - vm_compute. intuition discriminate.
  - right. vm_compute. intuition discriminate.
Defined.

(** ** NullTime and the database *)

Lemma Time_Equal_refl (t : Time) : Time_Equal t t = true.
Proof.
  unfold Time_Equal.
  destruct (negb (Z.land (Z.land (wall t) (wall t)) hasMonotonic =? 0)).
  - apply Z.eqb_refl.
  - rewrite !Z.eqb_refl. reflexivity.
Qed.

Lemma Time_Equal_zero (t : Time) :
  Time_IsZero t = true -> Time_Equal (mkTime 0 0 None) t = true.
Proof.
  unfold Time_IsZero, Time_Equal. intros H.
  apply andb_prop in H as [Hs Hn].
  apply Z.eqb_eq in Hs, Hn. cbn [wall]. rewrite Z.land_0_l.
  change (negb (Z.land 0 hasMonotonic =? 0)) with false. cbv iota.
  rewrite Hs, Hn. reflexivity.
Qed.

(** X1: [NullTime.Scan] refuses every driver value that is neither nil
    nor a [time.Time], a text timestamp included: it returns the error of
    [database/sql], which names the Go type of the value, and the receiver
    keeps what it held. *)
Theorem NullTime_Scan_rejects (ns : NullTime) (v : driver_Value) :
  v <> DNil -> (forall t : Time, v <> DTime t) ->
  NullTime_Scan ns v
  = (Some (errors_New
             (lit "unsupported Scan, storing driver.Value type " ++ typeName v
              ++ lit " into type *time.Time")),
     ns).
Proof.
  intros Hnil Htime.
  destruct v; try reflexivity.
  - contradiction Hnil. reflexivity.
  - contradiction (Htime t). reflexivity.
Qed.

Lemma NullTime_Scan_rejects_witness :
  NullTime_Scan refTime (DBytes (lit "2006-01-02 15:04:05"))
  = (Some (errors_New
             (lit "unsupported Scan, storing driver.Value type []uint8 into type *time.Time")),
     refTime).
Proof.
  apply (NullTime_Scan_rejects refTime (DBytes (lit "2006-01-02 15:04:05"))).
  - discriminate.
  - discriminate.
Defined.

(** X2: [NullTime.Value] never returns an error, and what it returns is
    SQL NULL exactly when the receiver is the zero instant; any other
    instant is returned as the [time.Time] itself. *)
Theorem NullTime_Value_null_iff_zero (ns : NullTime) :
  (exists v : driver_Value, NullTime_Value ns = Ok v)
  /\ (NullTime_Value ns = Ok DNil <-> Time_IsZero ns = true)
  /\ (NullTime_Value ns = Ok (DTime ns) <-> Time_IsZero ns = false).
Proof.
  unfold NullTime_Value, sql_NullTime_Value. cbn [nt_Valid nt_Time].
  destruct (Time_IsZero ns); cbn [negb].
  - split; [eexists; reflexivity|].
    split; split; intros H; try reflexivity; discriminate.
  - split; [eexists; reflexivity|].
    split; split; intros H; try reflexivity; discriminate.
Qed.

(** X3: what [Value] returns, [Scan] takes back, for every [NullTime] and
    whatever the receiver of [Scan] held: the result is the same instant,
    and it is the zero instant exactly when the original was. *)
Theorem NullTime_db_roundtrip_instant (ns r : NullTime) :
  exists (v : driver_Value) (ns' : NullTime),
    NullTime_Value ns = Ok v
    /\ NullTime_Scan r v = (None, ns')
    /\ Time_Equal ns' ns = true
    /\ Time_IsZero ns' = Time_IsZero ns.
Proof.
  unfold NullTime_Value, sql_NullTime_Value. cbn [nt_Valid nt_Time].
  destruct (Time_IsZero ns) eqn:Hz; cbn [negb].
  - exists DNil, (mkTime 0 0 None).
    split; [reflexivity|]. split; [reflexivity|].
    split; [apply Time_Equal_zero; exact Hz|reflexivity].
  - exists (DTime ns), ns.
    split; [reflexivity|]. split; [reflexivity|].
    split; [apply Time_Equal_refl|exact Hz].
Qed.

(** ** The raw payload adapters and the database *)

Lemma length_zero_nil (m : bytes) : (length m =? 0)%nat = true <-> m = [].
Proof.
  destruct m; simpl; split; intros H; try reflexivity; discriminate.
Qed.

(** X4: neither [Value] of the raw payload adapters returns an error; a
    non-empty payload is returned as a string with the same bytes by
    both; [JSONRawMessage.Value] never returns SQL NULL, and
    [NullJSONRawMessage.Value] does exactly on the empty payload. *)
Theorem raw_payload_Value (m : bytes) :
  (m <> [] ->
   JSONRawMessage_Value m = Ok (DString m)
   /\ NullJSONRawMessage_Value m = Ok (DString m))
  /\ (exists s : bytes, JSONRawMessage_Value m = Ok (DString s) /\ s <> [])
  /\ (NullJSONRawMessage_Value m = Ok DNil <-> m = [])
  /\ (exists v : driver_Value, NullJSONRawMessage_Value m = Ok v).
Proof.
  unfold JSONRawMessage_Value, NullJSONRawMessage_Value.
  destruct m as [|c m]; cbn [length Nat.eqb].
  - split; [intros H; contradiction H; reflexivity|].
    split; [exists (lit "null"); split; [reflexivity|discriminate]|].
    split; [split; reflexivity|]. eexists; reflexivity.
  - split; [intros _; split; reflexivity|].
    split; [exists (c :: m); split; [reflexivity|discriminate]|].
    split; [split; discriminate|]. eexists; reflexivity.
Qed.

(** X5: through the database a raw payload comes back as it was when it
    is not empty, and as the four bytes [null] when it is, with either
    adapter and whatever the receiver of [Scan] held; a second trip
    changes nothing more. *)
Theorem raw_payload_db_roundtrip (fmtFloat_v : float -> bytes)
  (Time_String : Time -> bytes) (m r : bytes) :
  (exists v : driver_Value,
      JSONRawMessage_Value m = Ok v
      /\ JSONRawMessage_Scan fmtFloat_v Time_String r v = (None, orNull m))
  /\ (exists v : driver_Value,
         NullJSONRawMessage_Value m = Ok v
         /\ NullJSONRawMessage_Scan fmtFloat_v Time_String r v = (None, orNull m))
  /\ (exists v : driver_Value,
         JSONRawMessage_Value (orNull m) = Ok v
         /\ JSONRawMessage_Scan fmtFloat_v Time_String r v = (None, orNull m))
  /\ (exists v : driver_Value,
         NullJSONRawMessage_Value (orNull m) = Ok v
         /\ NullJSONRawMessage_Scan fmtFloat_v Time_String r v
            = (None, orNull m)).
Proof.
  unfold JSONRawMessage_Value, NullJSONRawMessage_Value, orNull.
  destruct m as [|c m]; cbn [length Nat.eqb].
  - repeat split; eexists; split; reflexivity.
  - cbn [length Nat.eqb]. repeat split; eexists; split; reflexivity.
Qed.

(** ** The raw payload adapters and JSON *)

(** X6: [MarshalJSON] of either raw payload adapter never fails and never
    returns an empty text. [UnmarshalJSON] on that text, whatever the
    receiver held, leaves the payload as it was when it was not empty, and
    the four bytes [null] when it was; the other way round, [MarshalJSON]
    after [UnmarshalJSON] on non-empty bytes returns these bytes. *)
Theorem raw_payload_json_roundtrip (m old : bytes) :
  orNull m <> []
  /\ JSONRawMessage_MarshalJSON m = Ok (orNull m)
  /\ NullJSONRawMessage_MarshalJSON m = Ok (orNull m)
  /\ JSONRawMessage_UnmarshalJSON (Some old) (orNull m) = (None, Some (orNull m))
  /\ NullJSONRawMessage_UnmarshalJSON (Some old) (orNull m)
     = (None, Some (orNull m))
  /\ JSONRawMessage_MarshalJSON (orNull m) = Ok (orNull m)
  /\ NullJSONRawMessage_MarshalJSON (orNull m) = Ok (orNull m).
Proof.
  unfold JSONRawMessage_MarshalJSON, NullJSONRawMessage_MarshalJSON,
    JSONRawMessage_UnmarshalJSON, NullJSONRawMessage_UnmarshalJSON, slice, orNull.
  destruct m as [|c m]; cbn [length Nat.eqb].
  - repeat split; discriminate.
  - cbn [length Nat.eqb firstn Nat.sub app]. repeat split. discriminate.
Qed.

(** ** Column values that are not text *)

Lemma checkValid_percent (rest : bytes) :
  checkValid ("%"%byte :: rest) = Some (percentError 1).
Proof. reflexivity. Qed.

Lemma appendCompact_percent (rest : bytes) :
  appendCompact ("%"%byte :: rest) true = Err (percentError 0).
Proof. reflexivity. Qed.

Lemma Sprintf_s_badVerb (fmtFloat_v : float -> bytes)
  (Time_String : Time -> bytes) (v : driver_Value) :
  badVerb v = true ->
  exists rest : bytes,
    Sprintf_s fmtFloat_v Time_String v = "%"%byte :: "!"%byte :: rest.
Proof.
  destruct v; try discriminate; intros _; eexists; reflexivity.
Qed.

(** X7: from an integer, a float or a boolean column value both [Scan]
    of the raw payload adapters store, without error, a text that is not
    JSON: it starts with a percent sign. [MarshalJSON] hands it out as it
    is, so encoding the adapter with [encoding/json] fails. *)
Theorem raw_payload_Scan_bad_verb (fmtFloat_v : float -> bytes)
  (Time_String : Time -> bytes) (r : bytes) (v : driver_Value) :
  badVerb v = true ->
  exists m : bytes,
    JSONRawMessage_Scan fmtFloat_v Time_String r v = (None, m)
    /\ NullJSONRawMessage_Scan fmtFloat_v Time_String r v = (None, m)
    /\ checkValid m = Some (percentError 1)
    /\ JSONRawMessage_MarshalJSON m = Ok m
    /\ NullJSONRawMessage_MarshalJSON m = Ok m
    /\ json_Marshal_JSONRawMessage m
       = Err (json_MarshalerError (lit "types.JSONRawMessage") (percentError 0)
                (lit "MarshalJSON"))
    /\ json_Marshal_NullJSONRawMessage m
       = Err (json_MarshalerError (lit "types.NullJSONRawMessage")
                (percentError 0) (lit "MarshalJSON")).
Proof.
  intros Hv.
  destruct (Sprintf_s_badVerb fmtFloat_v Time_String v Hv) as [rest Hrest].
  exists ("%"%byte :: "!"%byte :: rest).
  unfold JSONRawMessage_Scan, NullJSONRawMessage_Scan.
  split; [rewrite Hrest; reflexivity|].
  split; [destruct v; try discriminate; rewrite <- Hrest; reflexivity|].
  split; [apply checkValid_percent|].
  unfold json_Marshal_JSONRawMessage, json_Marshal_NullJSONRawMessage,
    JSONRawMessage_MarshalJSON, NullJSONRawMessage_MarshalJSON.
  cbn [length Nat.eqb]. unfold marshalerEncoder.
  rewrite appendCompact_percent. repeat split.
Qed.

Lemma raw_payload_Scan_bad_verb_witness :
  exists m : bytes,
    JSONRawMessage_Scan (fun _ => []) (fun _ => []) [] (DInt64 42) = (None, m)
    /\ NullJSONRawMessage_Scan (fun _ => []) (fun _ => []) [] (DInt64 42)
       = (None, m)
    /\ checkValid m = Some (percentError 1)
    /\ JSONRawMessage_MarshalJSON m = Ok m
    /\ NullJSONRawMessage_MarshalJSON m = Ok m
    /\ json_Marshal_JSONRawMessage m
       = Err (json_MarshalerError (lit "types.JSONRawMessage") (percentError 0)
                (lit "MarshalJSON"))
    /\ json_Marshal_NullJSONRawMessage m
       = Err (json_MarshalerError (lit "types.NullJSONRawMessage")
                (percentError 0) (lit "MarshalJSON")).
Proof.
  apply (raw_payload_Scan_bad_verb (fun _ => []) (fun _ => []) [] (DInt64 42)).
  reflexivity.
Defined.

(** ** JSONScan into a pointer *)


(** X9: [JSONScan] fails on every integer, float and boolean column
    value, whatever the destination: the text that reaches the decoder
    starts with a percent sign. The error is the syntax error of the
    decoder inside the error of [JSONScan], and the destination is not
    written to. *)
Theorem JSONScan_rejects_bad_verb (fmtFloat_v : float -> bytes)
  (Time_String : Time -> bytes) (T : Type) (decode_nil : bytes -> option error)
  (UnmarshalJSON : T -> bytes -> option error * T)
  (dst : option unit) (v : driver_Value) (s : T) :
  badVerb v = true ->
  JSONScan fmtFloat_v Time_String unit T
    (json_Unmarshal_dst decode_nil UnmarshalJSON) dst v s
  = (Some (fmt_Errorf (lit "unable to decode payload to: %s") (percentError 1)),
     s).
Proof.
  intros Hv.
  destruct (Sprintf_s_badVerb fmtFloat_v Time_String v Hv) as [rest Hrest].
  unfold JSONScan.
  replace (match v with DNil => DString (lit "null") | _ => v end) with v
    by (destruct v; try discriminate; reflexivity).
  rewrite Hrest.
  unfold json_Unmarshal_dst, json_Unmarshal_Unmarshaler.
  rewrite checkValid_percent. destruct dst; reflexivity.
Qed.

Lemma JSONScan_rejects_bad_verb_witness :
  JSONScan (fun _ => []) (fun _ => []) unit NullTime
    (json_Unmarshal_dst (fun _ => None) (NullTime_UnmarshalJSON MST noParse))
    (Some tt) (DInt64 1136239445) refTime
  = (Some (fmt_Errorf (lit "unable to decode payload to: %s") (percentError 1)),
     refTime).
Proof.
  apply (JSONScan_rejects_bad_verb (fun _ => []) (fun _ => []) NullTime
           (fun _ => None) (NullTime_UnmarshalJSON MST noParse) (Some tt)
           (DInt64 1136239445) refTime).
  reflexivity.
Defined.

(** ** NullTime.MarshalJSON: what it returns *)

Lemma NullTime_MarshalJSON_cases (ns : NullTime) :
  Time_valid ns -> - 2 ^ 63 <= Time_Zone_offset ns < 2 ^ 63 ->
  (Time_IsZero ns = true /\ NullTime_MarshalJSON ns = Ok (lit "null"))
  \/ (Time_IsZero ns = false
      /\ 0 <= Time_Year ns <= 9999 /\ - 86400 < Time_Zone_offset ns < 86400
      /\ NullTime_MarshalJSON ns = Ok (quoted (Time_text ns)))
  \/ (Time_IsZero ns = false /\ exists e : error, NullTime_MarshalJSON ns = Err e).
Proof.
  intros Hv Hint.
  destruct (Time_IsZero ns) eqn:Hz.
  - left. split; [reflexivity|].
    unfold NullTime_MarshalJSON. rewrite Hz. reflexivity.
  - right.
    assert (Hcases : (0 <= Time_Year ns <= 9999
                      /\ - 86400 < Time_Zone_offset ns < 86400)
                     \/ (Time_Year ns < 0 \/ 9999 < Time_Year ns)
                     \/ (0 <= Time_Year ns <= 9999
                         /\ (Time_Zone_offset ns <= - 86400
                             \/ 86400 <= Time_Zone_offset ns))) by lia.
    destruct Hcases as [[Hy Ho]|Hbad].
    + left. split; [reflexivity|]. split; [exact Hy|]. split; [exact Ho|].
      pose proof (NullTime_MarshalJSON_succeeds ns Hv (or_intror (conj Hy Ho)))
        as Hm.
      rewrite Hz in Hm. exact Hm.
    + right. split; [reflexivity|].
      destruct Hv as (_ & _ & Hnsec).
      unfold NullTime_MarshalJSON. rewrite Hz. cbn [negb].
      rewrite json_Marshal_TimePtr_Some.
      destruct Hbad as [Hy|[Hy Ho]].
      * rewrite (Time_MarshalJSON_year_error ns Hnsec Hy).
        eexists. reflexivity.
      * rewrite (Time_MarshalJSON_zone_error ns Hnsec Hy Hint Ho).
        eexists. reflexivity.
Qed.

Lemma quoted_not_null (s : bytes) : quoted s <> lit "null".
Proof. unfold quoted. intros H. discriminate H. Qed.

Lemma Ok_inj (A : Type) (a b : A) : Ok a = Ok b -> a = b.
Proof. intros H. injection H as H. exact H. Qed.

(** X10: for a valid time [NullTime.MarshalJSON] returns the four bytes
    [null] exactly when the receiver is the zero instant: no other instant
    is written as [null]. *)
Theorem NullTime_MarshalJSON_null_iff_zero (ns : NullTime) :
  Time_valid ns -> - 2 ^ 63 <= Time_Zone_offset ns < 2 ^ 63 ->
  (NullTime_MarshalJSON ns = Ok (lit "null") <-> Time_IsZero ns = true).
Proof.
  intros Hv Hint.
  destruct (NullTime_MarshalJSON_cases ns Hv Hint)
    as [[Hz Hm]|[(Hz & _ & _ & Hm)|(Hz & e & Hm)]]; rewrite Hm, Hz.
  - split; reflexivity.
  - split; intros H; [|discriminate].
    apply Ok_inj in H. contradiction (quoted_not_null _ H).
  - split; discriminate.
Qed.

Lemma NullTime_MarshalJSON_null_iff_zero_witness :
  NullTime_MarshalJSON mstTime = Ok (lit "null") <-> Time_IsZero mstTime = true.
Proof.
  apply (NullTime_MarshalJSON_null_iff_zero mstTime).
  - unfold Time_valid. vm_compute. intuition discriminate.
  - vm_compute. intuition discriminate.
Defined.

Lemma fracText_length (nsec : Z) :
  0 <= nsec < 1000000000 -> (length (fracText nsec) <= 10)%nat.
Proof.
  intros Hn. destruct (Z.eq_dec nsec 0) as [->|Hnz].
  - cbn. lia.
  - destruct (fracText_shape nsec ltac:(lia)) as (k & m & Hk & _ & Hf & _).
    rewrite Hf. cbn [length]. rewrite length_digitsN. lia.
Qed.

Lemma zoneText_length (offset : Z) : (1 <= length (zoneText offset) <= 6)%nat.
Proof.
  unfold zoneText. destruct (offset =? 0).
  - cbn. lia.
  - cbn [length]. rewrite length_app. cbn [length].
    rewrite !length_digitsN. lia.
Qed.

Lemma rfc3339Text_length (year month day hour min sec nsec offset : Z) :
  0 <= nsec < 1000000000 ->
  (20 <= length (rfc3339Text year month day hour min sec nsec offset) <= 35)%nat.
Proof.
  intros Hn. unfold rfc3339Text, dateTimeText.
  pose proof (fracText_length nsec Hn) as Hf.
  pose proof (zoneText_length offset) as Hz.
  repeat (rewrite length_app || cbn [length]).
  rewrite !length_digitsN. lia.
Qed.

Lemma Time_text_length (t : Time) :
  Time_nsec t < 1000000000 -> (20 <= length (Time_text t) <= 35)%nat.
Proof.
  intros Hn. pose proof (Time_nsec_nonneg t) as H0.
  unfold Time_text. destruct (absDate _ _) as [[[year month] day] yday].
  destruct (absClock _) as [[hour min] sec].
  apply rfc3339Text_length. lia.
Qed.

Lemma marshalerEncoder_plain (Type_ text : bytes) :
  Forall (fun c => plainByte c = true) text ->
  marshalerEncoder Type_ (Ok (quoted text)) = Ok (quoted text).
Proof.
  intros Hplain. unfold marshalerEncoder.
  rewrite (appendCompact_quoted _ Hplain). reflexivity.
Qed.

Lemma marshalerEncoder_null (Type_ : bytes) :
  marshalerEncoder Type_ (Ok (lit "null")) = Ok (lit "null").
Proof. reflexivity. Qed.

Lemma quoted_length (s : bytes) : length (quoted s) = S (S (length s)).
Proof.
  unfold quoted. cbn [length]. rewrite length_app. cbn [length]. lia.
Qed.

Lemma checkValid_null : checkValid (lit "null") = None.
Proof. reflexivity. Qed.

(** X11: whatever [NullTime.MarshalJSON] returns without error for a
    valid time is one JSON value: either the four bytes [null] or a string
    of 22 to 37 bytes, quotes included, without escapes, which the encoder
    of [encoding/json] takes over as it is. *)
Theorem NullTime_MarshalJSON_valid_json (ns : NullTime) (b : bytes) :
  Time_valid ns -> - 2 ^ 63 <= Time_Zone_offset ns < 2 ^ 63 ->
  NullTime_MarshalJSON ns = Ok b ->
  checkValid b = None
  /\ json_Marshal_NullTime ns = Ok b
  /\ (b = lit "null"
      \/ (22 <= length b <= 37)%nat
         /\ exists text : bytes,
              b = quoted text /\ Forall (fun c => plainByte c = true) text).
Proof.
  intros Hv Hint Hb.
  unfold json_Marshal_NullTime. rewrite Hb.
  destruct (NullTime_MarshalJSON_cases ns Hv Hint)
    as [[Hz Hm]|[(Hz & _ & _ & Hm)|(Hz & e & Hm)]];
    rewrite Hm in Hb; [| |discriminate]; apply Ok_inj in Hb; subst b.
  - split; [exact checkValid_null|].
    split; [apply marshalerEncoder_null|]. left. reflexivity.
  - pose proof (Time_text_plain ns) as Hplain.
    split; [apply checkValid_quoted; exact Hplain|].
    split; [apply marshalerEncoder_plain; exact Hplain|].
    right. split.
    + destruct Hv as (_ & _ & Hn). pose proof (Time_text_length ns Hn) as Hl.
      rewrite quoted_length. lia.
    + exists (Time_text ns). split; [reflexivity|exact Hplain].
Qed.

Lemma NullTime_MarshalJSON_valid_json_witness :
  checkValid (quoted (lit "2006-01-02T15:04:05.123456-07:00")) = None
  /\ json_Marshal_NullTime mstTime
     = Ok (quoted (lit "2006-01-02T15:04:05.123456-07:00"))
  /\ (quoted (lit "2006-01-02T15:04:05.123456-07:00") = lit "null"
      \/ (22 <= length (quoted (lit "2006-01-02T15:04:05.123456-07:00")) <= 37)%nat
         /\ exists text : bytes,
              quoted (lit "2006-01-02T15:04:05.123456-07:00") = quoted text
              /\ Forall (fun c => plainByte c = true) text).
Proof.
  apply (NullTime_MarshalJSON_valid_json mstTime
           (quoted (lit "2006-01-02T15:04:05.123456-07:00"))).
  - unfold Time_valid. vm_compute. intuition discriminate.
  - vm_compute. intuition discriminate.
  - vm_compute. reflexivity.
Defined.

(** ** NullTime.UnmarshalJSON: what it refuses *)

Lemma bytes_eqb_true (a : bytes) : forall b : bytes, bytes_eqb a b = true -> a = b.
Proof.
  induction a as [|x a IH]; intros [|y b] H; try discriminate H.
  - reflexivity.
  - cbn [bytes_eqb] in H. apply andb_prop in H as [Hx Hab].
    apply Byte.byte_dec_bl in Hx. rewrite Hx, (IH b Hab). reflexivity.
Qed.

Lemma bytes_eqb_neq (a b : bytes) : a <> b -> bytes_eqb a b = false.
Proof.
  intros H. destruct (bytes_eqb a b) eqn:E; [|reflexivity].
  contradiction H. apply bytes_eqb_true. exact E.
Qed.

Lemma byte_eqb_neq (x y : byte) : x <> y -> Byte.eqb x y = false.
Proof.
  intros H. destruct (Byte.eqb x y) eqn:E; [|reflexivity].
  contradiction H. apply Byte.byte_dec_bl. exact E.
Qed.

(** X12: when [NullTime.UnmarshalJSON] returns an error the receiver
    keeps what it held. Input that is not one JSON value is refused with
    the syntax error of the scanner before any time is parsed, the empty
    input included. *)
Theorem NullTime_UnmarshalJSON_failure (Local : Location)
  (Parse_RFC3339 : bytes -> result Time) (ns : NullTime) (data : bytes) :
  (forall (e : error) (ns' : NullTime),
      NullTime_UnmarshalJSON Local Parse_RFC3339 ns data = (Some e, ns') ->
      ns' = ns)
  /\ (forall e : error,
         checkValid data = Some e ->
         NullTime_UnmarshalJSON Local Parse_RFC3339 ns data = (Some e, ns))
  /\ NullTime_UnmarshalJSON Local Parse_RFC3339 ns []
     = (Some (json_SyntaxError_eof 0), ns).
Proof.
  unfold NullTime_UnmarshalJSON. split; [|split].
  - intros e ns'.
    destruct (json_Unmarshal_Time Local Parse_RFC3339 data (mkTime 0 0 None))
      as [[e'|] t]; intros H.
    + injection H as _ H. symmetry. exact H.
    + discriminate H.
  - intros e H. unfold json_Unmarshal_Time. rewrite H. reflexivity.
  - reflexivity.
Qed.

(** X13: a JSON value that is neither [null] nor a string, such as a
    number of seconds, a boolean, an object or an array, is refused by
    [NullTime.UnmarshalJSON]: it returns an error, whatever the local zone
    and the layout parser, and the receiver keeps what it held. *)
Theorem NullTime_UnmarshalJSON_not_string (Local : Location)
  (Parse_RFC3339 : bytes -> result Time) (ns : NullTime) (data : bytes) :
  checkValid data = None ->
  valueBytes data <> lit "null" ->
  at_ (valueBytes data) 0 <> quote_byte ->
  exists e : error,
    NullTime_UnmarshalJSON Local Parse_RFC3339 ns data = (Some e, ns).
Proof.
  intros Hvalid Hnull Hquote.
  unfold NullTime_UnmarshalJSON, json_Unmarshal_Time. rewrite Hvalid.
  unfold Time_UnmarshalJSON.
  rewrite (bytes_eqb_neq _ _ Hnull), (byte_eqb_neq _ _ Hquote).
  cbn [negb orb]. rewrite orb_true_r. eexists. reflexivity.
Qed.

Lemma NullTime_UnmarshalJSON_not_string_witness :
  exists e : error,
    NullTime_UnmarshalJSON MST noParse refTime (lit "1136239445")
    = (Some e, refTime).
Proof.
  apply (NullTime_UnmarshalJSON_not_string MST noParse refTime
           (lit "1136239445")).
  - vm_compute. reflexivity.
  - vm_compute. discriminate.
  - vm_compute. discriminate.
Defined.

(** ** NullTime.UnmarshalJSON: the instant it reads *)

(** [time.Date] in UTC on a date and a time of day that need no
    normalisation, within the years 0 to 9999. *)
Lemma Date_civil (year month day hour min sec nsec : Z) :
  0 <= year <= 9999 -> 1 <= month <= 12 -> 1 <= day <= 31 ->
  0 <= hour < 24 -> 0 <= min < 60 -> 0 <= sec < 60 ->
  0 <= nsec < 1000000000 ->
  Date year month day hour min sec nsec UTC
  = mkTime nsec (civilSeconds year month day hour min sec) None
  /\ - 2 ^ 40 <= civilSeconds year month day hour min sec < 2 ^ 40.
Proof.
  intros Hy Hm Hd Hh Hmi Hs Hn.
  pose proof (daysBefore_month month Hm) as [Hdb _].
  set (y := year - absoluteZeroYear).
  assert (Hyy : 292277022399 <= y <= 292277032398)
    by (subst y; unfold absoluteZeroYear; lia).
  pose proof (daysSinceEpoch_daysBeforeYear y ltac:(lia)) as Hdse.
  replace (y + absoluteZeroYear) with year in Hdse by (subst y; lia).
  assert (Hdby : 106751990353566 <= daysBeforeYear y <= 106751994005626).
  { rewrite daysBeforeYear_linear. Z.div_mod_to_equations. lia. }
  set (leapAdj := isLeap year && (3 <=? month)).
  assert (Hcivil : civilSeconds year month day hour min sec
                   = (daysBeforeYear y + daysBefore (month - 1)
                      + (if leapAdj then 1 else 0) + (day - 1)) * 86400
                     + hour * 3600 + min * 60 + sec + absoluteToInternal)
    by reflexivity.
  assert (Hrange : - 2 ^ 40 <= civilSeconds year month day hour min sec < 2 ^ 40).
  { rewrite Hcivil. unfold absoluteToInternal. destruct leapAdj; lia. }
  split; [|exact Hrange].
  unfold Date.
  rewrite (norm_id year (month - 1) 12) by lia.
  rewrite (norm_id sec nsec 1000000000) by lia.
  rewrite (norm_id min sec 60) by lia.
  rewrite (norm_id hour min 60) by lia.
  rewrite (norm_id day hour 24) by lia.
  cbv zeta.
  replace (month - 1 + 1) with month by lia.
  rewrite Hdse. fold leapAdj.
  rewrite (u64_small (daysBefore (month - 1))) by lia.
  rewrite (u64_small (daysBeforeYear y + daysBefore (month - 1))) by lia.
  assert (Hstep : (if leapAdj
                   then u64 (daysBeforeYear y + daysBefore (month - 1) + 1)
                   else daysBeforeYear y + daysBefore (month - 1))
                  = daysBeforeYear y + daysBefore (month - 1)
                    + (if leapAdj then 1 else 0)).
  { destruct leapAdj; [apply u64_small|]; lia. }
  rewrite Hstep. clear Hstep.
  rewrite (u64_small (day - 1)) by lia.
  set (D := daysBeforeYear y + daysBefore (month - 1)
            + (if leapAdj then 1 else 0) + (day - 1)) in *.
  assert (HD : 106751990353566 <= D <= 106751994005626 + 334 + 1 + 30)
    by (subst D; destruct leapAdj; lia).
  rewrite (u64_small D) by lia.
  change secondsPerDay with 86400. change secondsPerHour with 3600.
  change secondsPerMinute with 60.
  rewrite (u64_small (D * 86400)) by lia.
  rewrite (u64_small (hour * 3600 + min * 60 + sec)) by lia.
  rewrite (u64_small (D * 86400 + (hour * 3600 + min * 60 + sec))) by lia.
  cbn [lookup zi_offset]. change (negb (0 =? 0)) with false. cbv iota.
  unfold unixTime, Time_setLoc, Time_stripMono. cbn [wall ext loc].
  rewrite (u64_small nsec) by lia.
  rewrite land_hasMonotonic_small by lia.
  change (negb (0 =? 0)) with false. cbv iota. cbn [wall ext loc].
  f_equal. rewrite Hcivil.
  unfold internalToUnix, unixToInternal, absoluteToInternal, secondsPerDay,
    secondsPerHour, secondsPerMinute in *.
  clearbody D. clear - HD Hh Hmi Hs.
  unfold i64. Z.div_mod_to_equations. lia.
Qed.

Lemma Time_sec_plain (t : Time) :
  0 <= wall t < 2 ^ 30 -> Time_sec t = ext t /\ Time_nsec t = wall t.
Proof.
  intros Hw. unfold Time_sec, Time_nsec.
  rewrite land_hasMonotonic_small by lia.
  change (negb (0 =? 0)) with false. cbv iota. split; [reflexivity|].
  change nsecMask with (Z.ones 30).
  rewrite Z.land_ones by lia. apply Z.mod_small. exact Hw.
Qed.

(** X14: [NullTime.UnmarshalJSON] reads the RFC 3339 text of a date of
    the years 0 to 9999, a time of day, a fraction of a second and a zone
    of whole minutes, between quotes: the receiver becomes the instant
    that [time.Date] gives for these fields in UTC, moved by the zone
    offset, with the nanoseconds of the text and the zone offset of the
    text. *)
Theorem NullTime_UnmarshalJSON_text (Local : Location)
  (Parse_RFC3339 : bytes -> result Time) (ns : NullTime)
  (year month day hour min sec nsec offset : Z) :
  0 <= year <= 9999 -> 1 <= month <= 12 -> 1 <= day <= daysIn month year ->
  0 <= hour < 24 -> 0 <= min < 60 -> 0 <= sec < 60 ->
  0 <= nsec < 1000000000 ->
  - 86400 < offset < 86400 -> go_rem offset 60 = 0 ->
  exists t' : NullTime,
    NullTime_UnmarshalJSON Local Parse_RFC3339 ns
      (quoted (rfc3339Text year month day hour min sec nsec offset))
    = (None, t')
    /\ Time_sec t'
       = Time_sec (Date year month day hour min sec nsec UTC) - offset
    /\ Time_nsec t' = nsec
    /\ Time_Zone_offset t' = offset.
Proof.
  intros Hy Hmo Hd Hh Hmi Hs Hn Hoff Hrem.
  pose proof (daysIn_le_31 month year Hmo) as H31.
  destruct (Date_civil year month day hour min sec nsec
              Hy Hmo ltac:(lia) Hh Hmi Hs Hn) as [HDate Hrange].
  pose proof (parseRFC3339_text year month day hour min sec nsec offset Local
                Hy Hmo Hd Hh Hmi Hs Hn Hoff Hrem) as Hparse.
  rewrite HDate in Hparse |- *.
  set (E := civilSeconds year month day hour min sec) in *. clearbody E.
  replace (mkTime nsec E None) with (mkTime nsec (E - offset + offset) None)
    in Hparse by (f_equal; lia).
  pose proof (zoned_instant nsec (E - offset) offset Local Hn ltac:(lia) Hoff)
    as Hz.
  cbv zeta in Hz.
  remember (zoned (mkTime nsec (E - offset + offset) None) offset Local) as t'
    eqn:Ht'.
  destruct Hz as (Hw & He & Hzone).
  exists t'. split.
  - apply NullTime_UnmarshalJSON_quoted;
      [apply rfc3339Text_plain|exact Hparse].
  - destruct (Time_sec_plain t' ltac:(rewrite Hw; lia)) as [Hsec Hnsec].
    destruct (Time_sec_plain (mkTime nsec E None) ltac:(cbn [wall]; lia))
      as [Hsec0 _].
    rewrite Hsec, Hnsec, Hsec0, He, Hw. cbn [ext].
    split; [lia|]. split; [reflexivity|exact Hzone].
Qed.

Lemma NullTime_UnmarshalJSON_text_witness :
  exists t' : NullTime,
    NullTime_UnmarshalJSON MST noParse refTime
      (quoted (rfc3339Text 2006 1 2 15 4 5 123456000 (-25200)))
    = (None, t')
    /\ Time_sec t' = Time_sec (Date 2006 1 2 15 4 5 123456000 UTC) - (-25200)
    /\ Time_nsec t' = 123456000
    /\ Time_Zone_offset t' = -25200.
Proof.
  apply (NullTime_UnmarshalJSON_text MST noParse refTime
           2006 1 2 15 4 5 123456000 (-25200)).
  - lia.
  - lia.
  - vm_compute. intuition discriminate.
  - lia.
  - lia.
  - lia.
  - lia.
  - lia.
  - reflexivity.
Defined.

Example rfc3339Text_mst :
  rfc3339Text 2006 1 2 15 4 5 123456000 (-25200)
  = lit "2006-01-02T15:04:05.123456-07:00".
Proof. vm_compute. reflexivity. Qed.

(** ** NullTime: the JSON round trip of whatever is encoded *)

Lemma NullTime_UnmarshalJSON_null_zero (Local : Location)
  (Parse_RFC3339 : bytes -> result Time) (ns : NullTime) :
  NullTime_UnmarshalJSON Local Parse_RFC3339 ns (lit "null")
  = (None, mkTime 0 0 None).
Proof. reflexivity. Qed.

(** X15: whenever [NullTime.MarshalJSON] returns a text for a valid time
    whose zone, if it is not the zero instant, is a whole number of
    minutes from UTC, [NullTime.UnmarshalJSON] reads that text without
    error, whatever the receiver held, and the receiver is then the same
    instant; the zero instant comes back as the zero [Time] in UTC. *)
Theorem NullTime_json_roundtrip_encoded (Local : Location)
  (Parse_RFC3339 : bytes -> result Time) (ns r : NullTime) (b : bytes) :
  Time_valid ns -> - 2 ^ 63 <= Time_Zone_offset ns < 2 ^ 63 ->
  (Time_IsZero ns = false -> go_rem (Time_Zone_offset ns) 60 = 0) ->
  NullTime_MarshalJSON ns = Ok b ->
  exists t' : NullTime,
    NullTime_UnmarshalJSON Local Parse_RFC3339 r b = (None, t')
    /\ Time_Equal t' ns = true
    /\ (Time_IsZero ns = true -> t' = mkTime 0 0 None).
Proof.
  intros Hv Hint Hrem Hb.
  destruct (NullTime_MarshalJSON_cases ns Hv Hint)
    as [[Hz Hm]|[(Hz & Hy & Ho & Hm)|(Hz & e & Hm)]].
  - rewrite Hm in Hb. apply Ok_inj in Hb. subst b.
    exists (mkTime 0 0 None). split; [apply NullTime_UnmarshalJSON_null_zero|].
    split; [apply Time_Equal_zero; exact Hz|]. intros _. reflexivity.
  - destruct (NullTime_json_roundtrip Local Parse_RFC3339 ns r Hz Hv Hy Ho
                (Hrem Hz)) as (b' & t' & Hm' & Hu & He & _).
    rewrite Hb in Hm'. apply Ok_inj in Hm'. subst b'.
    exists t'. split; [exact Hu|]. split; [exact He|].
    intros Hz'. rewrite Hz in Hz'. discriminate Hz'.
  - rewrite Hm in Hb. discriminate Hb.
Qed.

Lemma NullTime_json_roundtrip_encoded_witness :
  exists t' : NullTime,
    NullTime_UnmarshalJSON MST noParse refTime
      (quoted (lit "2006-01-02T15:04:05.123456-07:00")) = (None, t')
    /\ Time_Equal t' mstTime = true
    /\ (Time_IsZero mstTime = true -> t' = mkTime 0 0 None).
Proof.
  apply (NullTime_json_roundtrip_encoded MST noParse mstTime refTime
           (quoted (lit "2006-01-02T15:04:05.123456-07:00"))).
  - unfold Time_valid. vm_compute. intuition discriminate.
  - vm_compute. intuition discriminate.
  - intros _. vm_compute. reflexivity.
  - vm_compute. reflexivity.
Defined.

(** ** The generic helpers on a NullTime *)

Lemma JSONValue_Ok (any : Type) (json_Marshal : any -> result bytes) (v : any)
  (text : bytes) :
  json_Marshal v = Ok text ->
  JSONValue any json_Marshal (Some v) = Ok (DString (text ++ [x0a])).
Proof.
  intros H. unfold JSONValue, Encoder_Encode. rewrite H. reflexivity.
Qed.

Lemma JSONScan_text_Unmarshaler (fmtFloat_v : float -> bytes)
  (Time_String : Time -> bytes) (T : Type) (decode_nil : bytes -> option error)
  (UnmarshalJSON : T -> bytes -> option error * T) (data : bytes) (s s' : T) :
  checkValid data = None ->
  Byte.eqb (at_ (valueBytes data) 0) "n"%byte = false ->
  UnmarshalJSON s (valueBytes data) = (None, s') ->
  JSONScan fmtFloat_v Time_String unit T
    (json_Unmarshal_dst decode_nil UnmarshalJSON) (Some tt) (DString data) s
  = (None, s').
Proof.
  intros Hvalid Hn Hu.
  unfold JSONScan, json_Unmarshal_dst, json_Unmarshal_Unmarshaler.
  cbn [Sprintf_s]. rewrite Hvalid. cbv zeta. rewrite Hn, Hu. reflexivity.
Qed.

Lemma checkValid_loop_plain_newline (s : bytes) :
  Forall (fun c => plainByte c = true) s ->
  forall n : Z,
    checkValid_loop (s ++ [quote_byte; x0a])
                    (mkScanner fnInString false [] None n) = None.
Proof.
  induction 1 as [|c s Hc Hs IH]; intros n.
  - reflexivity.
  - simpl app. cbn [checkValid_loop]. cbn [step endTop parseState err scanned].
    rewrite (plainByte_step c (n + 1) Hc).
    change (scanContinue =? scanError) with false. cbv iota.
    apply IH.
Qed.

Lemma quoted_newline (s : bytes) :
  quoted s ++ [x0a] = quote_byte :: s ++ [quote_byte; x0a].
Proof. unfold quoted. cbn [app]. rewrite <- app_assoc. reflexivity. Qed.

Lemma checkValid_quoted_newline (s : bytes) :
  Forall (fun c => plainByte c = true) s ->
  checkValid (quoted s ++ [x0a]) = None.
Proof.
  intros Hs. rewrite quoted_newline. unfold checkValid. cbn [checkValid_loop].
  cbn [step endTop parseState err scanned newScanner].
  change (scanner_step (mkScanner fnBeginValue false [] None (0 + 1)) quote_byte)
    with (mkScanner fnInString false [] None 1, scanBeginLiteral).
  change (scanBeginLiteral =? scanError) with false. cbv iota.
  apply checkValid_loop_plain_newline. exact Hs.
Qed.

Lemma valueBytes_quoted_newline (s : bytes) :
  valueBytes (quoted s ++ [x0a]) = quoted s.
Proof.
  rewrite quoted_newline. unfold valueBytes. rewrite trimLeft_quote.
  change (quote_byte :: s ++ [quote_byte; x0a])
    with ((quote_byte :: s) ++ [quote_byte; x0a]).
  rewrite rev_app_distr. cbn [rev app trimLeft].
  change (isSpace x0a) with true. cbv iota.
  change (isSpace quote_byte) with false. cbv iota.
  change (quote_byte :: rev s ++ [quote_byte])
    with ([quote_byte] ++ rev (quote_byte :: s)).
  rewrite rev_app_distr, rev_involutive. reflexivity.
Qed.

Lemma json_Marshal_NullTime_Ok (ns : NullTime) (text : bytes) :
  NullTime_MarshalJSON ns = Ok (quoted text) ->
  Forall (fun c => plainByte c = true) text ->
  json_Marshal_NullTime ns = Ok (quoted text).
Proof.
  intros H Hplain. unfold json_Marshal_NullTime. rewrite H.
  apply marshalerEncoder_plain. exact Hplain.
Qed.

Lemma json_Marshal_NullTime_zero (ns : NullTime) :
  Time_IsZero ns = true -> json_Marshal_NullTime ns = Ok (lit "null").
Proof.
  intros Hz. unfold json_Marshal_NullTime, NullTime_MarshalJSON.
  rewrite Hz. reflexivity.
Qed.

(** X16: a valid [NullTime] that is not the zero instant, whose year is
    within 0 to 9999 and whose zone is a whole number of minutes and less
    than a day from UTC, goes through the generic helpers and comes back
    as the same instant: [JSONValue] returns its JSON text followed by a
    newline, and [JSONScan] of that column value into a pointer to a
    [NullTime], whatever it held, succeeds. *)
Theorem JSONValue_JSONScan_NullTime (fmtFloat_v : float -> bytes)
  (Time_String : Time -> bytes) (decode_nil : bytes -> option error)
  (Local : Location) (Parse_RFC3339 : bytes -> result Time) (t r : NullTime) :
  Time_IsZero t = false ->
  Time_valid t ->
  0 <= Time_Year t <= 9999 ->
  - 86400 < Time_Zone_offset t < 86400 ->
  go_rem (Time_Zone_offset t) 60 = 0 ->
  exists (b : bytes) (t' : NullTime),
    NullTime_MarshalJSON t = Ok b
    /\ JSONValue NullTime json_Marshal_NullTime (Some t)
       = Ok (DString (b ++ [x0a]))
    /\ JSONScan fmtFloat_v Time_String unit NullTime
         (json_Unmarshal_dst decode_nil
            (NullTime_UnmarshalJSON Local Parse_RFC3339))
         (Some tt) (DString (b ++ [x0a])) r
       = (None, t')
    /\ Time_Equal t' t = true
    /\ Time_Zone_offset t' = Time_Zone_offset t.
Proof.
  intros Hz Hv Hy Ho Hrem.
  pose proof (NullTime_MarshalJSON_succeeds t Hv (or_intror (conj Hy Ho))) as Hm.
  rewrite Hz in Hm.
  destruct (NullTime_json_roundtrip Local Parse_RFC3339 t r Hz Hv Hy Ho Hrem)
    as (b' & t' & Hm' & Hu & He & Hoff).
  rewrite Hm in Hm'. apply Ok_inj in Hm'. subst b'.
  pose proof (Time_text_plain t) as Hplain.
  exists (quoted (Time_text t)), t'.
  split; [exact Hm|].
  split; [apply JSONValue_Ok, json_Marshal_NullTime_Ok; assumption|].
  split; [|split; assumption].
  apply JSONScan_text_Unmarshaler.
  - apply checkValid_quoted_newline. exact Hplain.
  - rewrite valueBytes_quoted_newline. reflexivity.
  - rewrite valueBytes_quoted_newline. exact Hu.
Qed.

Lemma JSONValue_JSONScan_NullTime_witness :
  exists (b : bytes) (t' : NullTime),
    NullTime_MarshalJSON mstTime = Ok b
    /\ JSONValue NullTime json_Marshal_NullTime (Some mstTime)
       = Ok (DString (b ++ [x0a]))
    /\ JSONScan (fun _ => []) (fun _ => []) unit NullTime
         (json_Unmarshal_dst (fun _ => None) (NullTime_UnmarshalJSON MST noParse))
         (Some tt) (DString (b ++ [x0a])) refTime
       = (None, t')
    /\ Time_Equal t' mstTime = true
    /\ Time_Zone_offset t' = Time_Zone_offset mstTime.
Proof.
  apply (JSONValue_JSONScan_NullTime (fun _ => []) (fun _ => [])
           (fun _ => None) MST noParse mstTime refTime).
  - vm_compute. reflexivity.
  - unfold Time_valid. vm_compute. intuition discriminate.
  - vm_compute. intuition discriminate.
  - vm_compute. intuition discriminate.
  - vm_compute. reflexivity.
Defined.

Lemma JSONScan_null_newline (fmtFloat_v : float -> bytes)
  (Time_String : Time -> bytes) (T : Type) (decode_nil : bytes -> option error)
  (UnmarshalJSON : T -> bytes -> option error * T) (s : T) :
  JSONScan fmtFloat_v Time_String unit T
    (json_Unmarshal_dst decode_nil UnmarshalJSON) (Some tt)
    (DString (lit "null" ++ [x0a])) s
  = (None, s).
Proof. reflexivity. Qed.

(** X17: the zero instant does not go through the generic helpers as it
    goes through [Value] and [Scan]. [JSONValue] of a zero [NullTime] is
    not SQL NULL but the text [null] followed by a newline; and [JSONScan]
    of that text into a pointer to a [NullTime] returns no error and
    leaves it as it was, where [NullTime.UnmarshalJSON] on [null] leaves
    the zero instant. *)
Theorem JSONValue_JSONScan_zero_NullTime (fmtFloat_v : float -> bytes)
  (Time_String : Time -> bytes) (decode_nil : bytes -> option error)
  (Local : Location) (Parse_RFC3339 : bytes -> result Time) (t r : NullTime) :
  Time_IsZero t = true ->
  NullTime_Value t = Ok DNil
  /\ JSONValue NullTime json_Marshal_NullTime (Some t)
     = Ok (DString (lit "null" ++ [x0a]))
  /\ JSONScan fmtFloat_v Time_String unit NullTime
       (json_Unmarshal_dst decode_nil
          (NullTime_UnmarshalJSON Local Parse_RFC3339))
       (Some tt) (DString (lit "null" ++ [x0a])) r
     = (None, r)
  /\ NullTime_UnmarshalJSON Local Parse_RFC3339 r (lit "null")
     = (None, mkTime 0 0 None).
Proof.
  intros Hz.
  split.
  { unfold NullTime_Value, sql_NullTime_Value. cbn [nt_Valid nt_Time].
    rewrite Hz. reflexivity. }
  split; [apply JSONValue_Ok, json_Marshal_NullTime_zero; exact Hz|].
  split; [apply JSONScan_null_newline|].
  apply NullTime_UnmarshalJSON_null_zero.
Qed.

Lemma JSONValue_JSONScan_zero_NullTime_witness :
  NullTime_Value (mkTime 0 0 (Some MST)) = Ok DNil
  /\ JSONValue NullTime json_Marshal_NullTime (Some (mkTime 0 0 (Some MST)))
     = Ok (DString (lit "null" ++ [x0a]))
  /\ JSONScan (fun _ => []) (fun _ => []) unit NullTime
       (json_Unmarshal_dst (fun _ => None) (NullTime_UnmarshalJSON MST noParse))
       (Some tt) (DString (lit "null" ++ [x0a])) refTime
     = (None, refTime)
  /\ NullTime_UnmarshalJSON MST noParse refTime (lit "null")
     = (None, mkTime 0 0 None).
Proof.
  apply (JSONValue_JSONScan_zero_NullTime (fun _ => []) (fun _ => [])
           (fun _ => None) MST noParse (mkTime 0 0 (Some MST)) refTime).
  reflexivity.
Defined.

(** ** The model of the standard library on known values *)

Example decimal_2006 : decimal 2006 = lit "2006".
Proof. reflexivity. Qed.

Example absDate_unix_epoch :
  absDate (Time_abs (mkTime 0 unixToInternal None)) true = (1970, 1, 1, 0).
Proof. vm_compute. reflexivity. Qed.

Example absDate_zero_Time :
  absDate (Time_abs (mkTime 0 0 None)) true = (1, 1, 1, 0).
Proof. vm_compute. reflexivity. Qed.

Example absDate_refTime :
  absDate (Time_abs refTime) true = (2006, 1, 2, 1)
  /\ absClock (Time_abs refTime) = (22, 4, 5).
Proof. vm_compute. auto. Qed.

Example Date_refTime : Date 2006 1 2 22 4 5 0 UTC = refTime.
Proof. vm_compute. reflexivity. Qed.

Example absDate_leap_years :
  absDate (Time_abs (Date 2024 2 29 0 0 0 0 UTC)) true = (2024, 2, 29, 59)
  /\ absDate (Time_abs (Date 2024 12 31 0 0 0 0 UTC)) true = (2024, 12, 31, 365)
  /\ absDate (Time_abs (Date 2023 12 31 0 0 0 0 UTC)) true = (2023, 12, 31, 364)
  /\ absDate (Time_abs (Date 2000 3 1 0 0 0 0 UTC)) true = (2000, 3, 1, 60)
  /\ absDate (Time_abs (Date 1900 3 1 0 0 0 0 UTC)) true = (1900, 3, 1, 59).
Proof. vm_compute. auto 10. Qed.

Example Date_normalizes :
  Date 2023 14 31 25 61 61 0 UTC = Date 2024 3 3 2 2 1 0 UTC.
Proof. vm_compute. reflexivity. Qed.

Example Time_MarshalJSON_mstTime :
  Time_MarshalJSON mstTime
  = Ok (quoted (lit "2006-01-02T15:04:05.123456-07:00")).
Proof. vm_compute. reflexivity. Qed.

Example Time_MarshalJSON_negative_year :
  Time_MarshalJSON (Date (-1) 1 1 0 0 0 0 UTC)
  = Err (errors_New (lit "Time.MarshalJSON: year outside of range [0,9999]")).
Proof. vm_compute. reflexivity. Qed.

Example Time_MarshalJSON_halfMinuteEast :
  Time_MarshalJSON halfMinuteEast
  = Ok (quoted (lit "2000-01-01T00:00:00+00:00")).
Proof. vm_compute. reflexivity. Qed.

Example parseRFC3339_east :
  parseRFC3339 (lit "2006-01-02T15:04:05.123456789+07:00") MST
  = Some (mkTime 123456789 (unixToInternal + 1136239445 - 50400)
                 (Some (FixedZone [] 25200))).
Proof. vm_compute. reflexivity. Qed.

Example parseRFC3339_rejects :
  parseRFC3339 (lit "2006-02-30T15:04:05Z") MST = None
  /\ parseRFC3339 (lit "2006-01-02 15:04:05Z") MST = None
  /\ parseRFC3339 (lit "2006-01-02T15:04:05+24:00") MST = None.
Proof. vm_compute. auto. Qed.

Example checkValid_accepts :
  checkValid (lit "null") = None
  /\ checkValid (lit " [1, 2.5e3, {}, true ] ") = None.
Proof. vm_compute. auto. Qed.

Example checkValid_rejects :
  checkValid (lit "[1,") = Some (json_SyntaxError_eof 3)
  /\ checkValid (lit "null x")
     = Some (json_SyntaxError_char "x"%byte (lit "after top-level value") 6).
Proof. vm_compute. auto. Qed.

Example appendCompact_drops_space :
  appendCompact (lit " [1, 2.5e3, { }, true ] ") true = Ok (lit "[1,2.5e3,{},true]").
Proof. vm_compute. reflexivity. Qed.

Example appendCompact_escapes_html :
  appendCompact (quoted (lit "a<b")) true = Ok (quoted (lit "a\u003cb")).
Proof. vm_compute. reflexivity. Qed.

Example NullTime_Scan_string :
  NullTime_Scan refTime (DString (lit "2006-01-02"))
  = (Some (errors_New
             (lit "unsupported Scan, storing driver.Value type string into type *time.Time")),
     refTime).
Proof. reflexivity. Qed.

Example NullTime_Scan_nil : NullTime_Scan refTime DNil = (None, mkTime 0 0 None).
Proof. reflexivity. Qed.
